(** * Travel-service records: a model of [app.py] and its properties

    The program is a form-based front end over one PostgreSQL table,
    [travel_services].  This development embeds

    - the Python values the forms produce (strings, dates, binary64 floats),
    - [build_payload], the normalisation of the form inputs,
    - the four data-access functions and the table they act on,
    - the cells of the data frame that [pd.read_sql] returns,
    - the filters of the list tab, the four tabs and the script,

    and proves the properties the specification states about them, or
    what the program does instead. *)

From Stdlib Require Import ZArith NArith List Bool Lia.
From Stdlib Require Import String Ascii.
From Stdlib Require Import Permutation Sorted.
From Stdlib Require Import SpecFloat.
Import ListNotations.

Local Open Scope Z_scope.

(** ** Python strings *)

(** A Python [str] is a sequence of Unicode code points. *)
Module Str.

Definition str := list N.

(** A literal made of ASCII characters. *)
Definition lit (s : string) : str := map N_of_ascii (list_ascii_of_string s).

(** [str.isspace] for one character: the code points CPython's
    [_PyUnicode_IsWhitespace] accepts. *)
Definition isspace (c : N) : bool :=
  (((9 <=? c) && (c <=? 13)) || ((28 <=? c) && (c <=? 32))
   || (c =? 133) || (c =? 160) || (c =? 5760)
   || ((8192 <=? c) && (c <=? 8202))
   || (c =? 8232) || (c =? 8233) || (c =? 8239) || (c =? 8287)
   || (c =? 12288))%N.

(** [s.lstrip()], [s.rstrip()] and [s.strip()] without argument. *)
Fixpoint lstrip (s : str) : str :=
  match s with
  | [] => []
  | c :: s' => if isspace c then lstrip s' else s
  end.

Definition rstrip (s : str) : str := rev (lstrip (rev s)).

Definition strip (s : str) : str := rstrip (lstrip s).

(** Truth value of a string: the empty string is false. *)
Definition truthy (s : str) : bool :=
  match s with [] => false | _ :: _ => true end.

(** [s or None]. *)
Definition or_None (s : str) : option str :=
  if truthy s then Some s else None.

Definition eqb (a b : str) : bool :=
  if list_eq_dec N.eq_dec a b then true else false.

(** [x in xs] for a list of strings. *)
Definition mem (x : str) (xs : list str) : bool := existsb (eqb x) xs.

(** No white space at either end. *)
Definition trimmed (s : str) : Prop :=
  (forall c t, s = c :: t -> isspace c = false) /\
  (forall c t, s = t ++ [c] -> isspace c = false).

(** A boolean test for [trimmed]. *)
Definition trimmedb (s : str) : bool :=
  match s with
  | [] => true
  | c :: _ => negb (isspace c) && negb (isspace (last s c))
  end.

End Str.

(** ** Dates *)

(** [datetime.date]: year, month and day, compared in that order. *)
Module PyDate.

Record date := mk { year : Z; month : Z; day : Z }.

Definition compare (a b : date) : comparison :=
  match year a ?= year b with
  | Eq => match month a ?= month b with
          | Eq => day a ?= day b
          | c => c
          end
  | c => c
  end.

Definition leb (a b : date) : bool :=
  match compare a b with Gt => false | _ => true end.

End PyDate.

(** ** Python floats *)

(** A Python [float] is an IEEE 754 binary64 number; [spec_float] with
    precision 53 and maximal exponent 1024 is its specification. *)
Module PyFloat.

Definition prec : Z := 53.
Definition emax : Z := 1024.

Definition float := spec_float.

(** Truth value of a float: both zeros are false, everything else
    (a NaN too) is true. *)
Definition truthy (x : float) : bool :=
  match x with S754_zero _ => false | _ => true end.

(** The binary64 number nearest to [n / d], ties to even, with sign [s]:
    what reading a decimal numeral gives.  The quotient of the two integers
    is taken with enough bits and rounded once, as [SFdiv] does. *)
Definition of_ratio (s : bool) (n d : positive) : float :=
  let '(q, e, l) := SFdiv_core_binary prec emax (Zpos n) 0 (Zpos d) 0 in
  binary_round_aux prec emax s q e l.

(** The numeral [n / d] with a sign, as written in a program. *)
Definition of_decimal (n : Z) (d : positive) : float :=
  match n with
  | Z0 => S754_zero false
  | Zpos p => of_ratio false p d
  | Zneg p => of_ratio true p d
  end.

(** [float(z)] for an integer. *)
Definition of_int (z : Z) : float := binary_normalize prec emax z 0 false.

Definition add (x y : float) : float := SFadd prec emax x y.

(** The integer nearest to [a / b] for [b > 0], ties to the even one. *)
Definition div_half_even (a b : Z) : Z :=
  let q := a / b in
  match 2 * (a mod b) ?= b with
  | Lt => q
  | Gt => q + 1
  | Eq => if Z.even q then q else q + 1
  end.

(** The magnitude of a finite float [m * 2^e] in hundredths, rounded to the
    nearest integer, ties to even: the digits [round(x, 2)] keeps. *)
Definition hundredths (m : positive) (e : Z) : Z :=
  if 0 <=? e then 100 * Zpos m * 2 ^ e
  else div_half_even (100 * Zpos m) (2 ^ (- e)).

(** [round(x, 2)] on a float.  NaN and the infinities round to themselves.
    A finite [x] is written in decimal with two digits after the point,
    correctly rounded from its exact binary value, and the numeral is read
    back as a float; the sign of [x] is kept, also on a zero result. *)
Definition round2 (x : float) : float :=
  match x with
  | S754_finite s m e =>
      match hundredths m e with
      | Zpos n => of_ratio s n 100
      | _ => S754_zero s
      end
  | _ => x
  end.

End PyFloat.

(** ** Python numbers *)

(** The values the two monetary entries of a payload take: [round(x or 0, 2)]
    is the integer [0] or a float. *)
Module PyNum.

Inductive num :=
| Int (z : Z)
| Float (f : PyFloat.float).

(** [x or 0] where [x] is a float or [None]. *)
Definition or_0 (x : option PyFloat.float) : num :=
  match x with
  | None => Int 0
  | Some f => if PyFloat.truthy f then Float f else Int 0
  end.

(** [round(v, 2)]: an integer rounds to itself. *)
Definition round2 (v : num) : num :=
  match v with
  | Int z => Int z
  | Float f => Float (PyFloat.round2 f)
  end.

(** [a + b]. *)
Definition add (a b : num) : num :=
  match a, b with
  | Int x, Int y => Int (x + y)
  | Int x, Float g => Float (PyFloat.add (PyFloat.of_int x) g)
  | Float f, Int y => Float (PyFloat.add f (PyFloat.of_int y))
  | Float f, Float g => Float (PyFloat.add f g)
  end.

End PyNum.

(** ** The fixed vocabularies of the forms *)

Module Vocabulary.
Import Str.

Definition SERVICE_TYPES : list str :=
  [lit "TRANSPORTE"; lit "HOSPEDAGEM"; lit "PASSAGEM AEREA"; lit "SEGURO"].

Definition AIRLINES : list str :=
  [lit "AIR FRANCE"; lit "AMERICAN AIRLINES"; lit "AZUL"; lit "DELTA";
   lit "GOL"; lit "LATAM AIRLINES"; lit "UNITED AIRLINES"].

Definition COST_CENTERS : list str :=
  [lit "N/A"; lit "ADM-RATEIO"; lit "FINANCEIRO"; lit "G. GERAL";
   lit "VENDAS"; lit "RH"; lit "OPS-RATEIO"].

Definition STATUSES : list str :=
  [lit "CANCELADA"; lit "ATENDIDA"; lit "EM ABERTO"].

(** The last letter of the eighth supplier is U+00C9. *)
Definition SUPPLIERS : list str :=
  [lit "LOCARIO"; lit "RICKER"; lit "MAX MOBILIDADE"; lit "RIOMAR";
   lit "HOTEL ROYAL REGENCY"; lit "IBIS BOTAFOGO"; lit "COPASTUR";
   lit "ROYAL ATLANTICA MACA" ++ [201%N]; lit "FOUR POINTS";
   lit "MONREALE"].

(** The fourth letter of the third month is U+00E7. *)
Definition MONTH_CHOICES : list (Z * str) :=
  [(1, lit "01 - Janeiro"); (2, lit "02 - Fevereiro");
   (3, lit "03 - Mar" ++ [231%N] ++ lit "o"); (4, lit "04 - Abril");
   (5, lit "05 - Maio"); (6, lit "06 - Junho"); (7, lit "07 - Julho");
   (8, lit "08 - Agosto"); (9, lit "09 - Setembro");
   (10, lit "10 - Outubro"); (11, lit "11 - Novembro");
   (12, lit "12 - Dezembro")].

(** The options of the airline select box: [[""] + AIRLINES]. *)
Definition airline_options : list str := [] :: AIRLINES.

End Vocabulary.

(** ** The payload *)

(** The dictionary [build_payload] returns, one field per key.  [id] is the
    key [update_record] adds to the dictionary it is given; a freshly built
    payload does not have it. *)
Module Payload.
Import Str.

Record t := mk {
  service_type : str;
  control : str;
  issue_date : PyDate.date;
  issuer : str;
  airline : option str;
  departure_date : option PyDate.date;
  month_number : Z;
  origin : option str;
  destination : option str;
  user_name : option str;
  reason : option str;
  cost_center : option str;
  service_cost : PyNum.num;
  fee : PyNum.num;
  status : option str;
  supplier : option str;
  nf_issue_date : option PyDate.date;
  nf_number : option str;
  id : option Z
}.

(** [payload["id"] = record_id]. *)
Definition set_id (record_id : Z) (p : t) : t :=
  mk (service_type p) (control p) (issue_date p) (issuer p) (airline p)
     (departure_date p) (month_number p) (origin p) (destination p)
     (user_name p) (reason p) (cost_center p) (service_cost p) (fee p)
     (status p) (supplier p) (nf_issue_date p) (nf_number p)
     (Some record_id).

End Payload.

(** [build_payload], argument for argument.  The two monetary arguments are
    floats; [None] stands for an input that is missing. *)
Definition build_payload
    (service_type control : Str.str) (issue_date : PyDate.date)
    (issuer airline : Str.str) (departure_date : option PyDate.date)
    (month_number : Z)
    (origin destination user_name reason cost_center : Str.str)
    (service_cost fee : option PyFloat.float)
    (status supplier : Str.str) (nf_issue_date : option PyDate.date)
    (nf_number : Str.str) : Payload.t :=
  {| Payload.service_type := service_type;
     Payload.control := Str.strip control;
     Payload.issue_date := issue_date;
     Payload.issuer := Str.strip issuer;
     Payload.airline := Str.or_None airline;
     Payload.departure_date := departure_date;
     Payload.month_number := month_number;
     Payload.origin := Str.or_None (Str.strip origin);
     Payload.destination := Str.or_None (Str.strip destination);
     Payload.user_name := Str.or_None (Str.strip user_name);
     Payload.reason := Str.or_None (Str.strip reason);
     Payload.cost_center := Str.or_None cost_center;
     Payload.service_cost := PyNum.round2 (PyNum.or_0 service_cost);
     Payload.fee := PyNum.round2 (PyNum.or_0 fee);
     Payload.status := Str.or_None status;
     Payload.supplier := Str.or_None supplier;
     Payload.nf_issue_date := nf_issue_date;
     Payload.nf_number := Str.or_None (Str.strip nf_number);
     Payload.id := None |}.

(** ** Results of a call *)

(** Why a statement does not complete.  The first three are errors of the
    database, which reach the program as [SQLAlchemyError]; the last is
    raised by the driver while it quotes the parameters, before anything is
    sent, and reaches the program as a plain [ValueError]. *)
Inductive db_error :=
| StringDataRightTruncation   (* value too long for type character varying(n) *)
| NumericValueOutOfRange      (* smallint out of range, numeric field overflow *)
| MissingBindParameter        (* a value is required for a bind parameter *)
| NulInStringLiteral.         (* a string literal cannot contain NUL characters *)

(** A call returns or raises.  [SQLAlchemyError] is what the submit handlers
    catch.  Nothing catches the others: the [ValueError] and [IndexError] of
    a failed unpacking, look-up or quoting, and the [TypeError] and
    [AttributeError] met on the date columns of the data frame. *)
Inductive exn :=
| SQLAlchemyError (d : db_error)
| ValueError
| IndexError
| TypeError
| AttributeError.

(** The exception a failure of a statement is raised as. *)
Definition raised (d : db_error) : exn :=
  match d with
  | NulInStringLiteral => ValueError
  | _ => SQLAlchemyError d
  end.

Inductive outcome (A : Type) :=
| Returned (a : A)
| Raised (x : exn).

Arguments Returned {A} a.
Arguments Raised {A} x.

(** The statement fails or yields a value. *)
Definition checked (A : Type) := (db_error + A)%type.

Definition bind {A B : Type} (c : checked A) (k : A -> checked B) : checked B :=
  match c with
  | inl d => inl d
  | inr a => k a
  end.

Notation "'do' x <- c ; k" := (bind c (fun x => k))
  (at level 10, x name, c at level 100, k at level 200).

(** ** The table [travel_services] *)

Module Table.
Import Str.

(** A [NUMERIC] value of scale 2, in hundredths; PostgreSQL's numeric type
    also has a NaN, equal to itself. *)
Inductive numeric :=
| NaN
| Num (cents : Z).

Definition numeric_add (a b : numeric) : numeric :=
  match a, b with
  | Num x, Num y => Num (x + y)
  | _, _ => NaN
  end.

(** [COALESCE(v, 0)]. *)
Definition coalesce_0 (v : option numeric) : numeric :=
  match v with
  | Some n => n
  | None => Num 0
  end.

(** [NUMERIC(12,2)] holds at most ten digits before the point. *)
Definition fits_12_2 (n : numeric) : bool :=
  match n with
  | NaN => true
  | Num c => Z.abs c <? 10 ^ 12
  end.

(** The eighteen columns that the [INSERT] and the [UPDATE] statement
    assign, with the types of the table definition: [NOT NULL] columns hold
    a value, the others a value or [NULL]. *)
Record assigned := mk_assigned {
  service_type : str;                       (* VARCHAR(32) NOT NULL *)
  control : str;                            (* VARCHAR(64) NOT NULL *)
  issue_date : PyDate.date;                 (* DATE NOT NULL *)
  issuer : str;                             (* VARCHAR(64) NOT NULL *)
  airline : option str;                     (* VARCHAR(64) *)
  departure_date : option PyDate.date;      (* DATE *)
  month_number : Z;                         (* SMALLINT NOT NULL *)
  origin : option str;                      (* VARCHAR(64) *)
  destination : option str;                 (* VARCHAR(64) *)
  user_name : option str;                   (* VARCHAR(64) *)
  reason : option str;                      (* TEXT *)
  cost_center : option str;                 (* VARCHAR(32) *)
  service_cost : option numeric;            (* NUMERIC(12,2) DEFAULT 0 *)
  fee : option numeric;                     (* NUMERIC(12,2) DEFAULT 0 *)
  status : option str;                      (* VARCHAR(32) *)
  supplier : option str;                    (* VARCHAR(64) *)
  nf_issue_date : option PyDate.date;       (* DATE *)
  nf_number : option str                    (* VARCHAR(64) *)
}.

(** A row: the assigned columns and the three the server fills in. *)
Record row := mk_row {
  id : Z;                                   (* SERIAL PRIMARY KEY *)
  cols : assigned;
  total_cost : option numeric;              (* NUMERIC(12,2) GENERATED *)
  created_at : Z                            (* TIMESTAMPTZ DEFAULT NOW() *)
}.

(** Storing a string in a [VARCHAR(n)] column: a longer string is an error
    unless the excess is all spaces, which are cut off. *)
Definition varchar (n : nat) (s : str) : checked str :=
  if (List.length s <=? n)%nat then inr s
  else if forallb (N.eqb 32) (skipn n s) then inr (firstn n s)
  else inl StringDataRightTruncation.

Definition nullable {A : Type} (f : A -> checked A) (v : option A)
  : checked (option A) :=
  match v with
  | None => inr None
  | Some a => do b <- f a; inr (Some b)
  end.

Definition smallint (z : Z) : checked Z :=
  if (-32768 <=? z) && (z <=? 32767) then inr z
  else inl NumericValueOutOfRange.

(** The expression of the generated column,
    [COALESCE(service_cost,0)+COALESCE(fee,0)], stored as [NUMERIC(12,2)]. *)
Definition generated_total_cost (a : assigned) : checked (option numeric) :=
  let t := numeric_add (coalesce_0 (service_cost a)) (coalesce_0 (fee a)) in
  if fits_12_2 t then inr (Some t) else inl NumericValueOutOfRange.

(** [ORDER BY issue_date DESC, id DESC]: [a] is listed no later than [b]. *)
Definition precedes (a b : row) : bool :=
  match PyDate.compare (issue_date (cols a)) (issue_date (cols b)) with
  | Gt => true
  | Lt => false
  | Eq => id b <=? id a
  end.

Fixpoint place (r : row) (l : list row) : list row :=
  match l with
  | [] => [r]
  | x :: l' => if precedes r x then r :: l else x :: place r l'
  end.

Definition order_by_issue_date_desc_id_desc (l : list row) : list row :=
  fold_right place [] l.

End Table.

(** ** The cells of the data frame

    [pd.read_sql] is called on a text query without [parse_dates].  The
    driver hands over a [DATE] as a [datetime.date] and a [NUMERIC] as a
    [Decimal]; pandas keeps the dates as they are, in a column of dtype
    [object], and turns the decimals into binary64 floats.  A frame is
    represented by the rows it was read from; what the program does with a
    cell of these columns is given here. *)

Module Frame.

(** [cell.date()]: a [datetime.date] has no such method. *)
Definition date_method (cell : PyDate.date) : outcome PyDate.date :=
  Raised AttributeError.

(** [column.dt]: the accessor exists for columns of time stamps only. *)
Definition dt (column : list PyDate.date) : outcome (list PyDate.date) :=
  Raised AttributeError.

(** [column >= pd.to_datetime(bound)] and [column <= pd.to_datetime(bound)],
    cell by cell: a [datetime.date] and a [Timestamp] do not compare, so the
    first cell raises.  A column without cells gives an empty mask. *)
Definition compare_timestamp (column : list PyDate.date) (bound : PyDate.date)
  : outcome (list bool) :=
  match column with
  | [] => Returned []
  | _ :: _ => Raised TypeError
  end.

(** [frame[mask]]: the rows whose entry of the mask is true. *)
Fixpoint where_true {A : Type} (mask : list bool) (frame : list A) : list A :=
  match mask, frame with
  | b :: mask', r :: frame' =>
      if b then r :: where_true mask' frame' else where_true mask' frame'
  | _, _ => []
  end.

(** The cell of a [NUMERIC] column: the float nearest to the decimal; a
    [NULL] becomes NaN. *)
Definition float64 (v : option Table.numeric) : PyFloat.float :=
  match v with
  | Some (Table.Num cents) => PyFloat.of_decimal cents 100
  | Some Table.NaN | None => S754_nan
  end.

(** The cells of the three cost columns. *)
Definition service_cost (r : Table.row) : PyFloat.float :=
  float64 (Table.service_cost (Table.cols r)).

Definition fee (r : Table.row) : PyFloat.float :=
  float64 (Table.fee (Table.cols r)).

Definition total_cost (r : Table.row) : PyFloat.float :=
  float64 (Table.total_cost r).

End Frame.

(** ** The columns the statements name *)

Module Column.

(** The columns of the table definition. *)
Inductive t :=
| id | service_type | control | issue_date | issuer | airline
| departure_date | month_number | origin | destination | user_name
| reason | cost_center | service_cost | fee | total_cost | status
| supplier | nf_issue_date | nf_number | created_at.

(** The column list of the [INSERT] statement. *)
Definition inserted : list t :=
  [service_type; control; issue_date; issuer; airline;
   departure_date; month_number; origin; destination;
   user_name; reason; cost_center; service_cost; fee;
   status; supplier; nf_issue_date; nf_number].

(** The columns on the left of the [SET] clause of the [UPDATE]
    statement. *)
Definition updated : list t :=
  [service_type; control; issue_date; issuer; airline; departure_date;
   month_number; origin; destination; user_name; reason; cost_center;
   service_cost; fee; status; supplier; nf_issue_date; nf_number].

(** What a column holds. *)
Inductive cell :=
| Null
| Text (s : Str.str)
| Date (d : PyDate.date)
| Integer (z : Z)
| Numeric (n : Table.numeric).

Definition or_null {A : Type} (f : A -> cell) (v : option A) : cell :=
  match v with
  | Some a => f a
  | None => Null
  end.

(** The value a statement binds to a column it names: the parameter of the
    column's name. *)
Definition parameter (c : t) (a : Table.assigned) : option cell :=
  match c with
  | service_type => Some (Text (Table.service_type a))
  | control => Some (Text (Table.control a))
  | issue_date => Some (Date (Table.issue_date a))
  | issuer => Some (Text (Table.issuer a))
  | airline => Some (or_null Text (Table.airline a))
  | departure_date => Some (or_null Date (Table.departure_date a))
  | month_number => Some (Integer (Table.month_number a))
  | origin => Some (or_null Text (Table.origin a))
  | destination => Some (or_null Text (Table.destination a))
  | user_name => Some (or_null Text (Table.user_name a))
  | reason => Some (or_null Text (Table.reason a))
  | cost_center => Some (or_null Text (Table.cost_center a))
  | service_cost => Some (or_null Numeric (Table.service_cost a))
  | fee => Some (or_null Numeric (Table.fee a))
  | status => Some (or_null Text (Table.status a))
  | supplier => Some (or_null Text (Table.supplier a))
  | nf_issue_date => Some (or_null Date (Table.nf_issue_date a))
  | nf_number => Some (or_null Text (Table.nf_number a))
  | id | total_cost | created_at => None
  end.

(** The cell of a row in a column. *)
Definition of_row (c : t) (r : Table.row) : cell :=
  match parameter c (Table.cols r) with
  | Some v => v
  | None =>
      match c with
      | id => Integer (Table.id r)
      | total_cost => or_null Numeric (Table.total_cost r)
      | _ => Integer (Table.created_at r)
      end
  end.

End Column.

(** ** The database behind the engine *)

(** The statements the program sends. *)
Inductive statement :=
| CreateTableIfNotExists
| SelectAll
| InsertInto (p : Payload.t)
| UpdateWhereId (p : Payload.t)
| DeleteWhereIdAny (ids : list Z).

(** The columns a statement names as the target of a value. *)
Definition columns_written (s : statement) : list Column.t :=
  match s with
  | InsertInto _ => Column.inserted
  | UpdateWhereId _ => Column.updated
  | CreateTableIfNotExists | SelectAll | DeleteWhereIdAny _ => []
  end.

(** The state reached through an [Engine]: the rows of [travel_services],
    the last value of the sequence behind [id], and the statements executed
    so far, latest first.  The table exists: [ensure_table] runs before
    anything else in [main]. *)
Record Engine := mk_engine {
  rows : list Table.row;
  last_id : Z;
  calls : list statement
}.

Definition executing (s : statement) (e : Engine) : Engine :=
  {| rows := rows e; last_id := last_id e; calls := s :: calls e |}.

Definition with_rows (rs : list Table.row) (e : Engine) : Engine :=
  {| rows := rs; last_id := last_id e; calls := calls e |}.

(** A database with the table just created. *)
Definition fresh : Engine := {| rows := []; last_id := 0; calls := [] |}.

Section DataAccess.

(** How a float bound to a statement reaches a [NUMERIC(12,2)] column
    depends on the database driver (the decimal text it sends) and is left
    open; [None] is a value the column rejects. *)
Variable numeric_of_float : PyFloat.float -> option Table.numeric.

Definition numeric_12_2 (v : PyNum.num) : checked (option Table.numeric) :=
  match v with
  | PyNum.Int z =>
      if Table.fits_12_2 (Table.Num (100 * z))
      then inr (Some (Table.Num (100 * z)))
      else inl NumericValueOutOfRange
  | PyNum.Float f =>
      match numeric_of_float f with
      | Some n => inr (Some n)
      | None => inl NumericValueOutOfRange
      end
  end.

(** The strings among the values of a payload. *)
Definition strings_of (p : Payload.t) : list Str.str :=
  [Payload.service_type p; Payload.control p; Payload.issuer p]
  ++ List.concat
       (map (fun v => match v with Some s => [s] | None => [] end)
          [Payload.airline p; Payload.origin p; Payload.destination p;
           Payload.user_name p; Payload.reason p; Payload.cost_center p;
           Payload.status p; Payload.supplier p; Payload.nf_number p]).

(** The driver quotes the parameters before it sends the statement; a
    string with a NUL character cannot be quoted. *)
Definition quoted (p : Payload.t) : checked unit :=
  if existsb (existsb (N.eqb 0)) (strings_of p)
  then inl NulInStringLiteral
  else inr tt.

(** The values of the bind parameters [:service_type] ... [:nf_number],
    quoted by the driver and then coerced, each to the type of its column,
    by the server. *)
Definition bind_columns (p : Payload.t) : checked Table.assigned :=
  do _ <- quoted p;
  do service_type <- Table.varchar 32 (Payload.service_type p);
  do control <- Table.varchar 64 (Payload.control p);
  do issuer <- Table.varchar 64 (Payload.issuer p);
  do airline <- Table.nullable (Table.varchar 64) (Payload.airline p);
  do month_number <- Table.smallint (Payload.month_number p);
  do origin <- Table.nullable (Table.varchar 64) (Payload.origin p);
  do destination <- Table.nullable (Table.varchar 64) (Payload.destination p);
  do user_name <- Table.nullable (Table.varchar 64) (Payload.user_name p);
  do cost_center <- Table.nullable (Table.varchar 32) (Payload.cost_center p);
  do service_cost <- numeric_12_2 (Payload.service_cost p);
  do fee <- numeric_12_2 (Payload.fee p);
  do status <- Table.nullable (Table.varchar 32) (Payload.status p);
  do supplier <- Table.nullable (Table.varchar 64) (Payload.supplier p);
  do nf_number <- Table.nullable (Table.varchar 64) (Payload.nf_number p);
  inr (Table.mk_assigned service_type control (Payload.issue_date p) issuer
         airline (Payload.departure_date p) month_number origin destination
         user_name (Payload.reason p) cost_center service_cost fee status
         supplier (Payload.nf_issue_date p) nf_number).

(** [ensure_table]: [CREATE TABLE IF NOT EXISTS] on a database that has the
    table changes nothing. *)
Definition ensure_table (e : Engine) : outcome unit * Engine :=
  (Returned tt, executing CreateTableIfNotExists e).

(** [fetch_dataframe]: every row, newest issue date first.  The result
    stands for the frame read from these rows; see [Frame] for its cells. *)
Definition fetch_dataframe (e : Engine) : outcome (list Table.row) * Engine :=
  (Returned (Table.order_by_issue_date_desc_id_desc (rows e)),
   executing SelectAll e).

(** A statement that fails while its parameters are quoted is not sent; one
    that fails on the server was sent. *)
Definition sent (d : db_error) (s : statement) (e : Engine) : Engine :=
  match d with
  | NulInStringLiteral => e
  | _ => executing s e
  end.

(** An [INSERT] that fails on the server has drawn its identifier: the
    sequence behind [id] is not rolled back with the transaction. *)
Definition drawn (d : db_error) (e : Engine) : Engine :=
  match d with
  | NulInStringLiteral => e
  | _ => {| rows := rows e; last_id := last_id e + 1; calls := calls e |}
  end.

(** [insert_record].  [now] is the server's clock when the statement runs.
    A failing statement adds no row. *)
Definition insert_record (now : Z) (payload : Payload.t) (e : Engine)
  : outcome unit * Engine :=
  match (do a <- bind_columns payload;
         do t <- Table.generated_total_cost a;
         inr (Table.mk_row (last_id e + 1) a t now)) with
  | inl d => (Raised (raised d), drawn d (sent d (InsertInto payload) e))
  | inr r =>
      (Returned tt,
       {| rows := rows e ++ [r]; last_id := Table.id r;
          calls := InsertInto payload :: calls e |})
  end.

(** The rows after [UPDATE ... SET ... WHERE id = i]: a matching row gets the
    assigned columns and a recomputed total and keeps [id] and
    [created_at]. *)
Fixpoint update_where_id (i : Z) (a : Table.assigned) (l : list Table.row)
  : checked (list Table.row) :=
  match l with
  | [] => inr []
  | r :: l' =>
      do r' <- (if Table.id r =? i
                then do t <- Table.generated_total_cost a;
                     inr (Table.mk_row (Table.id r) a t (Table.created_at r))
                else inr r);
      do l'' <- update_where_id i a l';
      inr (r' :: l'')
  end.

(** [update_record]: the payload it is given gets the key [id]; the second
    component of the result is that dictionary after the call.  A failing
    statement changes no row. *)
Definition update_record (record_id : Z) (payload : Payload.t) (e : Engine)
  : outcome unit * Payload.t * Engine :=
  let payload := Payload.set_id record_id payload in
  match (do a <- bind_columns payload;
         do i <- match Payload.id payload with
                 | Some i => inr i
                 | None => inl MissingBindParameter
                 end;
         update_where_id i a (rows e)) with
  | inl d => (Raised (raised d), payload, sent d (UpdateWhereId payload) e)
  | inr rs =>
      (Returned tt, payload,
       with_rows rs (executing (UpdateWhereId payload) e))
  end.

(** [delete_records]: [DELETE ... WHERE id = ANY(:ids)]. *)
Definition delete_records (ids : list Z) (e : Engine)
  : outcome unit * Engine :=
  let e := executing (DeleteWhereIdAny ids) e in
  (Returned tt,
   with_rows
     (filter (fun r => negb (existsb (Z.eqb (Table.id r)) ids)) (rows e)) e).

End DataAccess.

(** ** The list tab and its filters *)

Module View.
Import Str.

(** [filtered[filtered["status"].isin(selected_status)]], applied when
    [selected_status] is not empty.  A [NULL] status is in no selection. *)
Definition status_isin (selected_status : list str) (r : Table.row) : bool :=
  match Table.status (Table.cols r) with
  | Some s => mem s selected_status
  | None => false
  end.

Definition filter_status (selected_status : list str)
    (filtered : list Table.row) : list Table.row :=
  match selected_status with
  | [] => filtered
  | _ :: _ => filter (status_isin selected_status) filtered
  end.

(** [[choice[0] for choice in MONTH_CHOICES if choice[1] in selected_months]] *)
Definition month_numbers (selected_months : list str) : list Z :=
  map fst
    (filter (fun choice => mem (snd choice) selected_months)
       Vocabulary.MONTH_CHOICES).

Definition filter_months (selected_months : list str)
    (filtered : list Table.row) : list Table.row :=
  match selected_months with
  | [] => filtered
  | _ :: _ =>
      filter
        (fun r =>
           existsb (Z.eqb (Table.month_number (Table.cols r)))
             (month_numbers selected_months))
        filtered
  end.

(** [filtered["issue_date"]] *)
Definition issue_dates (filtered : list Table.row) : list PyDate.date :=
  map (fun r => Table.issue_date (Table.cols r)) filtered.

(** [m1 & m2] *)
Definition both (m1 m2 : list bool) : list bool :=
  map (fun b => fst b && snd b) (combine m1 m2).

(** [issue_range] is [None] when the check box is off and otherwise the
    tuple the date input returns; an empty tuple is false, and
    [start, end = issue_range] needs exactly two values.  Then
    [filtered[(issue_date >= to_datetime(start))
              & (issue_date <= to_datetime(end))]]. *)
Definition filter_issue_range (issue_range : option (list PyDate.date))
    (filtered : list Table.row) : outcome (list Table.row) :=
  match issue_range with
  | None | Some [] => Returned filtered
  | Some [start; end_] =>
      match Frame.compare_timestamp (issue_dates filtered) start with
      | Raised x => Raised x
      | Returned from_start =>
          match Frame.compare_timestamp (issue_dates filtered) end_ with
          | Raised x => Raised x
          | Returned to_end =>
              Returned (Frame.where_true (both from_start to_end) filtered)
          end
      end
  | Some _ => Raised ValueError
  end.

(** The three filters in the order [show_table_tab] applies them. *)
Definition apply_filters (selected_status selected_months : list str)
    (issue_range : option (list PyDate.date)) (data : list Table.row)
  : outcome (list Table.row) :=
  filter_issue_range issue_range
    (filter_months selected_months (filter_status selected_status data)).

End View.

(** ** Month labels and the month select box *)

Module Month.
Import Str.

(** [dict(MONTH_CHOICES).get(month_number, "")]: of two pairs with one key
    a dictionary keeps the later. *)
Definition pt_month_label (month_number : Z) : str :=
  match find (fun choice => fst choice =? month_number)
          (rev Vocabulary.MONTH_CHOICES) with
  | Some choice => snd choice
  | None => []
  end.

(** [xs.index(x)]: the first position of [x], [None] where Python raises
    [ValueError]. *)
Fixpoint index {A : Type} (eqb : A -> A -> bool) (x : A) (xs : list A)
  : option nat :=
  match xs with
  | [] => None
  | y :: ys =>
      if eqb x y then Some 0%nat
      else match index eqb x ys with
           | Some i => Some (S i)
           | None => None
           end
  end.

Definition labels : list str := map snd Vocabulary.MONTH_CHOICES.

Definition numbers : list Z := map fst Vocabulary.MONTH_CHOICES.

(** [numbers.index(default_value) if default_value in numbers else 0] *)
Definition default_index (default_value : Z) : nat :=
  if existsb (Z.eqb default_value) numbers then
    match index Z.eqb default_value numbers with
    | Some i => i
    | None => 0%nat
    end
  else 0%nat.

(** [month_selectbox].  [picked] is the label the user chose in the select
    box, [None] while the box shows the option at [default_index]. *)
Definition month_selectbox (default_value : Z) (picked : option str)
  : outcome Z :=
  let selection :=
    match picked with
    | Some l => Some l
    | None => nth_error labels (default_index default_value)
    end in
  match selection with
  | None => Raised IndexError
  | Some l =>
      match index eqb l labels with
      | None => Raised ValueError
      | Some i =>
          match nth_error numbers i with
          | Some n => Returned n
          | None => Raised IndexError
          end
      end
  end.

(** [optional_date_input] returns what the date picker holds. *)
Definition optional_date_input (value : option PyDate.date)
  : option PyDate.date := value.

End Month.

(** ** The values the update form starts from

    The look-ups that pre-set the widgets of the update form on the stored
    values. *)

Module Prefill.
Import Str.

(** [row[...] or ""] for a text input. *)
Definition text (v : option str) : str :=
  match v with
  | Some s => s
  | None => []
  end.

(** [options[options.index(x)]]: the select box pre-set on a stored value;
    [list.index] raises [ValueError] on a value that is no option. *)
Definition at_index_of (x : str) (options : list str) : outcome str :=
  match Month.index eqb x options with
  | None => Raised ValueError
  | Some i =>
      match nth_error options i with
      | Some o => Returned o
      | None => Raised IndexError
      end
  end.

(** [index=SERVICE_TYPES.index(row["service_type"])] *)
Definition service_type (r : Table.row) : outcome str :=
  at_index_of (Table.service_type (Table.cols r)) Vocabulary.SERVICE_TYPES.

(** [index=([""] + AIRLINES).index(row["airline"] or "")] *)
Definition airline (r : Table.row) : outcome str :=
  at_index_of (text (Table.airline (Table.cols r))) Vocabulary.airline_options.

(** [index=STATUSES.index(row["status"]) if row["status"] else 0] *)
Definition status (r : Table.row) : outcome str :=
  match Table.status (Table.cols r) with
  | Some ((_ :: _) as s) => at_index_of s Vocabulary.STATUSES
  | _ =>
      match nth_error Vocabulary.STATUSES 0 with
      | Some o => Returned o
      | None => Raised IndexError
      end
  end.

End Prefill.

(** ** What the pages show *)

Inductive ui :=
| error_control_required            (* "O campo Controle é obrigatório." *)
| error_saving (d : db_error)       (* "Erro ao salvar: ..." *)
| error_updating (d : db_error)     (* "Erro ao atualizar: ..." *)
| error_deleting (d : db_error)     (* "Erro ao excluir: ..." *)
| success_saved                     (* "Registro salvo com sucesso." *)
| success_updated                   (* "Registro atualizado." *)
| success_deleted (n : nat)         (* "n registro(s) excluído(s)." *)
| info_total (x : PyNum.num)        (* "Custo total calculado: R$ ..." *)
| info_new_total (x : PyNum.num)    (* "Novo custo total: R$ ..." *)
| info_no_records                   (* "Nenhum registro cadastrado." *)
| info_nothing_to_edit              (* "Nenhum registro disponível para edição." *)
| info_nothing_to_delete            (* "Nenhum registro disponível para exclusão." *)
| warning_no_match                  (* "Nenhum registro encontrado ..." *)
| dataframe (shown : list Table.row)
| rerun.

(** The values of the widgets of a form when the script runs. *)
Record form := mk_form {
  service_type : Str.str;
  control : Str.str;
  issue_date : PyDate.date;
  issuer : Str.str;
  airline : Str.str;
  month_number : Z;
  status : Str.str;
  departure_date : option PyDate.date;
  origin : Str.str;
  destination : Str.str;
  user_name : Str.str;
  reason : Str.str;
  cost_center : Str.str;
  supplier : Str.str;
  service_cost : PyFloat.float;
  fee : PyFloat.float;
  nf_issue_date : option PyDate.date;
  nf_number : Str.str;
  submitted : bool
}.

Definition payload_of_form (f : form) : Payload.t :=
  build_payload (service_type f) (control f) (issue_date f) (issuer f)
    (airline f) (departure_date f) (month_number f) (origin f)
    (destination f) (user_name f) (reason f) (cost_center f)
    (Some (service_cost f)) (Some (fee f)) (status f) (supplier f)
    (nf_issue_date f) (nf_number f).

Section Pages.

Variable numeric_of_float : PyFloat.float -> option Table.numeric.

(** [show_create_tab]: what the page shows and what becomes of the
    database, given the values of the form. *)
Definition show_create_tab (now : Z) (f : form) (e : Engine)
  : outcome (list ui) * Engine :=
  if submitted f then
    if negb (Str.truthy (Str.strip (control f))) then
      (Returned [error_control_required], e)
    else
      let payload := payload_of_form f in
      match insert_record numeric_of_float now payload e with
      | (Returned _, e') =>
          (Returned
             [success_saved;
              info_total
                (PyNum.add (Payload.service_cost payload)
                   (Payload.fee payload));
              rerun], e')
      | (Raised (SQLAlchemyError d), e') => (Returned [error_saving d], e')
      | (Raised x, e') => (Raised x, e')
      end
  else (Returned [], e).

(** [show_table_tab], given the values of the filter widgets.  The table
    to show has the filtered rows; its issue dates are formatted first, with
    [display_df["issue_date"].dt.strftime]. *)
Definition show_table_tab (selected_status selected_months : list Str.str)
    (issue_range : option (list PyDate.date)) (e : Engine)
  : outcome (list ui) * Engine :=
  match fetch_dataframe e with
  | (Raised x, e') => (Raised x, e')
  | (Returned [], e') => (Returned [info_no_records], e')
  | (Returned data, e') =>
      match View.apply_filters selected_status selected_months issue_range
              data with
      | Raised x => (Raised x, e')
      | Returned [] => (Returned [warning_no_match], e')
      | Returned filtered =>
          match Frame.dt (View.issue_dates filtered) with
          | Raised x => (Raised x, e')
          | Returned _ => (Returned [dataframe filtered], e')
          end
      end
  end.

(** [data[data["id"] == selected_id].iloc[0]] *)
Definition row_with_id (selected_id : Z) (data : list Table.row)
  : outcome Table.row :=
  match filter (fun r => Table.id r =? selected_id) data with
  | r :: _ => Returned r
  | [] => Raised IndexError
  end.

(** [show_update_tab], given the record chosen and the values of the
    form.  The widgets of the form are built in order, each pre-set on the
    stored value: the service type with [SERVICE_TYPES.index], the issue
    date with [row["issue_date"].date()], then the airline and the status
    with their look-ups.  No field is validated here. *)
Definition show_update_tab (selected_id : Z) (f : form) (e : Engine)
  : outcome (list ui) * Engine :=
  match fetch_dataframe e with
  | (Raised x, e') => (Raised x, e')
  | (Returned [], e') => (Returned [info_nothing_to_edit], e')
  | (Returned data, e') =>
      match row_with_id selected_id data with
      | Raised x => (Raised x, e')
      | Returned r =>
          match Prefill.service_type r with
          | Raised x => (Raised x, e')
          | Returned _ =>
          match Frame.date_method (Table.issue_date (Table.cols r)) with
          | Raised x => (Raised x, e')
          | Returned _ =>
          match Prefill.airline r with
          | Raised x => (Raised x, e')
          | Returned _ =>
          match Prefill.status r with
          | Raised x => (Raised x, e')
          | Returned _ =>
              if submitted f then
                match update_record numeric_of_float selected_id
                        (payload_of_form f) e' with
                | (Returned _, payload, e'') =>
                    (Returned
                       [success_updated;
                        info_new_total
                          (PyNum.add (Payload.service_cost payload)
                             (Payload.fee payload));
                        rerun], e'')
                | (Raised (SQLAlchemyError d), _, e'') =>
                    (Returned [error_updating d], e'')
                | (Raised x, _, e'') => (Raised x, e'')
                end
              else (Returned [], e')
          end end end end
      end
  end.

(** [show_delete_tab], given the records selected and whether the button
    was pressed. *)
Definition show_delete_tab (selection : list Z) (pressed : bool)
    (e : Engine) : outcome (list ui) * Engine :=
  match fetch_dataframe e with
  | (Raised x, e') => (Raised x, e')
  | (Returned [], e') => (Returned [info_nothing_to_delete], e')
  | (Returned _, e') =>
      match selection with
      | [] => (Returned [], e')
      | _ :: _ =>
          if pressed then
            match delete_records selection e' with
            | (Returned _, e'') =>
                (Returned [success_deleted (List.length selection); rerun], e'')
            | (Raised (SQLAlchemyError d), e'') =>
                (Returned [error_deleting d], e'')
            | (Raised x, e'') => (Raised x, e'')
            end
          else (Returned [], e')
      end
  end.

End Pages.

(** ** The driver *)

Module Driver.
Import Table.

Definition signed (s : bool) (z : Z) : Z := if s then - z else z.

(** The hundredths a float amounts to, when its value is a whole number of
    hundredths. *)
Definition exact_hundredths (x : PyFloat.float) : option Z :=
  match x with
  | S754_zero _ => Some 0
  | S754_finite s m e =>
      if 0 <=? e then Some (signed s (100 * Zpos m * 2 ^ e))
      else if (100 * Zpos m) mod 2 ^ (- e) =? 0
           then Some (signed s (100 * Zpos m / 2 ^ (- e)))
           else None
  | _ => None
  end.

(** What every driver does: a float whose value has at most two decimals,
    and fits the column, is stored as that value. *)
Definition keeps_exact_decimals
    (numeric_of_float : PyFloat.float -> option numeric) : Prop :=
  forall x c,
    exact_hundredths x = Some c -> Z.abs c < 10 ^ 12 ->
    numeric_of_float x = Some (Num c).

(** The integer nearest to [a / b] for [a >= 0] and [b > 0], ties away
    from zero: the rounding of PostgreSQL's numeric type. *)
Definition div_half_away (a b : Z) : Z := (2 * a + b) / (2 * b).

(** One such conversion: the value of the float rounded to two decimals.
    NaN is a numeric value; an infinity does not fit the column. *)
Definition by_value (x : PyFloat.float) : option numeric :=
  match x with
  | S754_nan => Some NaN
  | S754_infinity _ => None
  | S754_zero _ => Some (Num 0)
  | S754_finite s m e =>
      let c := if 0 <=? e then 100 * Zpos m * 2 ^ e
               else div_half_away (100 * Zpos m) (2 ^ (- e)) in
      if c <? 10 ^ 12 then Some (Num (signed s c)) else None
  end.

End Driver.

(** ** Predicates of the statements *)

Module PyDateOrder.

(** [a <= b] on dates: year, then month, then day. *)
Definition le (a b : PyDate.date) : Prop :=
  PyDate.year a < PyDate.year b \/
  (PyDate.year a = PyDate.year b /\
   (PyDate.month a < PyDate.month b \/
    (PyDate.month a = PyDate.month b /\ PyDate.day a <= PyDate.day b))).

Definition lt (a b : PyDate.date) : Prop := le a b /\ a <> b.

End PyDateOrder.

(** [a] comes no later than [b] in a list ordered by issue date descending
    and, for equal issue dates, by identifier descending. *)
Definition newest_first (a b : Table.row) : Prop :=
  PyDateOrder.lt (Table.issue_date (Table.cols b))
                 (Table.issue_date (Table.cols a)) \/
  (Table.issue_date (Table.cols a) = Table.issue_date (Table.cols b) /\
   Table.id b <= Table.id a).

(** The total cost of a row is the sum of its two cost columns, an absent
    one counting as zero. *)
Definition total_is_sum (r : Table.row) : Prop :=
  Table.total_cost r =
  Some (Table.numeric_add (Table.coalesce_0 (Table.service_cost (Table.cols r)))
                          (Table.coalesce_0 (Table.fee (Table.cols r)))).

(** The same in the words of the specification, without the functions of
    the table.  A cost column counts for its value, and for zero when it is
    absent. *)
Inductive counts_for : option Table.numeric -> Table.numeric -> Prop :=
| counts_absent : counts_for None (Table.Num 0)
| counts_value n : counts_for (Some n) n.

(** The sum of two amounts in hundredths; NaN as soon as one of them is. *)
Inductive sums_to : Table.numeric -> Table.numeric -> Table.numeric -> Prop :=
| sums_amounts x y : sums_to (Table.Num x) (Table.Num y) (Table.Num (x + y))
| sums_nan_left b : sums_to Table.NaN b Table.NaN
| sums_nan_right a : sums_to a Table.NaN Table.NaN.

Definition total_as_specified (r : Table.row) : Prop :=
  exists a b t,
    counts_for (Table.service_cost (Table.cols r)) a /\
    counts_for (Table.fee (Table.cols r)) b /\
    sums_to a b t /\
    Table.total_cost r = Some t.

(** The states the program reaches from a database with the empty table,
    through its five data-access functions. *)
Inductive reachable (numeric_of_float : PyFloat.float -> option Table.numeric)
  : Engine -> Prop :=
| reach_fresh : reachable numeric_of_float fresh
| reach_ensure_table e :
    reachable numeric_of_float e ->
    reachable numeric_of_float (snd (ensure_table e))
| reach_fetch_dataframe e :
    reachable numeric_of_float e ->
    reachable numeric_of_float (snd (fetch_dataframe e))
| reach_insert_record now payload e :
    reachable numeric_of_float e ->
    reachable numeric_of_float
      (snd (insert_record numeric_of_float now payload e))
| reach_update_record record_id payload e :
    reachable numeric_of_float e ->
    reachable numeric_of_float
      (snd (update_record numeric_of_float record_id payload e))
| reach_delete_records ids e :
    reachable numeric_of_float e ->
    reachable numeric_of_float (snd (delete_records ids e)).

(** A payload entry that is [None] or a non-empty string, and one that is
    moreover free of white space at both ends. *)
Definition null_or_nonempty (v : option Str.str) : Prop :=
  v = None \/ exists s, v = Some s /\ s <> [].

Definition null_or_nonempty_trimmed (v : option Str.str) : Prop :=
  v = None \/ exists s, v = Some s /\ s <> [] /\ Str.trimmed s.

(** [n] is an integer nearest to the magnitude of [m * 2^e] in hundredths. *)
Definition nearest_hundredths (m : positive) (e n : Z) : Prop :=
  if 0 <=? e then n = 100 * Zpos m * 2 ^ e
  else 2 * Z.abs (100 * Zpos m - n * 2 ^ (- e)) <= 2 ^ (- e).

(** What [round(x or 0, 2)] makes of a monetary input: the integer [0] of
    a missing or zero input; a NaN or an infinity as it is; and of any other
    float, whatever its sign, the float read from the numeral of an integer
    number of hundredths nearest to it. *)
Definition money_normalised (input : option PyFloat.float) (out : PyNum.num)
  : Prop :=
  match input with
  | None | Some (S754_zero _) => out = PyNum.Int 0
  | Some (S754_finite s m e) =>
      exists n,
        0 <= n /\ nearest_hundredths m e n /\
        out = PyNum.Float match n with
                          | Zpos k => PyFloat.of_ratio s k 100
                          | _ => S754_zero s
                          end
  | Some x => out = PyNum.Float x
  end.

(** An entry made with [s.strip() or None]. *)
Definition stripped_or_null (input : Str.str) (v : option Str.str) : Prop :=
  null_or_nonempty_trimmed v /\
  (Str.strip input = [] /\ v = None \/
   Str.strip input <> [] /\ v = Some (Str.strip input)).

(** An entry made with [s or None]. *)
Definition given_or_null (input : Str.str) (v : option Str.str) : Prop :=
  null_or_nonempty v /\
  (input = [] /\ v = None \/ input <> [] /\ v = Some input).

(** ** Values used in the examples *)

Module Sample.
Import Str.

Definition d_2024_03_01 : PyDate.date := PyDate.mk 2024 3 1.

(** The form of the specification's example: control ["ABC123"], issue
    date 2024-03-01, service cost [100.005], fee [50.00]. *)
Definition abc123 : form :=
  {| service_type := lit "PASSAGEM AEREA";
     control := lit "ABC123";
     issue_date := d_2024_03_01;
     issuer := lit "MARIA";
     airline := lit "AZUL";
     month_number := 3;
     status := lit "EM ABERTO";
     departure_date := None;
     origin := lit " GIG ";
     destination := lit "";
     user_name := lit "";
     reason := lit "";
     cost_center := lit "N/A";
     supplier := lit "COPASTUR";
     service_cost := PyFloat.of_decimal 100005 1000;
     fee := PyFloat.of_decimal 50 1;
     nf_issue_date := None;
     nf_number := lit "";
     submitted := true |}.

Definition with_control (c : str) (f : form) : form :=
  mk_form (service_type f) c (issue_date f) (issuer f) (airline f)
    (month_number f) (status f) (departure_date f) (origin f)
    (destination f) (user_name f) (reason f) (cost_center f) (supplier f)
    (service_cost f) (fee f) (nf_issue_date f) (nf_number f) (submitted f).

(** The database after the example record was saved at time 1000. *)
Definition one_record : Engine :=
  snd (show_create_tab Driver.by_value 1000 abc123 fresh).

(** A row with the given identifier and issue date. *)
Definition row_of (i : Z) (d : PyDate.date) (st : option str) : Table.row :=
  Table.mk_row i
    (Table.mk_assigned (lit "SEGURO") (lit "C") d (lit "") None None
       (PyDate.month d) None None None None None (Some (Table.Num 100))
       (Some (Table.Num 0)) st None None None)
    (Some (Table.Num 100)) 0.

End Sample.

(** ** The script *)

(** What the user's session holds when the script runs: the environment
    variable, the server's clock and the values of the widgets of the four
    tabs. *)
Record session := mk_session {
  database_url : option Str.str;
  clock : Z;
  create_form : form;
  selected_status : list Str.str;
  selected_months : list Str.str;
  issue_range : option (list PyDate.date);
  selected_id : Z;
  update_form : form;
  selection : list Z;
  pressed : bool
}.

(** How a run of the script ends: stopped by [st.stop()] after the message
    about the missing [DATABASE_URL], run to its end or to a [st.rerun()]
    with the messages of the tabs in order, or ended by an exception. *)
Inductive run :=
| Stopped
| Shown (messages : list ui)
| Failed (x : exn).

(** [get_engine]: [None] when the script is stopped because
    [DATABASE_URL] is unset or empty. *)
Definition get_engine (url : option Str.str) : option Str.str :=
  match url with
  | Some ((_ :: _) as u) => Some u
  | _ => None
  end.

(** [st.rerun()] ends the run: nothing after it is rendered. *)
Definition reruns (messages : list ui) : bool :=
  existsb (fun m => match m with rerun => true | _ => false end) messages.

Section Script.

Variable numeric_of_float : PyFloat.float -> option Table.numeric.

(** The next tab, unless the run has ended. *)
Definition then_tab (page : Engine -> outcome (list ui) * Engine)
    (so_far : run * Engine) : run * Engine :=
  match so_far with
  | (Shown messages, e) =>
      if reruns messages then so_far
      else match page e with
           | (Returned more, e') => (Shown (messages ++ more), e')
           | (Raised x, e') => (Failed x, e')
           end
  | _ => so_far
  end.

(** [main]: the engine, the table, then the four tabs in order. *)
Definition main (s : session) (e : Engine) : run * Engine :=
  match get_engine (database_url s) with
  | None => (Stopped, e)
  | Some _ =>
      match ensure_table e with
      | (Raised x, e0) => (Failed x, e0)
      | (Returned _, e0) =>
          then_tab (show_delete_tab (selection s) (pressed s))
            (then_tab
               (show_update_tab numeric_of_float (selected_id s)
                  (update_form s))
               (then_tab
                  (show_table_tab (selected_status s) (selected_months s)
                     (issue_range s))
                  (then_tab
                     (show_create_tab numeric_of_float (clock s)
                        (create_form s))
                     (Shown [], e0))))
      end
  end.

End Script.

(** ** Further predicates *)

(** The identifiers of the rows are distinct, positive and not above the
    last value of the sequence. *)
Definition identifiers_ok (e : Engine) : Prop :=
  0 <= last_id e /\
  NoDup (map Table.id (rows e)) /\
  Forall (fun r => 0 < Table.id r <= last_id e) (rows e).

Definition at_most (n : nat) (v : option Str.str) : Prop :=
  match v with
  | Some s => (List.length s <= n)%nat
  | None => True
  end.

(** The assigned columns respect the widths and ranges of the table
    definition. *)
Definition widths_ok (a : Table.assigned) : Prop :=
  (List.length (Table.service_type a) <= 32)%nat /\
  (List.length (Table.control a) <= 64)%nat /\
  (List.length (Table.issuer a) <= 64)%nat /\
  at_most 64 (Table.airline a) /\
  -32768 <= Table.month_number a <= 32767 /\
  at_most 64 (Table.origin a) /\
  at_most 64 (Table.destination a) /\
  at_most 64 (Table.user_name a) /\
  at_most 32 (Table.cost_center a) /\
  at_most 32 (Table.status a) /\
  at_most 64 (Table.supplier a) /\
  at_most 64 (Table.nf_number a).

(** A second form, issued four days after the example, and the database
    after both were saved. *)
Definition later_form : form :=
  mk_form (Str.lit "HOSPEDAGEM") (Str.lit " XYZ9 ") (PyDate.mk 2024 3 5)
    (Str.lit "JOAO") (Str.lit "") 3 (Str.lit "ATENDIDA") None (Str.lit "")
    (Str.lit "") (Str.lit "") (Str.lit "") (Str.lit "RH")
    (Str.lit "IBIS BOTAFOGO") (PyFloat.of_decimal 2505 10)
    (PyFloat.of_decimal 0 1) None (Str.lit "") true.

Definition two_records : Engine :=
  snd (show_create_tab Driver.by_value 2000 later_form Sample.one_record).

(** [out] is [input] without some white space at its two ends. *)
Definition only_outer_space (input out : Str.str) : Prop :=
  exists w1 w2,
    input = w1 ++ out ++ w2 /\
    forallb Str.isspace w1 = true /\ forallb Str.isspace w2 = true.

(** The same form before its button is pressed. *)
Definition not_submitted (f : form) : form :=
  mk_form (service_type f) (control f) (issue_date f) (issuer f) (airline f)
    (month_number f) (status f) (departure_date f) (origin f)
    (destination f) (user_name f) (reason f) (cost_center f) (supplier f)
    (service_cost f) (fee f) (nf_issue_date f) (nf_number f) false.

(** A session in which the second form is being saved, and the same with a
    blank control code or without the environment variable. *)
Definition saving_session (url : option Str.str) (f : form) : session :=
  {| database_url := url;
     clock := 2000;
     create_form := f;
     selected_status := [];
     selected_months := [];
     issue_range := None;
     selected_id := 1;
     update_form := not_submitted Sample.abc123;
     selection := [];
     pressed := false |}.

Definition sample_url : option Str.str :=
  Some (Str.lit "postgresql://localhost/travel").

(** [x] is a number, not a NaN, and its sign bit is [s]. *)
Definition has_sign (s : bool) (x : PyFloat.float) : Prop :=
  match x with
  | S754_zero s' | S754_infinity s' | S754_finite s' _ _ => s' = s
  | S754_nan => False
  end.

(** A monetary entry of a payload that is the integer [0] or a float with
    the given sign. *)
Definition cost_has_sign (s : bool) (v : PyNum.num) : Prop :=
  match v with
  | PyNum.Int z => z = 0
  | PyNum.Float y => has_sign s y
  end.

(** The statements a call added to the log. *)
Definition added (before after : Engine) (l : list statement) : Prop :=
  calls after = l ++ calls before.

(** A property of the statements a page adds to the log. *)
Definition adds (Q : list statement -> Prop)
    (page : Engine -> outcome (list ui) * Engine) : Prop :=
  forall e, exists l, added e (snd (page e)) l /\ Q l.

(** * Properties *)

(** ** Values

    The model of strings and floats on values whose Python results are
    known. *)

Example lit_abc : Str.lit "ABC" = [65; 66; 67]%N.
Proof. reflexivity. Qed.

Example strip_example :
  Str.strip (Str.lit "  a b ") = Str.lit "a b".
Proof. reflexivity. Qed.

(** The float written [0.1] is [0x1.999999999999ap-4]. *)
Example of_decimal_tenth :
  PyFloat.of_decimal 1 10 = S754_finite false 7205759403792794 (-56).
Proof. vm_compute. reflexivity. Qed.

(** The float written [100.005] is [0x1.90051eb851eb8p+6], just below the
    decimal it was written as. *)
Example of_decimal_100_005 :
  PyFloat.of_decimal 100005 1000 = S754_finite false 7037226261487288 (-46).
Proof. vm_compute. reflexivity. Qed.

(** [round(2.675, 2) == 2.67], [round(0.125, 2) == 0.12],
    [round(-0.001, 2) == -0.0] and [round(1e300, 2) == 1e300]. *)
Example round2_examples :
  PyFloat.round2 (PyFloat.of_decimal 2675 1000) = PyFloat.of_decimal 267 100 /\
  PyFloat.round2 (PyFloat.of_decimal 125 1000) = PyFloat.of_decimal 12 100 /\
  PyFloat.round2 (PyFloat.of_decimal (-1) 1000) = S754_zero true /\
  PyFloat.round2 (PyFloat.of_int (10 ^ 300)) = PyFloat.of_int (10 ^ 300).
Proof. vm_compute. repeat split; reflexivity. Qed.

(** ** Strings *)

Section StrFacts.
Import Str.

(** [lstrip] removes a prefix of white space and nothing else. *)
Lemma lstrip_split (s : str) :
  exists w, s = w ++ lstrip s /\ forallb isspace w = true.
Proof.
  induction s as [|c s [w [Hs Hw]]]; simpl.
  - exists []. split; reflexivity.
  - destruct (isspace c) eqn:Hc.
    + exists (c :: w). simpl. rewrite Hc, Hw. split; [now f_equal | reflexivity].
    + exists []. split; reflexivity.
Qed.

Lemma lstrip_head (s : str) c t : lstrip s = c :: t -> isspace c = false.
Proof.
  induction s as [|x s IH]; simpl; [discriminate|].
  destruct (isspace x) eqn:Hx; [assumption|].
  intros H; injection H as <- _. exact Hx.
Qed.

(** [rstrip] keeps a prefix of its argument. *)
Lemma rstrip_split (s : str) : exists w, s = rstrip s ++ w.
Proof.
  unfold rstrip. destruct (lstrip_split (rev s)) as [w [Hs _]].
  exists (rev w). rewrite <- rev_app_distr, <- Hs. symmetry. apply rev_involutive.
Qed.

Lemma rstrip_last (s : str) c t : rstrip s = t ++ [c] -> isspace c = false.
Proof.
  unfold rstrip. intros H.
  apply (f_equal (@rev N)) in H.
  rewrite rev_involutive, rev_app_distr in H. simpl in H.
  exact (lstrip_head _ _ _ H).
Qed.

Lemma strip_trimmed (s : str) : trimmed (strip s).
Proof.
  unfold strip. split; intros c t H.
  - destruct (rstrip_split (lstrip s)) as [w Hw].
    rewrite H in Hw. simpl in Hw. exact (lstrip_head _ _ _ Hw).
  - exact (rstrip_last _ _ _ H).
Qed.

Lemma or_None_spec (s : str) :
  (s = [] /\ or_None s = None) \/ (s <> [] /\ or_None s = Some s).
Proof.
  destruct s; [left | right]; split; try reflexivity; discriminate.
Qed.

Lemma or_None_nonempty (s : str) : null_or_nonempty (or_None s).
Proof.
  destruct (or_None_spec s) as [[_ H]|[Hs H]]; [now left|].
  right. exists s. split; assumption.
Qed.

Lemma or_None_strip (s : str) : null_or_nonempty_trimmed (or_None (strip s)).
Proof.
  destruct (or_None_spec (strip s)) as [[_ H]|[Hs H]]; [now left|].
  right. exists (strip s). repeat split; try assumption; apply strip_trimmed.
Qed.

(** A string without white space at its ends is left as it is. *)
Lemma lstrip_id (s : str) :
  (forall c t, s = c :: t -> isspace c = false) -> lstrip s = s.
Proof.
  destruct s as [|c t]; [reflexivity|]. intros H. simpl.
  now rewrite (H c t eq_refl).
Qed.

Lemma strip_id (s : str) : trimmed s -> strip s = s.
Proof.
  intros [Hl Hr]. unfold strip. rewrite (lstrip_id s Hl).
  unfold rstrip. rewrite lstrip_id; [apply rev_involutive|].
  intros c t H. apply (Hr c (rev t)).
  rewrite <- (rev_involutive s), H. reflexivity.
Qed.

Lemma strip_idempotent (s : str) : strip (strip s) = strip s.
Proof. apply strip_id, strip_trimmed. Qed.

Lemma eqb_eq (a b : str) : eqb a b = true <-> a = b.
Proof.
  unfold eqb. destruct (list_eq_dec N.eq_dec a b); split; congruence.
Qed.

Lemma mem_In (x : str) (xs : list str) : mem x xs = true <-> In x xs.
Proof.
  unfold mem. rewrite existsb_exists. split.
  - intros [y [Hy H]]. apply eqb_eq in H. now subst.
  - intros H. exists x. split; [assumption | now apply eqb_eq].
Qed.

Lemma trimmedb_trimmed (s : str) : trimmedb s = true -> trimmed s.
Proof.
  destruct s as [|c t]; intros H.
  - split; intros x u E; [discriminate | now destruct u].
  - unfold trimmedb in H. apply andb_true_iff in H as [H1 H2].
    apply negb_true_iff in H1, H2. split; intros x u E.
    + injection E as <- _. exact H1.
    + rewrite E, last_last in H2. exact H2.
Qed.

End StrFacts.

(** ** Dates *)

Section DateFacts.
Import PyDate.

Lemma compare_Eq (a b : date) : compare a b = Eq <-> a = b.
Proof.
  destruct a as [y m d], b as [y' m' d']. unfold compare; simpl. split.
  - destruct (Z.compare_spec y y'); try discriminate.
    destruct (Z.compare_spec m m'); try discriminate.
    destruct (Z.compare_spec d d'); try discriminate.
    intros _. congruence.
  - intros H; injection H as -> -> ->. now rewrite !Z.compare_refl.
Qed.

Lemma compare_antisym (a b : date) : compare b a = CompOpp (compare a b).
Proof.
  destruct a as [y m d], b as [y' m' d']. unfold compare; simpl.
  rewrite (Z.compare_antisym y y'), (Z.compare_antisym m m'),
    (Z.compare_antisym d d').
  destruct (y ?= y'), (m ?= m'), (d ?= d'); reflexivity.
Qed.

Lemma leb_le (a b : date) : leb a b = true <-> PyDateOrder.le a b.
Proof.
  destruct a as [y m d], b as [y' m' d'].
  unfold leb, compare, PyDateOrder.le; simpl.
  destruct (Z.compare_spec y y'); [|intuition lia|intuition (lia || discriminate)].
  destruct (Z.compare_spec m m'); [|intuition lia|intuition (lia || discriminate)].
  destruct (Z.compare_spec d d'); intuition (lia || discriminate).
Qed.

Lemma compare_Lt_lt (a b : date) : compare a b = Lt <-> PyDateOrder.lt a b.
Proof.
  unfold PyDateOrder.lt. rewrite <- leb_le, <- compare_Eq. unfold leb.
  destruct (compare a b); intuition (congruence || discriminate).
Qed.

Lemma compare_Gt_lt (a b : date) : compare a b = Gt <-> PyDateOrder.lt b a.
Proof.
  rewrite <- compare_Lt_lt, (compare_antisym a b).
  destruct (compare a b); simpl; intuition discriminate.
Qed.

Lemma le_trans (a b c : date) :
  PyDateOrder.le a b -> PyDateOrder.le b c -> PyDateOrder.le a c.
Proof.
  destruct a, b, c. unfold PyDateOrder.le; simpl. lia.
Qed.

Lemma le_antisym (a b : date) :
  PyDateOrder.le a b -> PyDateOrder.le b a -> a = b.
Proof.
  destruct a, b. unfold PyDateOrder.le; simpl. intros H1 H2.
  f_equal; lia.
Qed.

Lemma lt_trans (a b c : date) :
  PyDateOrder.lt a b -> PyDateOrder.lt b c -> PyDateOrder.lt a c.
Proof.
  intros [H1 N1] [H2 N2]. split; [exact (le_trans _ _ _ H1 H2)|].
  intros ->. apply N1. now apply le_antisym.
Qed.

End DateFacts.

(** ** The order of the list *)

Section OrderFacts.
Import Table.

Lemma precedes_newest_first (a b : row) :
  precedes a b = true <-> newest_first a b.
Proof.
  unfold precedes, newest_first.
  destruct (PyDate.compare (issue_date (cols a)) (issue_date (cols b))) eqn:E.
  - apply compare_Eq in E. rewrite Z.leb_le. split; [now right|].
    intros [[_ N]|[_ H]]; [now symmetry in E|exact H].
  - split; [discriminate|]. intros [H|[H _]].
    + apply compare_Gt_lt in H. congruence.
    + apply compare_Eq in H. congruence.
  - apply compare_Gt_lt in E. split; [now left|reflexivity].
Qed.

Lemma newest_first_total (a b : row) : newest_first a b \/ newest_first b a.
Proof.
  unfold newest_first.
  destruct (PyDate.compare (issue_date (cols a)) (issue_date (cols b))) eqn:E.
  - apply compare_Eq in E.
    destruct (Z.le_ge_cases (id a) (id b)); [right|left]; right; split;
      congruence || assumption.
  - apply compare_Lt_lt in E. right; now left.
  - apply compare_Gt_lt in E. left; now left.
Qed.

Lemma newest_first_trans (a b c : row) :
  newest_first a b -> newest_first b c -> newest_first a c.
Proof.
  unfold newest_first. intros [H1|[E1 L1]] [H2|[E2 L2]].
  - left. exact (lt_trans _ _ _ H2 H1).
  - left. now rewrite <- E2.
  - left. now rewrite E1.
  - right. split; [congruence | lia].
Qed.

Lemma place_perm (r : row) (l : list row) : Permutation (r :: l) (place r l).
Proof.
  induction l as [|x l IH]; simpl; [reflexivity|].
  destruct (precedes r x); [reflexivity|].
  rewrite perm_swap. now constructor.
Qed.

Lemma order_by_perm (l : list row) :
  Permutation l (order_by_issue_date_desc_id_desc l).
Proof.
  induction l as [|r l IH]; simpl; [constructor|].
  rewrite <- place_perm. now constructor.
Qed.

Lemma place_sorted (r : row) (l : list row) :
  StronglySorted newest_first l -> StronglySorted newest_first (place r l).
Proof.
  induction 1 as [|x l Hs IH Hx]; simpl.
  - repeat constructor.
  - destruct (precedes r x) eqn:E.
    + apply precedes_newest_first in E. constructor.
      * now constructor.
      * constructor; [exact E|].
        revert Hx. apply Forall_impl. intros y. now apply newest_first_trans.
    + constructor; [exact IH|].
      assert (Hxr : newest_first x r).
      { destruct (newest_first_total r x) as [H|H]; [|exact H].
        apply precedes_newest_first in H. congruence. }
      apply (Permutation_Forall (place_perm r l)).
      now constructor.
Qed.

Lemma order_by_sorted (l : list row) :
  StronglySorted newest_first (order_by_issue_date_desc_id_desc l).
Proof.
  induction l as [|r l IH]; simpl; [constructor|]. now apply place_sorted.
Qed.

Lemma order_by_In (l : list row) (r : row) :
  In r (order_by_issue_date_desc_id_desc l) <-> In r l.
Proof.
  split; apply Permutation_in;
    [symmetry|]; apply order_by_perm.
Qed.

End OrderFacts.

(** ** List *)

(** C2.  For every database state, [fetch_dataframe] returns all the rows of
    the table: the result is a rearrangement of the stored rows, none dropped
    and none repeated, and it is ordered by issue date descending and, for
    equal issue dates, by identifier descending.  The table itself is left as
    it was. *)
Theorem fetch_dataframe_all_rows_newest_first (e : Engine) :
  exists data,
    fetch_dataframe e = (Returned data, executing SelectAll e) /\
    rows (executing SelectAll e) = rows e /\
    Permutation (rows e) data /\
    List.length data = List.length (rows e) /\
    StronglySorted newest_first data.
Proof.
  exists (Table.order_by_issue_date_desc_id_desc (rows e)).
  repeat split.
  - apply order_by_perm.
  - symmetry. apply Permutation_length, order_by_perm.
  - apply order_by_sorted.
Qed.

(** ** Filters *)

Lemma filter_all {A : Type} (l : list A) : filter (fun _ => true) l = l.
Proof. induction l as [|x l IH]; simpl; congruence. Qed.

Lemma status_isin_spec (selected_status : list Str.str) (r : Table.row) :
  View.status_isin selected_status r = true <->
  exists s, Table.status (Table.cols r) = Some s /\ In s selected_status.
Proof.
  unfold View.status_isin. destruct (Table.status (Table.cols r)) as [s|].
  - rewrite mem_In. split.
    + intros H. now exists s.
    + intros [s' [E H]]. now injection E as ->.
  - split; [discriminate|]. intros [s [E _]]. discriminate.
Qed.

(** C6.  For every record list and every selected status set, the status
    filter alone keeps exactly the records whose status is a member of the
    selected set, in their order; with an empty selection no filter is
    applied and the list is returned as it is. *)
Theorem status_filter_exact (selected_status : list Str.str)
    (data : list Table.row) :
  exists keep : Table.row -> bool,
    View.apply_filters selected_status [] None data
      = Returned (filter keep data) /\
    (forall r, keep r = true <->
       (selected_status = [] \/
        exists s, Table.status (Table.cols r) = Some s /\
                  In s selected_status)) /\
    (selected_status = [] ->
       View.apply_filters selected_status [] None data = Returned data).
Proof.
  destruct selected_status as [|s0 sel].
  - exists (fun _ => true). unfold View.apply_filters; simpl.
    rewrite filter_all. repeat split; auto.
  - exists (View.status_isin (s0 :: sel)). repeat split.
    + intros H. right. now apply status_isin_spec.
    + intros [H|H]; [discriminate | now apply status_isin_spec].
    + discriminate.
Qed.

(** C7.  The issue-date filter does not keep the records in range: for
    every range [start, end] and every record list that is not empty, the
    filter raises [TypeError] at its first comparison, because the issue
    dates of the frame are [datetime.date] objects and the bounds are time
    stamps.  So does the list tab on the table holding the one record issued
    on 2024-03-01, asked for the range from 2024-03-01 to 2024-03-01, although
    the record's issue date is within the range. *)
Theorem issue_date_filter_raises (start end_ : PyDate.date) (r : Table.row)
    (data : list Table.row) :
  View.apply_filters [] [] (Some [start; end_]) (r :: data)
    = Raised TypeError /\
  (exists stored,
     rows Sample.one_record = [stored] /\
     Table.issue_date (Table.cols stored) = Sample.d_2024_03_01 /\
     PyDateOrder.le Sample.d_2024_03_01
       (Table.issue_date (Table.cols stored)) /\
     PyDateOrder.le (Table.issue_date (Table.cols stored))
       Sample.d_2024_03_01) /\
  fst (show_table_tab [] []
         (Some [Sample.d_2024_03_01; Sample.d_2024_03_01]) Sample.one_record)
    = Raised TypeError.
Proof.
  split; [reflexivity|]. split.
  - eexists. split; [vm_compute; reflexivity|].
    split; [reflexivity|]. split; vm_compute; right; split; auto;
      right; split; auto; discriminate.
  - vm_compute. reflexivity.
Qed.

(** ** Delete *)

Lemma existsb_Zeqb_In (x : Z) (l : list Z) :
  existsb (Z.eqb x) l = true <-> In x l.
Proof.
  rewrite existsb_exists. split.
  - intros [y [Hy E]]. apply Z.eqb_eq in E. now subst.
  - intros H. exists x. split; [assumption | apply Z.eqb_refl].
Qed.

(** C8.  For every database state and every requested identifier list,
    [delete_records] returns without error and the table afterwards holds
    exactly the rows whose identifier is not in the list, unchanged and in
    their order; an identifier in the list that no row has changes nothing. *)
Theorem delete_records_exact (ids : list Z) (e : Engine) :
  exists e',
    delete_records ids e = (Returned tt, e') /\
    (exists requested : Table.row -> bool,
       rows e' = filter (fun r => negb (requested r)) (rows e) /\
       forall r, requested r = true <-> In (Table.id r) ids) /\
    (forall r, In r (rows e') <-> (In r (rows e) /\ ~ In (Table.id r) ids)).
Proof.
  eexists. split; [reflexivity|]. split.
  - exists (fun r => existsb (Z.eqb (Table.id r)) ids).
    split; [reflexivity|]. intros r. apply existsb_Zeqb_In.
  - intros r. simpl. rewrite filter_In, negb_true_iff.
    rewrite <- existsb_Zeqb_In.
    destruct (existsb (Z.eqb (Table.id r)) ids); intuition congruence.
Qed.

(** The example of the specification: deleting [{3,7}] when only records 3
    and 5 exist removes record 3, leaves record 5 and raises nothing. *)
Example delete_3_7_of_3_5 :
  let r3 := Sample.row_of 3 Sample.d_2024_03_01 None in
  let r5 := Sample.row_of 5 Sample.d_2024_03_01 None in
  let e := {| rows := [r3; r5]; last_id := 5; calls := [] |} in
  fst (delete_records [3; 7] e) = Returned tt /\
  rows (snd (delete_records [3; 7] e)) = [r5].
Proof. split; reflexivity. Qed.

(** ** Statements that fail *)

(** A failing statement leaves the rows as they were, sent or not; a failing
    [INSERT] moves the sequence by one at most. *)
Lemma rows_sent (d : db_error) (s : statement) (e : Engine) :
  rows (sent d s e) = rows e.
Proof. now destruct d. Qed.

Lemma last_id_sent (d : db_error) (s : statement) (e : Engine) :
  last_id (sent d s e) = last_id e.
Proof. now destruct d. Qed.

Lemma calls_sent (d : db_error) (s : statement) (e : Engine) :
  calls (sent d s e) = calls e \/ calls (sent d s e) = s :: calls e.
Proof. destruct d; simpl; auto. Qed.

Lemma rows_drawn (d : db_error) (e : Engine) : rows (drawn d e) = rows e.
Proof. now destruct d. Qed.

Lemma calls_drawn (d : db_error) (e : Engine) : calls (drawn d e) = calls e.
Proof. now destruct d. Qed.

Lemma last_id_drawn (d : db_error) (e : Engine) :
  last_id e <= last_id (drawn d e) <= last_id e + 1.
Proof. destruct d; simpl; lia. Qed.

(** What is raised is caught by the submit handlers unless it is the
    [ValueError] of a string that cannot be quoted. *)
Lemma raised_cases (d : db_error) :
  raised d = SQLAlchemyError d /\ d <> NulInStringLiteral \/
  raised d = ValueError /\ d = NulInStringLiteral.
Proof. destruct d; simpl; auto; left; split; auto; discriminate. Qed.

(** ** Update *)

Section UpdateFacts.

Variable numeric_of_float : PyFloat.float -> option Table.numeric.

Lemma bind_columns_set_id (i : Z) (p : Payload.t) :
  bind_columns numeric_of_float (Payload.set_id i p)
  = bind_columns numeric_of_float p.
Proof. reflexivity. Qed.

Lemma set_id_twice (i : Z) (p : Payload.t) :
  Payload.set_id i (Payload.set_id i p) = Payload.set_id i p.
Proof. reflexivity. Qed.

(** Running the same [UPDATE] on its own result changes nothing more. *)
Lemma update_where_id_again (i : Z) (a : Table.assigned)
    (l l' : list Table.row) :
  update_where_id i a l = inr l' -> update_where_id i a l' = inr l'.
Proof.
  revert l'. induction l as [|r l IH]; intros l' H; simpl in H.
  - injection H as <-. reflexivity.
  - destruct (Table.id r =? i) eqn:Ei.
    + destruct (Table.generated_total_cost a) as [d|t] eqn:Et;
        simpl in H; [discriminate|].
      destruct (update_where_id i a l) as [d|l2]; simpl in H; [discriminate|].
      injection H as <-. simpl. rewrite Ei, Et. simpl.
      now rewrite (IH l2 eq_refl).
    + simpl in H.
      destruct (update_where_id i a l) as [d|l2]; simpl in H; [discriminate|].
      injection H as <-. simpl. rewrite Ei. simpl.
      now rewrite (IH l2 eq_refl).
Qed.

(** What a successful [UPDATE] leaves: rows in the same number and order,
    each matching row holding the assigned columns under its old
    identifier and creation time, every other row as it was. *)
Lemma update_where_id_rows (i : Z) (a : Table.assigned)
    (l l' : list Table.row) :
  update_where_id i a l = inr l' ->
  Forall2
    (fun r r' =>
       Table.id r' = Table.id r /\
       Table.created_at r' = Table.created_at r /\
       if Table.id r =? i then Table.cols r' = a else r' = r)
    l l'.
Proof.
  revert l'. induction l as [|r l IH]; intros l' H; simpl in H.
  - injection H as <-. constructor.
  - destruct (Table.id r =? i) eqn:Ei.
    + destruct (Table.generated_total_cost a) as [d|t]; simpl in H;
        [discriminate|].
      destruct (update_where_id i a l) as [d|l2]; simpl in H; [discriminate|].
      injection H as <-. constructor; [|now apply IH].
      rewrite Ei. repeat split.
    + simpl in H.
      destruct (update_where_id i a l) as [d|l2]; simpl in H; [discriminate|].
      injection H as <-. constructor; [|now apply IH].
      rewrite Ei. repeat split.
Qed.

(** The three ways [update_record] ends. *)
Lemma update_record_cases (i : Z) (p : Payload.t) (e : Engine) :
  let p' := Payload.set_id i p in
  let e' := executing (UpdateWhereId p') e in
  (exists d,
     bind_columns numeric_of_float p = inl d /\
     update_record numeric_of_float i p e
     = (Raised (raised d), p', sent d (UpdateWhereId p') e)) \/
  (exists a d,
     bind_columns numeric_of_float p = inr a /\
     update_where_id i a (rows e) = inl d /\
     update_record numeric_of_float i p e
     = (Raised (raised d), p', sent d (UpdateWhereId p') e)) \/
  (exists a rs,
     bind_columns numeric_of_float p = inr a /\
     update_where_id i a (rows e) = inr rs /\
     update_record numeric_of_float i p e
     = (Returned tt, p', with_rows rs e')).
Proof.
  intros p' e'. unfold update_record. fold p'. fold e'.
  change (bind_columns numeric_of_float p')
    with (bind_columns numeric_of_float p).
  destruct (bind_columns numeric_of_float p) as [d|a].
  - left. exists d. split; reflexivity.
  - right. simpl.
    destruct (update_where_id i a (rows e)) as [d|rs] eqn:Eu.
    + left. exists a, d. repeat split; assumption.
    + right. exists a, rs. repeat split; assumption.
Qed.

(** A second [update_record] for the same record, with a payload that binds
    the same column values, changes no row and ends as the first did. *)
Lemma update_record_again (i : Z) (p q : Payload.t) (e : Engine) :
  bind_columns numeric_of_float q = bind_columns numeric_of_float p ->
  let once := update_record numeric_of_float i p e in
  let twice := update_record numeric_of_float i q (snd once) in
  rows (snd twice) = rows (snd once) /\
  fst (fst twice) = fst (fst once) /\
  snd (fst twice) = Payload.set_id i q.
Proof.
  intros Hq once twice. subst twice once.
  destruct (update_record_cases i p e)
    as [[d [Eb ->]]|[[a [d [Eb [Eu ->]]]]|[a [rs [Eb [Eu ->]]]]]];
    cbn [fst snd];
    match goal with
    | |- context [update_record _ _ _ ?e1] =>
        destruct (update_record_cases i q e1)
          as [[d' [Eb' ->]]|[[a' [d' [Eb' [Eu' ->]]]]
                            |[a' [rs' [Eb' [Eu' ->]]]]]]
    end;
    rewrite Hq in Eb';
    cbn [fst snd rows with_rows executing] in *;
    rewrite ?rows_sent in *;
    cbn [fst snd rows with_rows executing] in *;
    try congruence.
  - repeat split. congruence.
  - repeat split. congruence.
  - assert (a' = a) by congruence. subst a'.
    apply update_where_id_again in Eu. congruence.
  - assert (a' = a) by congruence. subst a'.
    apply update_where_id_again in Eu. repeat split. congruence.
Qed.

(** C9.  Update is idempotent: for every identifier and every payload,
    applying [update_record] a second time with the same payload leaves
    every stored record as it was after the first call, and the second call
    returns or raises as the first did.  The same payload is the dictionary
    the first call was given, which now has the key [id]; a new dictionary
    with the entries of the first behaves alike. *)
Theorem update_record_idempotent (record_id : Z) (payload : Payload.t)
    (e : Engine) :
  let once := update_record numeric_of_float record_id payload e in
  let twice :=
    update_record numeric_of_float record_id (snd (fst once)) (snd once) in
  let anew := update_record numeric_of_float record_id payload (snd once) in
  (rows (snd twice) = rows (snd once) /\
   fst (fst twice) = fst (fst once) /\
   snd (fst twice) = snd (fst once)) /\
  (rows (snd anew) = rows (snd once) /\
   fst (fst anew) = fst (fst once)).
Proof.
  intros once twice anew. split.
  - assert (Ep : snd (fst once) = Payload.set_id record_id payload).
    { subst once.
      destruct (update_record_cases record_id payload e)
        as [[d [_ ->]]|[[a [d [_ [_ ->]]]]|[a [rs [_ [_ ->]]]]]]; reflexivity. }
    subst twice. rewrite Ep.
    destruct (update_record_again record_id payload
                (Payload.set_id record_id payload) e
                (bind_columns_set_id record_id payload)) as [H1 [H2 H3]].
    split; [exact H1|]. split; [exact H2|].
    fold once in H3. rewrite H3. apply set_id_twice.
  - destruct (update_record_again record_id payload payload e eq_refl)
      as [H1 [H2 _]].
    split; assumption.
Qed.

End UpdateFacts.

(** ** The generated column *)

Section StoreFacts.

Variable numeric_of_float : PyFloat.float -> option Table.numeric.

Lemma generated_total_cost_sum (a : Table.assigned) t :
  Table.generated_total_cost a = inr t ->
  t = Some (Table.numeric_add (Table.coalesce_0 (Table.service_cost a))
                              (Table.coalesce_0 (Table.fee a))).
Proof.
  unfold Table.generated_total_cost.
  destruct (Table.fits_12_2 _); [|discriminate].
  now intros H; injection H as <-.
Qed.

Lemma insert_record_total (now : Z) (payload : Payload.t) (e : Engine) :
  Forall total_is_sum (rows e) ->
  Forall total_is_sum
    (rows (snd (insert_record numeric_of_float now payload e))).
Proof.
  intros H. unfold insert_record.
  destruct (bind_columns numeric_of_float payload) as [d|a]; simpl;
    [now rewrite rows_drawn, rows_sent|].
  destruct (Table.generated_total_cost a) as [d|t] eqn:Et; simpl;
    [now rewrite rows_drawn, rows_sent|].
  apply Forall_app. split; [exact H|]. constructor; [|constructor].
  unfold total_is_sum; simpl. now apply generated_total_cost_sum.
Qed.

Lemma update_where_id_total (i : Z) (a : Table.assigned)
    (l l' : list Table.row) :
  update_where_id i a l = inr l' ->
  Forall total_is_sum l -> Forall total_is_sum l'.
Proof.
  revert l'. induction l as [|r l IH]; intros l' H Hl; simpl in H.
  - now injection H as <-.
  - inversion Hl as [|? ? Hr Hl']; subst.
    destruct (Table.id r =? i).
    + destruct (Table.generated_total_cost a) as [d|t] eqn:Et; simpl in H;
        [discriminate|].
      destruct (update_where_id i a l) as [d|l2]; simpl in H; [discriminate|].
      injection H as <-. constructor; [|now apply IH].
      unfold total_is_sum; simpl. now apply generated_total_cost_sum.
    + simpl in H.
      destruct (update_where_id i a l) as [d|l2]; simpl in H; [discriminate|].
      injection H as <-. constructor; [assumption | now apply IH].
Qed.

Lemma update_record_total (i : Z) (payload : Payload.t) (e : Engine) :
  Forall total_is_sum (rows e) ->
  Forall total_is_sum
    (rows (snd (update_record numeric_of_float i payload e))).
Proof.
  intros H.
  destruct (update_record_cases numeric_of_float i payload e)
    as [[d [_ ->]]|[[a [d [_ [_ ->]]]]|[a [rs [_ [Eu ->]]]]]];
    cbn [fst snd]; rewrite ?rows_sent; try exact H.
  exact (update_where_id_total _ _ _ _ Eu H).
Qed.

Lemma delete_records_total (ids : list Z) (e : Engine) :
  Forall total_is_sum (rows e) ->
  Forall total_is_sum (rows (snd (delete_records ids e))).
Proof.
  intros H. simpl. apply Forall_forall. intros r Hr.
  apply filter_In in Hr as [Hr _].
  revert r Hr. now apply Forall_forall.
Qed.

Lemma reachable_total (e : Engine) :
  reachable numeric_of_float e -> Forall total_is_sum (rows e).
Proof.
  induction 1.
  - constructor.
  - assumption.
  - assumption.
  - now apply insert_record_total.
  - now apply update_record_total.
  - now apply delete_records_total.
Qed.

(** The predicate on the functions of the table says what the
    specification says. *)
Lemma total_is_sum_as_specified (r : Table.row) :
  total_is_sum r -> total_as_specified r.
Proof.
  unfold total_is_sum, total_as_specified. intros H.
  destruct (Table.service_cost (Table.cols r)) as [[|x]|],
           (Table.fee (Table.cols r)) as [[|y]|];
    cbn [Table.coalesce_0 Table.numeric_add] in H;
    do 3 eexists;
    (split; [constructor|]); (split; [constructor|]);
    (split; [|exact H]); constructor.
Qed.

(** The statements name the columns that have a parameter, and these
    only; a new row holds the parameters in them. *)
Lemma named_columns_have_parameters (c : Column.t) (a : Table.assigned) :
  (In c Column.inserted <-> Column.parameter c a <> None) /\
  (In c Column.updated <-> Column.parameter c a <> None).
Proof.
  split; (split;
    [ intros H; destruct c; simpl in H; cbn [Column.parameter];
      try discriminate; intuition discriminate
    | intros H; destruct c; cbn [Column.parameter] in H;
      try (now contradiction H); simpl; tauto ]).
Qed.

Lemma row_holds_parameters (c : Column.t) (r : Table.row) (v : Column.cell) :
  Column.parameter c (Table.cols r) = Some v -> Column.of_row c r = v.
Proof. unfold Column.of_row. now intros ->. Qed.

(** C1.  In every state the program reaches, whatever creates, updates and
    deletes led to it, each record of the table, which is what a [SELECT]
    reads, has a total cost equal to the sum of its service cost and its
    fee, an absent one counting as zero.  No statement of the program names
    the total cost as the target of a value, and none has a parameter for
    it: it is written by the table's generated column only. *)
Theorem total_cost_is_sum_of_costs (e : Engine) :
  reachable numeric_of_float e ->
  (forall r, In r (rows e) -> total_as_specified r) /\
  (forall s, ~ In Column.total_cost (columns_written s)) /\
  (forall a, Column.parameter Column.total_cost a = None).
Proof.
  intros H. apply reachable_total in H.
  rewrite Forall_forall in H. split.
  - intros r Hr. now apply total_is_sum_as_specified, H.
  - split; [|reflexivity].
    intros [| |p|p|ids]; simpl; intuition discriminate.
Qed.

(** The frame holds the costs as binary64 floats: the total cell is the
    float nearest to the stored total, which need not be the float sum of
    the two other cells.  With a service cost of 0.10 and a fee of 0.20 the
    stored total is 0.30, and the two cells add up to another float. *)
Lemma frame_cells_are_floats :
  let r :=
    Table.mk_row 1
      (Table.mk_assigned (Str.lit "SEGURO") (Str.lit "C") Sample.d_2024_03_01
         (Str.lit "") None None 3 None None None None None
         (Some (Table.Num 10)) (Some (Table.Num 20)) None None None None)
      (Some (Table.Num 30)) 0 in
  total_is_sum r /\
  Frame.total_cost r = PyFloat.of_decimal 30 100 /\
  PyFloat.add (Frame.service_cost r) (Frame.fee r) <> Frame.total_cost r.
Proof.
  split; [reflexivity|]. split; [reflexivity|].
  vm_compute. discriminate.
Qed.

(** The pages only ever reach such states. *)
Lemma show_create_tab_reachable (now : Z) (f : form) (e : Engine) :
  reachable numeric_of_float e ->
  reachable numeric_of_float
    (snd (show_create_tab numeric_of_float now f e)).
Proof.
  intros H. unfold show_create_tab.
  destruct (submitted f); [|exact H].
  destruct (negb _); [exact H|].
  pose proof (reach_insert_record numeric_of_float now (payload_of_form f)
                e H) as R.
  destruct (insert_record numeric_of_float now (payload_of_form f) e)
    as [[u|x] e']; [|destruct x]; exact R.
Qed.

Lemma show_table_tab_reachable (selected_status selected_months : list Str.str)
    (issue_range : option (list PyDate.date)) (e : Engine) :
  reachable numeric_of_float e ->
  reachable numeric_of_float
    (snd (show_table_tab selected_status selected_months issue_range e)).
Proof.
  intros H. unfold show_table_tab.
  pose proof (reach_fetch_dataframe numeric_of_float e H) as R.
  destruct (fetch_dataframe e) as [[[|r0 data]|x] e']; simpl in R;
    try exact R.
  destruct (View.apply_filters _ _ _ _) as [[|r1 l]|x]; exact R.
Qed.

(** The update tab reads the records and does nothing else to the
    database: the look-up of the issue date raises before the form is
    complete. *)
Lemma show_update_tab_snd (i : Z) (f : form) (e : Engine) :
  snd (show_update_tab numeric_of_float i f e) = executing SelectAll e.
Proof.
  unfold show_update_tab, fetch_dataframe.
  destruct (Table.order_by_issue_date_desc_id_desc (rows e)) as [|r0 data];
    [reflexivity|].
  destruct (row_with_id i (r0 :: data)) as [r|x]; [|reflexivity].
  destruct (Prefill.service_type r) as [t|x]; reflexivity.
Qed.


Lemma show_update_tab_reachable (i : Z) (f : form) (e : Engine) :
  reachable numeric_of_float e ->
  reachable numeric_of_float
    (snd (show_update_tab numeric_of_float i f e)).
Proof.
  intros H. rewrite show_update_tab_snd.
  exact (reach_fetch_dataframe numeric_of_float e H).
Qed.

Lemma show_delete_tab_reachable (selection : list Z) (pressed : bool)
    (e : Engine) :
  reachable numeric_of_float e ->
  reachable numeric_of_float (snd (show_delete_tab selection pressed e)).
Proof.
  intros H. unfold show_delete_tab.
  pose proof (reach_fetch_dataframe numeric_of_float e H) as R.
  destruct (fetch_dataframe e) as [[[|r0 data]|x] e']; simpl in R;
    try exact R.
  destruct selection as [|i sel]; [exact R|].
  destruct pressed; [|exact R].
  exact (reach_delete_records numeric_of_float (i :: sel) e' R).
Qed.

(** ** The one validation rule *)

(** C3.  For every submitted create form whose control code is empty after
    trimming, the page shows the validation message and nothing else, and
    the database is exactly as before: no statement was executed, and the
    record list read afterwards is the one read before. *)
Theorem create_rejects_blank_control (now : Z) (f : form) (e : Engine) :
  submitted f = true ->
  Str.strip (control f) = [] ->
  let r := show_create_tab numeric_of_float now f e in
  fst r = Returned [error_control_required] /\
  snd r = e /\
  calls (snd r) = calls e /\
  rows (snd r) = rows e /\
  fst (fetch_dataframe (snd r)) = fst (fetch_dataframe e).
Proof.
  intros Hs Hc. unfold show_create_tab. rewrite Hs, Hc. simpl.
  repeat split.
Qed.

End StoreFacts.

Lemma one_record_reachable : reachable Driver.by_value Sample.one_record.
Proof.
  apply show_create_tab_reachable, reach_fresh.
Defined.

Lemma total_cost_is_sum_of_costs_witness :
  (forall r, In r (rows Sample.one_record) -> total_as_specified r) /\
  (forall s, ~ In Column.total_cost (columns_written s)) /\
  (forall a, Column.parameter Column.total_cost a = None).
Proof.
  apply (total_cost_is_sum_of_costs Driver.by_value Sample.one_record).
  exact one_record_reachable.
Defined.

Lemma create_rejects_blank_control_witness :
  let f := Sample.with_control (Str.lit "   ") Sample.abc123 in
  let r := show_create_tab Driver.by_value 1000 f Sample.one_record in
  fst r = Returned [error_control_required] /\
  snd r = Sample.one_record /\
  calls (snd r) = calls Sample.one_record /\
  rows (snd r) = rows Sample.one_record /\
  fst (fetch_dataframe (snd r)) = fst (fetch_dataframe Sample.one_record).
Proof.
  apply (create_rejects_blank_control Driver.by_value 1000
           (Sample.with_control (Str.lit "   ") Sample.abc123)
           Sample.one_record).
  - reflexivity.
  - reflexivity.
Defined.

(** ** Rounding *)

Section RoundingFacts.
Import PyFloat.

Lemma div_half_even_nearest (a b : Z) :
  0 < b -> 2 * Z.abs (a - div_half_even a b * b) <= b.
Proof.
  intros Hb. unfold div_half_even.
  pose proof (Z.div_mod a b (ltac:(lia))) as E.
  pose proof (Z.mod_pos_bound a b Hb) as B.
  destruct (Z.compare_spec (2 * (a mod b)) b);
    [destruct (Z.even (a / b))| |]; lia.
Qed.

Lemma div_half_even_nonneg (a b : Z) :
  0 <= a -> 0 < b -> 0 <= div_half_even a b.
Proof.
  intros Ha Hb. unfold div_half_even.
  pose proof (Z.div_pos a b Ha Hb).
  destruct (2 * (a mod b) ?= b); [destruct (Z.even (a / b))| |]; lia.
Qed.

Lemma hundredths_nearest (m : positive) (e : Z) :
  nearest_hundredths m e (hundredths m e).
Proof.
  unfold nearest_hundredths, hundredths.
  destruct (0 <=? e) eqn:He; [reflexivity|].
  apply Z.leb_gt in He.
  apply div_half_even_nearest. apply Z.pow_pos_nonneg; lia.
Qed.

Lemma hundredths_nonneg (m : positive) (e : Z) : 0 <= hundredths m e.
Proof.
  unfold hundredths. destruct (0 <=? e) eqn:He.
  - apply Z.leb_le in He.
    pose proof (Z.pow_nonneg 2 e (ltac:(lia))). nia.
  - apply Z.leb_gt in He. apply div_half_even_nonneg; [lia|].
    apply Z.pow_pos_nonneg; lia.
Qed.

Lemma round2_or_0_normalised (input : option float) :
  money_normalised input (PyNum.round2 (PyNum.or_0 input)).
Proof.
  destruct input as [[s|s| |s m e]|]; simpl; try reflexivity.
  exists (hundredths m e).
  split; [apply hundredths_nonneg|]. split; [apply hundredths_nearest|].
  reflexivity.
Qed.

End RoundingFacts.

(** ** The driver's conversion *)

Section DriverFacts.
Import Driver.

Lemma abs_signed (s : bool) (z : Z) : Z.abs (signed s z) = Z.abs z.
Proof. destruct s; simpl; lia. Qed.

Lemma div_half_away_exact (a b : Z) :
  0 < b -> a mod b = 0 -> div_half_away a b = a / b.
Proof.
  intros Hb Hm. unfold div_half_away.
  pose proof (Z.div_mod a b (ltac:(lia))) as E. rewrite Hm in E.
  symmetry. apply (Z.div_unique _ _ _ b); lia.
Qed.

Lemma fits_of_abs (z : Z) :
  0 <= z -> Z.abs z < 10 ^ 12 -> (z <? 10 ^ 12) = true.
Proof. intros Hz H. apply Z.ltb_lt. now rewrite Z.abs_eq in H. Qed.

Lemma by_value_keeps_exact_decimals : keeps_exact_decimals by_value.
Proof.
  intros [s|s| |s m e] c; unfold exact_hundredths, by_value;
    try discriminate.
  - now intros H _; injection H as <-.
  - destruct (0 <=? e) eqn:He.
    + apply Z.leb_le in He.
      intros H; injection H as <-. rewrite abs_signed. intros B.
      rewrite fits_of_abs; [reflexivity| |exact B].
      pose proof (Z.pow_nonneg 2 e (ltac:(lia))). nia.
    + apply Z.leb_gt in He.
      assert (Hb : 0 < 2 ^ (- e)) by (apply Z.pow_pos_nonneg; lia).
      destruct (_ =? 0) eqn:Hm; [|discriminate].
      apply Z.eqb_eq in Hm.
      intros H; injection H as <-. rewrite abs_signed. intros B.
      rewrite (div_half_away_exact _ _ Hb Hm).
      rewrite fits_of_abs; [reflexivity| |exact B].
      apply Z.div_pos; lia.
Qed.

End DriverFacts.

(** ** The example of the specification *)

Section Example100005.

Variable numeric_of_float : PyFloat.float -> option Table.numeric.
Hypothesis keeps : Driver.keeps_exact_decimals numeric_of_float.

(** The floats [100.0] and [50.0] are whole numbers of hundredths. *)
Lemma numeric_of_100 :
  numeric_of_float (PyFloat.of_decimal 100 1) = Some (Table.Num 10000).
Proof. apply keeps; vm_compute; reflexivity. Qed.

Lemma numeric_of_50 :
  numeric_of_float (PyFloat.of_decimal 50 1) = Some (Table.Num 5000).
Proof. apply keeps; vm_compute; reflexivity. Qed.

(** [round(100.005, 2)] is [100.0]: the float [100.005] is below the
    decimal it is written as, so it is nearer to [100.00] than to
    [100.01]. *)
Lemma round2_100_005 :
  PyFloat.round2 (PyFloat.of_decimal 100005 1000) = PyFloat.of_decimal 100 1.
Proof. vm_compute. reflexivity. Qed.

Lemma round2_50 :
  PyFloat.round2 (PyFloat.of_decimal 50 1) = PyFloat.of_decimal 50 1.
Proof. vm_compute. reflexivity. Qed.

Lemma bind_columns_abc123 :
  exists a,
    bind_columns numeric_of_float (payload_of_form Sample.abc123) = inr a /\
    Table.service_cost a = Some (Table.Num 10000) /\
    Table.fee a = Some (Table.Num 5000).
Proof.
  unfold bind_columns, payload_of_form, build_payload.
  cbn [Payload.service_type Payload.control Payload.issuer Payload.airline
       Payload.month_number Payload.origin Payload.destination
       Payload.user_name Payload.cost_center Payload.service_cost
       Payload.fee Payload.status Payload.supplier Payload.nf_number
       Payload.issue_date Payload.departure_date Payload.reason
       Payload.nf_issue_date].
  unfold numeric_12_2, PyNum.round2, PyNum.or_0.
  cbn [service_cost fee Sample.abc123].
  change (PyFloat.truthy (PyFloat.of_decimal 100005 1000)) with true.
  change (PyFloat.truthy (PyFloat.of_decimal 50 1)) with true.
  cbv iota. rewrite round2_100_005, round2_50, numeric_of_100, numeric_of_50.
  eexists. split; [vm_compute; reflexivity|]. split; reflexivity.
Qed.

(** C5, as the code has it.  Inserting the record of the example, with
    service cost [100.005] and fee [50.00], stores the service cost
    [100.00], the fee [50.00] and the total cost [150.00]: [round] works on
    the binary value of [100.005], which is below the half-way point, and
    gives the float [100.0].  This holds for every driver that stores a
    float with at most two decimals as the number it is. *)
Theorem insert_100_005_stores_100_00 (now : Z) (e : Engine) :
  let payload := payload_of_form Sample.abc123 in
  Payload.service_cost payload = PyNum.Float (PyFloat.of_decimal 100 1) /\
  Payload.fee payload = PyNum.Float (PyFloat.of_decimal 50 1) /\
  exists r,
    insert_record numeric_of_float now payload e
    = (Returned tt,
       {| rows := rows e ++ [r];
          last_id := last_id e + 1;
          calls := InsertInto payload :: calls e |}) /\
    Table.id r = last_id e + 1 /\
    Table.service_cost (Table.cols r) = Some (Table.Num 10000) /\
    Table.fee (Table.cols r) = Some (Table.Num 5000) /\
    Table.total_cost r = Some (Table.Num 15000).
Proof.
  intros payload. split; [vm_compute; reflexivity|].
  split; [vm_compute; reflexivity|].
  destruct bind_columns_abc123 as [a [Eb [Es Ef]]]. fold payload in Eb.
  exists (Table.mk_row (last_id e + 1) a (Some (Table.Num 15000)) now).
  unfold insert_record. rewrite Eb. cbn [bind].
  unfold Table.generated_total_cost. rewrite Es, Ef.
  cbn [Table.coalesce_0 Table.numeric_add Table.fits_12_2 bind].
  change (Z.abs (10000 + 5000) <? 10 ^ 12) with true. cbv iota.
  repeat split; assumption.
Qed.

End Example100005.

Lemma insert_100_005_stores_100_00_witness :
  let payload := payload_of_form Sample.abc123 in
  Payload.service_cost payload = PyNum.Float (PyFloat.of_decimal 100 1) /\
  Payload.fee payload = PyNum.Float (PyFloat.of_decimal 50 1) /\
  exists r,
    insert_record Driver.by_value 1000 payload fresh
    = (Returned tt,
       {| rows := rows fresh ++ [r];
          last_id := last_id fresh + 1;
          calls := InsertInto payload :: calls fresh |}) /\
    Table.id r = last_id fresh + 1 /\
    Table.service_cost (Table.cols r) = Some (Table.Num 10000) /\
    Table.fee (Table.cols r) = Some (Table.Num 5000) /\
    Table.total_cost r = Some (Table.Num 15000).
Proof.
  apply (insert_100_005_stores_100_00 Driver.by_value
           by_value_keeps_exact_decimals 1000 fresh).
Defined.

(** The record of the example is not stored with a service cost of [100.01]
    and a total of [150.01]: the payload holds the float [100.0], not
    [100.01], and the row read back has [100.00] and [150.00]. *)
Lemma insert_100_005_does_not_store_100_01 :
  Payload.service_cost (payload_of_form Sample.abc123)
    <> PyNum.Float (PyFloat.of_decimal 10001 100) /\
  exists r,
    fst (fetch_dataframe Sample.one_record) = Returned [r] /\
    Table.service_cost (Table.cols r) = Some (Table.Num 10000) /\
    Table.service_cost (Table.cols r) <> Some (Table.Num 10001) /\
    Table.total_cost r = Some (Table.Num 15000) /\
    Table.total_cost r <> Some (Table.Num 15001).
Proof.
  split.
  - vm_compute. discriminate.
  - eexists. split; [vm_compute; reflexivity|].
    repeat split; try reflexivity; discriminate.
Qed.

(** ** Normalisation *)

Section Normalisation.

Variables (service_type control : Str.str) (issue_date : PyDate.date).
Variables (issuer airline : Str.str) (departure_date : option PyDate.date).
Variables (month_number : Z).
Variables (origin destination user_name reason cost_center : Str.str).
Variables (service_cost fee : option PyFloat.float).
Variables (status supplier : Str.str) (nf_issue_date : option PyDate.date).
Variables (nf_number : Str.str).

Let p : Payload.t :=
  build_payload service_type control issue_date issuer airline
    departure_date month_number origin destination user_name reason
    cost_center service_cost fee status supplier nf_issue_date nf_number.

Lemma stripped_or_null_intro (s : Str.str) :
  stripped_or_null s (Str.or_None (Str.strip s)).
Proof.
  split; [apply or_None_strip|].
  destruct (or_None_spec (Str.strip s)) as [[E H]|[E H]]; tauto.
Qed.

Lemma given_or_null_intro (s : Str.str) : given_or_null s (Str.or_None s).
Proof.
  split; [apply or_None_nonempty|].
  destruct (or_None_spec s) as [[E H]|[E H]]; tauto.
Qed.

(** An option of a select box whose options are trimmed gives a trimmed
    entry. *)
Lemma option_trimmed (options : list Str.str) (s : Str.str) :
  forallb Str.trimmedb options = true ->
  In s options ->
  null_or_nonempty_trimmed (Str.or_None s).
Proof.
  intros Ho Hs. rewrite forallb_forall in Ho.
  destruct (or_None_spec s) as [[_ H]|[Hn H]]; rewrite H; [now left|].
  right. exists s. repeat split; try assumption.
  - exact (proj1 (trimmedb_trimmed s (Ho s Hs))).
  - exact (proj2 (trimmedb_trimmed s (Ho s Hs))).
Qed.

(** C4, as the code has it.  For every input, [build_payload]
    - trims the control code and the issuer, which stay strings, empty or
      not;
    - trims origin, destination, user name, reason and NF number and turns
      an empty result into [None];
    - keeps airline, cost centre, status and supplier as given, an empty one
      becoming [None];
    - turns a missing or zero monetary input into [0] and rounds any other,
      negative ones too, to the float of a nearest number of hundredths. *)
Theorem build_payload_normalises :
  (Payload.control p = Str.strip control /\ Str.trimmed (Payload.control p)) /\
  (Payload.issuer p = Str.strip issuer /\ Str.trimmed (Payload.issuer p)) /\
  (stripped_or_null origin (Payload.origin p) /\
   stripped_or_null destination (Payload.destination p) /\
   stripped_or_null user_name (Payload.user_name p) /\
   stripped_or_null reason (Payload.reason p) /\
   stripped_or_null nf_number (Payload.nf_number p)) /\
  (given_or_null airline (Payload.airline p) /\
   given_or_null cost_center (Payload.cost_center p) /\
   given_or_null status (Payload.status p) /\
   given_or_null supplier (Payload.supplier p)) /\
  (money_normalised service_cost (Payload.service_cost p) /\
   money_normalised fee (Payload.fee p)).
Proof.
  unfold p, build_payload; cbn [Payload.control Payload.issuer
    Payload.origin Payload.destination Payload.user_name Payload.reason
    Payload.nf_number Payload.airline Payload.cost_center Payload.status
    Payload.supplier Payload.service_cost Payload.fee].
  repeat split;
    try apply strip_trimmed;
    try apply stripped_or_null_intro;
    try apply given_or_null_intro;
    try apply round2_or_0_normalised.
Qed.

(** C10, as the code has it.  For every input, origin, destination, user
    name, reason and NF number are each [None] or a non-empty string
    without white space at either end; airline, cost centre, status and
    supplier are each [None] or the non-empty string that was given, and
    that string has no white space at either end when it is one of the
    options of its select box. *)
Theorem optional_entries_never_empty :
  (null_or_nonempty_trimmed (Payload.origin p) /\
   null_or_nonempty_trimmed (Payload.destination p) /\
   null_or_nonempty_trimmed (Payload.user_name p) /\
   null_or_nonempty_trimmed (Payload.reason p) /\
   null_or_nonempty_trimmed (Payload.nf_number p)) /\
  (given_or_null airline (Payload.airline p) /\
   given_or_null cost_center (Payload.cost_center p) /\
   given_or_null status (Payload.status p) /\
   given_or_null supplier (Payload.supplier p)) /\
  ((In airline Vocabulary.airline_options ->
    null_or_nonempty_trimmed (Payload.airline p)) /\
   (In cost_center Vocabulary.COST_CENTERS ->
    null_or_nonempty_trimmed (Payload.cost_center p)) /\
   (In status Vocabulary.STATUSES ->
    null_or_nonempty_trimmed (Payload.status p)) /\
   (In supplier Vocabulary.SUPPLIERS ->
    null_or_nonempty_trimmed (Payload.supplier p))).
Proof.
  unfold p, build_payload; cbn [Payload.origin Payload.destination
    Payload.user_name Payload.reason Payload.nf_number Payload.airline
    Payload.cost_center Payload.status Payload.supplier].
  repeat split;
    try apply or_None_strip;
    try apply or_None_nonempty;
    try (apply given_or_null_intro; fail);
    try (destruct (or_None_spec airline); tauto);
    try (destruct (or_None_spec cost_center); tauto);
    try (destruct (or_None_spec status); tauto);
    try (destruct (or_None_spec supplier); tauto).
  - apply option_trimmed. reflexivity.
  - apply option_trimmed. reflexivity.
  - apply option_trimmed. reflexivity.
  - apply option_trimmed. reflexivity.
Qed.

End Normalisation.

(** A negative service cost is not turned into zero, an empty issuer is not
    turned into [None], and a supplier is not trimmed: called with service
    cost [-5.0], an issuer of two spaces and the supplier ["RICKER "],
    [build_payload] returns the service cost [-5.0], the empty string as
    issuer and the supplier with its space. *)
Lemma build_payload_keeps_negative_cost :
  let p :=
    build_payload (Str.lit "SEGURO") (Str.lit "ABC123") Sample.d_2024_03_01
      (Str.lit "  ") (Str.lit "") None 3 (Str.lit "") (Str.lit "")
      (Str.lit "") (Str.lit "") (Str.lit "N/A")
      (Some (PyFloat.of_decimal (-5) 1)) (Some (PyFloat.of_decimal 50 1))
      (Str.lit "EM ABERTO") (Str.lit "RICKER ") None (Str.lit "") in
  Payload.service_cost p = PyNum.Float (PyFloat.of_decimal (-5) 1) /\
  Payload.service_cost p <> PyNum.Int 0 /\
  Payload.service_cost p <> PyNum.Float (S754_zero false) /\
  Payload.service_cost p <> PyNum.Float (S754_zero true) /\
  Payload.issuer p = [] /\
  Payload.supplier p = Some (Str.lit "RICKER ") /\
  Str.strip (Str.lit "RICKER ") <> Str.lit "RICKER ".
Proof.
  vm_compute. repeat split; discriminate.
Qed.

(** An airline given with a leading space stays in the payload as it is:
    a non-empty entry that begins with white space. *)
Lemma build_payload_keeps_untrimmed_airline :
  let p :=
    build_payload (Str.lit "PASSAGEM AEREA") (Str.lit "ABC123")
      Sample.d_2024_03_01 (Str.lit "MARIA") (Str.lit " AZUL") None 3
      (Str.lit "") (Str.lit "") (Str.lit "") (Str.lit "") (Str.lit "N/A")
      (Some (PyFloat.of_decimal 100 1)) (Some (PyFloat.of_decimal 50 1))
      (Str.lit "EM ABERTO") (Str.lit "RICKER") None (Str.lit "") in
  Payload.airline p = Some (Str.lit " AZUL") /\
  ~ Str.trimmed (Str.lit " AZUL") /\
  ~ null_or_nonempty_trimmed (Payload.airline p).
Proof.
  assert (N : ~ Str.trimmed (Str.lit " AZUL")).
  { intros [H _]. specialize (H 32%N (Str.lit "AZUL") eq_refl). discriminate. }
  split; [reflexivity|]. split; [exact N|].
  intros [H|[s [H [_ T]]]]; [discriminate|].
  injection H as <-. exact (N T).
Qed.

Lemma optional_entries_never_empty_witness :
  let p := payload_of_form Sample.abc123 in
  Payload.origin p = Some (Str.lit "GIG") /\
  null_or_nonempty_trimmed (Payload.origin p) /\
  null_or_nonempty_trimmed (Payload.airline p) /\
  null_or_nonempty_trimmed (Payload.cost_center p) /\
  null_or_nonempty_trimmed (Payload.status p) /\
  null_or_nonempty_trimmed (Payload.supplier p).
Proof.
  destruct
    (optional_entries_never_empty
       (service_type Sample.abc123) (control Sample.abc123)
       (issue_date Sample.abc123) (issuer Sample.abc123)
       (airline Sample.abc123) (departure_date Sample.abc123)
       (month_number Sample.abc123) (origin Sample.abc123)
       (destination Sample.abc123) (user_name Sample.abc123)
       (reason Sample.abc123) (cost_center Sample.abc123)
       (Some (service_cost Sample.abc123)) (Some (fee Sample.abc123))
       (status Sample.abc123) (supplier Sample.abc123)
       (nf_issue_date Sample.abc123) (nf_number Sample.abc123))
    as [[Ho _] [_ [Ha [Hc [Hs Hp]]]]].
  split; [reflexivity|]. split; [exact Ho|].
  repeat split; [apply Ha | apply Hc | apply Hs | apply Hp];
    vm_compute; repeat (first [left; reflexivity | right]).
Defined.


(** * Further properties of the code *)

(** ** Months *)

Lemma choice_label (c : Z * Str.str) :
  In c Vocabulary.MONTH_CHOICES ->
  1 <= fst c <= 12 /\ Month.pt_month_label (fst c) = snd c.
Proof.
  intros H. simpl in H.
  repeat (destruct H as [<-|H]; [split; [simpl; lia | reflexivity]|]).
  contradiction.
Qed.

Lemma month_number_cases (n : Z) : 1 <= n <= 12 -> In n Month.numbers.
Proof. intros H. unfold Month.numbers. simpl. lia. Qed.

Lemma label_choice (n : Z) :
  1 <= n <= 12 -> In (n, Month.pt_month_label n) Vocabulary.MONTH_CHOICES.
Proof.
  intros H. apply month_number_cases in H.
  unfold Month.numbers in H. simpl in H.
  repeat (destruct H as [<-|H]; [simpl; tauto|]). contradiction.
Qed.

Lemma label_outside (n : Z) : ~ 1 <= n <= 12 -> Month.pt_month_label n = [].
Proof.
  intros H. unfold Month.pt_month_label.
  destruct (find _ _) as [c|] eqn:F; [|reflexivity].
  apply find_some in F as [Hin Heq]. apply Z.eqb_eq in Heq.
  apply in_rev in Hin. apply choice_label in Hin. lia.
Qed.

(** The label of a month number: of a number from 1 to 12 the label paired
    with it in [MONTH_CHOICES], which is not empty; of any other number the
    empty string. *)
Theorem pt_month_label_known_or_empty (n : Z) :
  (1 <= n <= 12 ->
   In (n, Month.pt_month_label n) Vocabulary.MONTH_CHOICES /\
   Month.pt_month_label n <> []) /\
  (~ 1 <= n <= 12 -> Month.pt_month_label n = []) /\
  (Month.pt_month_label n = [] <-> ~ 1 <= n <= 12).
Proof.
  assert (K : 1 <= n <= 12 -> Month.pt_month_label n <> []).
  { intros H. apply month_number_cases in H.
    unfold Month.numbers in H. simpl in H.
    repeat (destruct H as [<-|H]; [discriminate|]). contradiction. }
  split; [|split].
  - intros H. split; [now apply label_choice | now apply K].
  - apply label_outside.
  - split; [|apply label_outside].
    intros E H. now apply (K H).
Qed.

(** Choosing a label in the month select box gives the number whose label
    it is, whatever the default was. *)
Theorem month_selectbox_picked (default_value : Z) (l : Str.str) :
  In l Month.labels ->
  exists n,
    Month.month_selectbox default_value (Some l) = Returned n /\
    1 <= n <= 12 /\
    Month.pt_month_label n = l.
Proof.
  intros H. unfold Month.labels in H. simpl in H.
  repeat (destruct H as [<-|H];
          [eexists; split; [cbv; reflexivity|]; split; [lia | reflexivity]|]).
  contradiction.
Qed.

Lemma month_selectbox_picked_witness :
  exists n,
    Month.month_selectbox 7 (Some (Str.lit "02 - Fevereiro")) = Returned n /\
    1 <= n <= 12 /\
    Month.pt_month_label n = Str.lit "02 - Fevereiro".
Proof.
  apply (month_selectbox_picked 7 (Str.lit "02 - Fevereiro")).
  simpl. tauto.
Defined.

(** Left untouched, the month select box returns its default when that is a
    month number from 1 to 12, and 1 otherwise; it never raises. *)
Theorem month_selectbox_untouched (default_value : Z) :
  Month.month_selectbox default_value None
  = Returned (if (1 <=? default_value) && (default_value <=? 12)
              then default_value else 1).
Proof.
  destruct ((1 <=? default_value) && (default_value <=? 12)) eqn:B.
  - apply andb_true_iff in B as [B1 B2].
    apply Z.leb_le in B1, B2.
    assert (E : In default_value Month.numbers)
      by (apply month_number_cases; lia).
    unfold Month.numbers in E. simpl in E.
    repeat (destruct E as [<-|E]; [reflexivity|]). contradiction.
  - assert (N : existsb (Z.eqb default_value) Month.numbers = false).
    { apply andb_false_iff in B.
      destruct (existsb _ _) eqn:X; [|reflexivity].
      apply existsb_exists in X as [n [Hn En]]. apply Z.eqb_eq in En. subst n.
      unfold Month.numbers in Hn. apply in_map_iff in Hn as [c [<- Hc]].
      apply choice_label in Hc.
      destruct B as [B|B]; apply Z.leb_gt in B; lia. }
    unfold Month.month_selectbox, Month.default_index. rewrite N. reflexivity.
Qed.

(** ** More on the filters *)

Lemma filter_filter {A : Type} (p q : A -> bool) (l : list A) :
  filter p (filter q l) = filter (fun x => q x && p x) l.
Proof.
  induction l as [|x l IH]; simpl; [reflexivity|].
  destruct (q x); simpl; [destruct (p x)|]; congruence.
Qed.

Lemma filter_none {A : Type} (p : A -> bool) (l : list A) :
  (forall x, In x l -> p x = false) -> filter p l = [].
Proof.
  induction l as [|x l IH]; simpl; intros H; [reflexivity|].
  rewrite (H x (or_introl eq_refl)). apply IH. intros y Hy. apply H. now right.
Qed.

Lemma month_numbers_spec (selected_months : list Str.str) (m : Z) :
  existsb (Z.eqb m) (View.month_numbers selected_months) = true <->
  (1 <= m <= 12 /\ In (Month.pt_month_label m) selected_months).
Proof.
  rewrite existsb_Zeqb_In. unfold View.month_numbers.
  rewrite in_map_iff. split.
  - intros [c [<- Hc]]. apply filter_In in Hc as [Hc Hm].
    apply mem_In in Hm. destruct (choice_label c Hc) as [R L].
    rewrite L. now split.
  - intros [R Hl]. exists (m, Month.pt_month_label m). split; [reflexivity|].
    apply filter_In. split; [now apply label_choice | now apply mem_In].
Qed.

(** The month filter alone keeps exactly the records whose month number is
    from 1 to 12 and has its label among the selected ones, in their order;
    a record with any other month number is dropped as soon as a month is
    selected, and with no month selected the list is returned as it is. *)
Theorem month_filter_exact (selected_months : list Str.str)
    (data : list Table.row) :
  exists keep : Table.row -> bool,
    View.apply_filters [] selected_months None data
      = Returned (filter keep data) /\
    forall r, keep r = true <->
      (selected_months = [] \/
       (1 <= Table.month_number (Table.cols r) <= 12 /\
        In (Month.pt_month_label (Table.month_number (Table.cols r)))
           selected_months)).
Proof.
  destruct selected_months as [|l0 sel].
  - exists (fun _ => true). unfold View.apply_filters; simpl.
    rewrite filter_all. split; [reflexivity|]. intros r. tauto.
  - eexists. split; [reflexivity|]. intros r.
    rewrite month_numbers_spec. split; [now right|].
    intros [H|H]; [discriminate | exact H].
Qed.

(** The status filter and the month filter combine by conjunction: with the
    date range off, or on with nothing picked, the two together keep exactly
    the records that each of them keeps when applied alone, in their order.
    So the order in which they are applied does not matter. *)
Theorem status_and_month_filters_combine
    (selected_status selected_months : list Str.str)
    (data : list Table.row) :
  exists by_status by_month : Table.row -> bool,
    View.apply_filters selected_status [] None data
      = Returned (filter by_status data) /\
    View.apply_filters [] selected_months None data
      = Returned (filter by_month data) /\
    View.apply_filters selected_status selected_months None data
      = Returned (filter (fun r => by_status r && by_month r) data) /\
    View.apply_filters selected_status selected_months (Some []) data
      = Returned (filter (fun r => by_status r && by_month r) data).
Proof.
  exists (match selected_status with
          | [] => fun _ => true
          | _ => View.status_isin selected_status
          end).
  exists (match selected_months with
          | [] => fun _ => true
          | _ =>
              fun r =>
                existsb (Z.eqb (Table.month_number (Table.cols r)))
                  (View.month_numbers selected_months)
          end).
  assert (S : View.filter_status selected_status data
              = filter (match selected_status with
                        | [] => fun _ => true
                        | _ => View.status_isin selected_status
                        end) data).
  { destruct selected_status; simpl; [now rewrite filter_all | reflexivity]. }
  assert (M : forall l,
             View.filter_months selected_months l
             = filter (match selected_months with
                       | [] => fun _ => true
                       | _ =>
                           fun r =>
                             existsb
                               (Z.eqb (Table.month_number (Table.cols r)))
                               (View.month_numbers selected_months)
                       end) l).
  { intros l. destruct selected_months; simpl;
      [now rewrite filter_all | reflexivity]. }
  unfold View.apply_filters. cbn [View.filter_issue_range]. repeat split.
  - cbn [View.filter_months]. now rewrite S.
  - cbn [View.filter_status]. now rewrite M.
  - now rewrite M, S, filter_filter.
  - now rewrite M, S, filter_filter.
Qed.

(** A date range with one date, as the date input returns while the user
    has picked the first day only, or with more than two, makes the filters
    raise [ValueError], whatever the other selections and the data. *)
Theorem odd_range_raises (selected_status selected_months : list Str.str)
    (range : list PyDate.date) (data : list Table.row) :
  List.length range <> 0%nat ->
  List.length range <> 2%nat ->
  View.apply_filters selected_status selected_months (Some range) data
  = Raised ValueError.
Proof.
  intros H0 H2. unfold View.apply_filters.
  destruct range as [|a [|b [|c range]]]; simpl in *;
    try reflexivity; congruence.
Qed.

Lemma odd_range_raises_witness :
  View.apply_filters [Str.lit "ATENDIDA"] [] (Some [Sample.d_2024_03_01])
    (rows Sample.one_record)
  = Raised ValueError.
Proof.
  apply (odd_range_raises [Str.lit "ATENDIDA"] [] [Sample.d_2024_03_01]
           (rows Sample.one_record)).
  - simpl. lia.
  - simpl. lia.
Defined.

(** A date range with its two dates does not filter.  Where the status and
    month filters leave no record it leaves none; where they leave any, the
    comparison of the first issue date with the lower bound raises
    [TypeError], whatever the bounds. *)
Theorem date_range_raises_unless_nothing_is_left
    (selected_status selected_months : list Str.str)
    (start end_ : PyDate.date) (data : list Table.row) :
  let left :=
    View.filter_months selected_months
      (View.filter_status selected_status data) in
  (left = [] ->
   View.apply_filters selected_status selected_months (Some [start; end_])
     data = Returned []) /\
  (left <> [] ->
   View.apply_filters selected_status selected_months (Some [start; end_])
     data = Raised TypeError).
Proof.
  intros left. unfold View.apply_filters. fold left.
  destruct left as [|r l]; split; intros H;
    try reflexivity; try discriminate; now contradiction H.
Qed.

(** ** The list tab *)

Lemma order_by_nil (l : list Table.row) :
  Table.order_by_issue_date_desc_id_desc l = [] <-> l = [].
Proof.
  split; intros H.
  - pose proof (Permutation_length (order_by_perm l)) as L.
    rewrite H in L. now destruct l.
  - now subst.
Qed.

(** The list tab only reads: it executes the one [SELECT] and leaves rows
    and sequence as they were.  It tells an empty table from an empty
    result: "no records" is shown exactly when the table is empty, and "none
    found" exactly when the table has rows and the filters keep none.  It
    shows nothing else: when the filters keep a record, formatting the issue
    dates through [.dt] raises [AttributeError], so no table is ever
    displayed. *)
Theorem show_table_tab_displays_no_table
    (selected_status selected_months : list Str.str)
    (issue_range : option (list PyDate.date)) (e : Engine) :
  let r := show_table_tab selected_status selected_months issue_range e in
  let kept :=
    View.apply_filters selected_status selected_months issue_range
      (Table.order_by_issue_date_desc_id_desc (rows e)) in
  snd r = executing SelectAll e /\
  rows (snd r) = rows e /\
  (fst r = Returned [info_no_records] <-> rows e = []) /\
  (fst r = Returned [warning_no_match] <->
     (rows e <> [] /\ kept = Returned [])) /\
  (fst r = Raised AttributeError <->
     (rows e <> [] /\ exists k l, kept = Returned (k :: l))) /\
  (forall shown,
     fst r = Returned shown ->
     shown = [info_no_records] \/ shown = [warning_no_match]).
Proof.
  unfold show_table_tab, fetch_dataframe. cbn [fst snd].
  destruct (Table.order_by_issue_date_desc_id_desc (rows e))
    as [|r0 data] eqn:E.
  - apply (proj1 (order_by_nil _)) in E. cbn [fst snd].
    split; [reflexivity|]. split; [reflexivity|]. split.
    { split; [intros _; exact E | reflexivity]. }
    split.
    { split; [discriminate | intros [H _]; contradiction]. }
    split.
    { split; [discriminate | intros [H _]; contradiction]. }
    intros shown H. injection H as <-. now left.
  - assert (N : rows e <> []).
    { intros H. apply (proj2 (order_by_nil _)) in H. congruence. }
    destruct (View.apply_filters _ _ _ (r0 :: data)) as [[|r1 l]|x] eqn:F;
      cbn [fst snd Frame.dt];
      (split; [reflexivity|]); (split; [reflexivity|]).
    + split; [split; [discriminate | intros H; contradiction]|].
      split; [split; [intros _; split; [exact N | reflexivity] | reflexivity]|].
      split.
      * split; [discriminate | intros [_ [k [l' H]]]; discriminate].
      * intros shown H. injection H as <-. now right.
    + split; [split; [discriminate | intros H; contradiction]|].
      split; [split; [discriminate | intros [_ H]; discriminate]|].
      split.
      * split; [intros _; split; [exact N | now exists r1, l] | reflexivity].
      * intros shown H. discriminate.
    + split; [split; [discriminate | intros H; contradiction]|].
      split; [split; [discriminate | intros [_ H]; discriminate]|].
      split.
      * split; [|intros [_ [k [l' H]]]; discriminate].
        intros H. injection H as ->. exfalso.
        revert F. unfold View.apply_filters, View.filter_issue_range.
        destruct issue_range as [[|a [|b [|c rg]]]|]; try discriminate.
        destruct (View.issue_dates _); discriminate.
      * intros shown H. discriminate.
Qed.

(** ** Insert *)

Section InsertFacts.

Variable numeric_of_float : PyFloat.float -> option Table.numeric.

(** A string with a NUL character, and nothing else, stops the driver. *)
Lemma quoted_cases (p : Payload.t) :
  (quoted p = inl NulInStringLiteral /\
   exists s, In s (strings_of p) /\ In 0%N s) \/
  (quoted p = inr tt /\
   forall s, In s (strings_of p) -> ~ In 0%N s).
Proof.
  unfold quoted.
  destruct (existsb (existsb (N.eqb 0)) (strings_of p)) eqn:E.
  - left. split; [reflexivity|].
    apply existsb_exists in E as [s [Hs E]].
    apply existsb_exists in E as [c [Hc E]].
    apply N.eqb_eq in E. subst c. now exists s.
  - right. split; [reflexivity|]. intros s Hs H0.
    assert (T : existsb (existsb (N.eqb 0)) (strings_of p) = true).
    { apply existsb_exists. exists s. split; [exact Hs|].
      apply existsb_exists. exists 0%N. split; [exact H0 | reflexivity]. }
    congruence.
Qed.

(** The errors of the server are no quoting errors. *)
Lemma varchar_error (n : nat) (s : Str.str) (d : db_error) :
  Table.varchar n s = inl d -> d <> NulInStringLiteral.
Proof.
  unfold Table.varchar. destruct (_ <=? _)%nat; [discriminate|].
  destruct (forallb _ _); [discriminate|].
  intros H; injection H as <-. discriminate.
Qed.

Lemma nullable_varchar_error (n : nat) (v : option Str.str) (d : db_error) :
  Table.nullable (Table.varchar n) v = inl d -> d <> NulInStringLiteral.
Proof.
  destruct v as [s|]; simpl; [|discriminate].
  destruct (Table.varchar n s) as [d'|s'] eqn:E; simpl; [|discriminate].
  intros H; injection H as <-. exact (varchar_error _ _ _ E).
Qed.

Lemma smallint_error (z : Z) (d : db_error) :
  Table.smallint z = inl d -> d <> NulInStringLiteral.
Proof.
  unfold Table.smallint. destruct (_ && _); [discriminate|].
  intros H; injection H as <-. discriminate.
Qed.

Lemma numeric_12_2_error (v : PyNum.num) (d : db_error) :
  numeric_12_2 numeric_of_float v = inl d -> d <> NulInStringLiteral.
Proof.
  unfold numeric_12_2. destruct v as [z|x].
  - destruct (Table.fits_12_2 _); [discriminate|].
    intros H; injection H as <-. discriminate.
  - destruct (numeric_of_float x); [discriminate|].
    intros H; injection H as <-. discriminate.
Qed.

Lemma generated_total_cost_error (a : Table.assigned) (d : db_error) :
  Table.generated_total_cost a = inl d -> d <> NulInStringLiteral.
Proof.
  unfold Table.generated_total_cost. destruct (Table.fits_12_2 _);
    [discriminate|].
  intros H; injection H as <-. discriminate.
Qed.

Ltac failing_step H :=
  match type of H with
  | bind ?c _ = inl _ =>
      let E := fresh "E" in
      destruct c eqn:E; cbn [bind] in H;
      [ injection H as <-;
        first [ exact (varchar_error _ _ _ E)
              | exact (nullable_varchar_error _ _ _ E)
              | exact (smallint_error _ _ E)
              | exact (numeric_12_2_error _ _ E) ]
      | ]
  end.

(** [bind_columns] fails with the quoting error exactly when a string of
    the payload has a NUL character. *)
Lemma bind_columns_quoted (p : Payload.t) :
  match bind_columns numeric_of_float p with
  | inl d =>
      d = NulInStringLiteral /\ quoted p = inl NulInStringLiteral \/
      d <> NulInStringLiteral /\ quoted p = inr tt
  | inr _ => quoted p = inr tt
  end.
Proof.
  unfold bind_columns.
  destruct (quoted_cases p) as [[Q _]|[Q _]]; rewrite Q; cbn [bind].
  - left. now split.
  - match goal with
    | |- match ?c with _ => _ end => destruct c as [d|a] eqn:H
    end; [|reflexivity].
    right. split; [|reflexivity].
    repeat failing_step H. discriminate.
Qed.

(** The two ways [insert_record] ends. *)
Lemma insert_record_cases (now : Z) (p : Payload.t) (e : Engine) :
  (exists d,
     insert_record numeric_of_float now p e
     = (Raised (raised d), drawn d (sent d (InsertInto p) e))) \/
  (exists a t,
     bind_columns numeric_of_float p = inr a /\
     Table.generated_total_cost a = inr t /\
     insert_record numeric_of_float now p e
     = (Returned tt,
        {| rows := rows e ++ [Table.mk_row (last_id e + 1) a t now];
           last_id := last_id e + 1;
           calls := InsertInto p :: calls e |})).
Proof.
  unfold insert_record.
  destruct (bind_columns numeric_of_float p) as [d|a]; cbn [bind].
  - left. now exists d.
  - destruct (Table.generated_total_cost a) as [d|t] eqn:Et; cbn [bind].
    + left. now exists d.
    + right. exists a, t. repeat split. exact Et.
Qed.

(** How [insert_record] fails: on a string with a NUL character, before
    anything is sent, with [ValueError]; otherwise on the server, with an
    error of the database. *)
Lemma insert_record_fails (now : Z) (p : Payload.t) (e : Engine)
    (x : exn) (e' : Engine) :
  insert_record numeric_of_float now p e = (Raised x, e') ->
  (x = ValueError /\ e' = e /\
   exists s, In s (strings_of p) /\ In 0%N s) \/
  (exists d,
     x = SQLAlchemyError d /\
     e' = {| rows := rows e; last_id := last_id e + 1;
             calls := InsertInto p :: calls e |} /\
     forall s, In s (strings_of p) -> ~ In 0%N s).
Proof.
  unfold insert_record. pose proof (bind_columns_quoted p) as Q.
  destruct (bind_columns numeric_of_float p) as [d|a]; cbn [bind].
  - destruct Q as [[-> Q]|[N Q]]; intros H; injection H as <- <-.
    + left. repeat split.
      destruct (quoted_cases p) as [[_ S]|[Q' _]]; [exact S | congruence].
    + right. exists d.
      destruct (quoted_cases p) as [[Q' _]|[_ S]]; [congruence|].
      destruct d; try (now contradiction N); repeat split; exact S.
  - destruct (Table.generated_total_cost a) as [d|t] eqn:Et; cbn [bind];
      [|discriminate].
    intros H; injection H as <- <-. right. exists d.
    apply generated_total_cost_error in Et.
    destruct (quoted_cases p) as [[Q' _]|[_ S]]; [congruence|].
    destruct d; try (now contradiction Et); repeat split; exact S.
Qed.

(** [insert_record] ends in one of three ways.  It raises [ValueError]
    before anything is sent, as it does for every payload with a NUL
    character in one of its strings.  Or the server rejects the statement
    and it raises [SQLAlchemyError]: the table keeps its rows, and the
    identifier the statement drew from the sequence is lost.  Or the call
    returns, with exactly one row appended: the payload's values coerced to
    the columns, the next value of the sequence as identifier, the server's
    time as creation time and the sum of the two costs as total. *)
Theorem insert_record_adds_one_row_or_none (now : Z) (p : Payload.t)
    (e : Engine) :
  let r := insert_record numeric_of_float now p e in
  ((exists s, In s (strings_of p) /\ In 0%N s) ->
   fst r = Raised ValueError) /\
  ((fst r = Raised ValueError /\ snd r = e) \/
   (exists d,
      fst r = Raised (SQLAlchemyError d) /\
      calls (snd r) = InsertInto p :: calls e /\
      rows (snd r) = rows e /\
      last_id e <= last_id (snd r) <= last_id e + 1) \/
   (exists new,
      fst r = Returned tt /\
      calls (snd r) = InsertInto p :: calls e /\
      rows (snd r) = rows e ++ [new] /\
      last_id (snd r) = last_id e + 1 /\
      Table.id new = last_id e + 1 /\
      Table.created_at new = now /\
      bind_columns numeric_of_float p = inr (Table.cols new) /\
      total_is_sum new)).
Proof.
  cbn zeta.
  destruct (insert_record numeric_of_float now p e) as [[u|x] e'] eqn:E.
  - destruct (insert_record_cases now p e) as [[d E']|[a [t [Eb [Et E']]]]];
      rewrite E in E'; [discriminate|].
    injection E' as -> ->. cbn [fst snd calls rows last_id]. split.
    + intros S. exfalso.
      pose proof (bind_columns_quoted p) as Q. rewrite Eb in Q.
      destruct (quoted_cases p) as [[Q' _]|[_ N]]; [congruence|].
      destruct S as [s [Hs H0]]. exact (N s Hs H0).
    + right. right. exists (Table.mk_row (last_id e + 1) a t now).
      repeat split; try assumption.
      unfold total_is_sum. cbn [Table.total_cost Table.cols].
      now apply generated_total_cost_sum.
  - destruct (insert_record_fails now p e x e' E)
      as [[-> [-> S]]|[d [-> [-> N]]]]; cbn [fst snd calls rows last_id].
    + split; [reflexivity|]. now left.
    + split.
      * intros [s [Hs H0]]. now destruct (N s Hs H0).
      * right. left. exists d. repeat split; lia.
Qed.

End InsertFacts.

(** ** Identifiers *)

Section IdentifierFacts.

Variable numeric_of_float : PyFloat.float -> option Table.numeric.

Lemma update_where_id_ids (i : Z) (a : Table.assigned)
    (l l' : list Table.row) :
  update_where_id i a l = inr l' -> map Table.id l' = map Table.id l.
Proof.
  intros H. apply update_where_id_rows in H.
  induction H as [|r r' l l' [Hi _] _ IH]; simpl; congruence.
Qed.

(** Selecting rows keeps their identifiers distinct. *)
Lemma distinct_ids_filter (keep : Table.row -> bool) (rs : list Table.row) :
  NoDup (map Table.id rs) -> NoDup (map Table.id (filter keep rs)).
Proof.
  induction rs as [|x rs IH]; simpl; intros H; [constructor|].
  inversion H as [|? ? Hx Hl]; subst.
  destruct (keep x); simpl; [|now apply IH].
  constructor; [|now apply IH].
  intros Hin. apply Hx. apply in_map_iff in Hin as [y [E Hy]].
  apply filter_In in Hy as [Hy _]. apply in_map_iff. now exists y.
Qed.

Lemma Forall_map_id (P : Z -> Prop) (l : list Table.row) :
  Forall (fun r => P (Table.id r)) l <-> Forall P (map Table.id l).
Proof. symmetry. apply Forall_map. Qed.

Lemma insert_record_identifiers (now : Z) (p : Payload.t) (e : Engine) :
  identifiers_ok e ->
  identifiers_ok (snd (insert_record numeric_of_float now p e)).
Proof.
  intros [H0 [Hn Hr]].
  destruct (insert_record_cases numeric_of_float now p e)
    as [[d ->]|[a [t [_ [_ ->]]]]]; cbn [snd].
  - unfold identifiers_ok. rewrite rows_drawn, rows_sent.
    pose proof (last_id_drawn d (sent d (InsertInto p) e)) as L.
    rewrite last_id_sent in L.
    split; [lia|]. split; [exact Hn|].
    revert Hr. apply Forall_impl. intros r Hr. lia.
  - unfold identifiers_ok; cbn [rows last_id]. split; [lia|]. split.
    + rewrite map_app. cbn [map Table.id].
      apply Permutation_NoDup
        with (l := (last_id e + 1) :: map Table.id (rows e)).
      * apply Permutation_cons_append.
      * constructor; [|exact Hn].
        intros Hin. apply in_map_iff in Hin as [r [E Hin]].
        rewrite Forall_forall in Hr. specialize (Hr r Hin). lia.
    + apply Forall_app. split.
      * revert Hr. apply Forall_impl. intros r. lia.
      * constructor; [|constructor]. cbn [Table.id]. lia.
Qed.

Lemma update_record_identifiers (i : Z) (p : Payload.t) (e : Engine) :
  identifiers_ok e ->
  identifiers_ok (snd (update_record numeric_of_float i p e)).
Proof.
  intros [H0 [Hn Hr]].
  destruct (update_record_cases numeric_of_float i p e)
    as [[d [_ ->]]|[[a [d [_ [_ ->]]]]|[a [rs [_ [Eu ->]]]]]]; cbn [snd];
    try (unfold identifiers_ok; rewrite rows_sent, last_id_sent;
         repeat split; assumption).
  apply update_where_id_ids in Eu.
  unfold identifiers_ok; cbn [rows last_id with_rows executing].
  split; [exact H0|]. split; [now rewrite Eu|].
  apply (Forall_map_id (fun z => 0 < z <= last_id e)). rewrite Eu.
  now apply (Forall_map_id (fun z => 0 < z <= last_id e)).
Qed.

Lemma delete_records_identifiers (ids : list Z) (e : Engine) :
  identifiers_ok e -> identifiers_ok (snd (delete_records ids e)).
Proof.
  intros [H0 [Hn Hr]].
  unfold identifiers_ok; cbn [snd delete_records rows last_id with_rows
                              executing].
  split; [exact H0|]. split; [now apply distinct_ids_filter|].
  apply Forall_forall. intros r Hin. apply filter_In in Hin as [Hin _].
  rewrite Forall_forall in Hr. now apply Hr.
Qed.

Lemma reachable_identifiers_ok (e : Engine) :
  reachable numeric_of_float e -> identifiers_ok e.
Proof.
  induction 1.
  - repeat split; [simpl; lia | constructor | constructor].
  - assumption.
  - assumption.
  - now apply insert_record_identifiers.
  - now apply update_record_identifiers.
  - now apply delete_records_identifiers.
Qed.

(** In every state the program reaches, the identifiers of the stored rows
    are distinct, positive and not above the last value of the sequence, so
    the next insert gets an identifier no row has; the rows
    [fetch_dataframe] returns have distinct identifiers too. *)
Theorem reachable_identifiers_distinct (e : Engine) :
  reachable numeric_of_float e ->
  NoDup (map Table.id (rows e)) /\
  (forall r, In r (rows e) -> 0 < Table.id r < last_id e + 1) /\
  exists data,
    fst (fetch_dataframe e) = Returned data /\
    NoDup (map Table.id data).
Proof.
  intros H. destruct (reachable_identifiers_ok e H) as [H0 [Hn Hr]].
  split; [exact Hn|]. split.
  - intros r Hin. rewrite Forall_forall in Hr. specialize (Hr r Hin). lia.
  - eexists. split; [reflexivity|].
    apply Permutation_NoDup with (l := map Table.id (rows e)); [|exact Hn].
    apply Permutation_map, order_by_perm.
Qed.

End IdentifierFacts.

Lemma reachable_identifiers_distinct_witness :
  NoDup (map Table.id (rows Sample.one_record)) /\
  (forall r, In r (rows Sample.one_record) ->
             0 < Table.id r < last_id Sample.one_record + 1) /\
  exists data,
    fst (fetch_dataframe Sample.one_record) = Returned data /\
    NoDup (map Table.id data).
Proof.
  apply (reachable_identifiers_distinct Driver.by_value Sample.one_record).
  exact one_record_reachable.
Defined.

(** ** Column widths *)

Section WidthFacts.

Variable numeric_of_float : PyFloat.float -> option Table.numeric.

Lemma varchar_length (n : nat) (s s' : Str.str) :
  Table.varchar n s = inr s' -> (List.length s' <= n)%nat.
Proof.
  unfold Table.varchar.
  destruct (List.length s <=? n)%nat eqn:L.
  - intros H; injection H as <-. now apply Nat.leb_le.
  - destruct (forallb _ _); [|discriminate].
    intros H; injection H as <-. apply firstn_le_length.
Qed.

Lemma nullable_varchar_length (n : nat) (v v' : option Str.str) :
  Table.nullable (Table.varchar n) v = inr v' -> at_most n v'.
Proof.
  destruct v as [s|]; simpl.
  - destruct (Table.varchar n s) as [d|s'] eqn:E; simpl; [discriminate|].
    intros H; injection H as <-. simpl. exact (varchar_length _ _ _ E).
  - intros H; injection H as <-. exact I.
Qed.

Lemma smallint_range (z z' : Z) :
  Table.smallint z = inr z' -> -32768 <= z' <= 32767.
Proof.
  unfold Table.smallint.
  destruct ((-32768 <=? z) && (z <=? 32767)) eqn:B; [|discriminate].
  intros H; injection H as <-.
  apply andb_true_iff in B as [B1 B2]. apply Z.leb_le in B1, B2. lia.
Qed.

Ltac bound_step H :=
  match type of H with
  | bind ?c _ = inr _ =>
      let E := fresh "E" in
      destruct c eqn:E; cbn [bind] in H; [discriminate|]
  end.

(** What [bind_columns] lets through fits the columns. *)
Lemma bind_columns_widths (p : Payload.t) (a : Table.assigned) :
  bind_columns numeric_of_float p = inr a -> widths_ok a.
Proof.
  intros H. unfold bind_columns in H.
  repeat bound_step H.
  injection H as <-. unfold widths_ok.
  cbn [Table.service_type Table.control Table.issuer Table.airline
       Table.month_number Table.origin Table.destination Table.user_name
       Table.cost_center Table.status Table.supplier Table.nf_number].
  repeat split;
    first [ eapply varchar_length; eassumption
          | eapply nullable_varchar_length; eassumption
          | eapply smallint_range; eassumption
          | eapply (proj1 (smallint_range _ _ ltac:(eassumption)))
          | eapply (proj2 (smallint_range _ _ ltac:(eassumption))) ].
Qed.

(** The control code bound to the statement is the payload's, cut to the
    column. *)
Lemma bind_columns_control (p : Payload.t) (a : Table.assigned) :
  bind_columns numeric_of_float p = inr a ->
  Table.varchar 64 (Payload.control p) = inr (Table.control a).
Proof.
  intros H. unfold bind_columns in H.
  repeat bound_step H.
  injection H as <-. cbn [Table.control]. reflexivity.
Qed.

(** The values of three select boxes bound to the statement. *)
Lemma bind_columns_selects (p : Payload.t) (a : Table.assigned) :
  bind_columns numeric_of_float p = inr a ->
  Table.varchar 32 (Payload.service_type p) = inr (Table.service_type a) /\
  Table.nullable (Table.varchar 64) (Payload.airline p)
  = inr (Table.airline a) /\
  Table.nullable (Table.varchar 32) (Payload.status p)
  = inr (Table.status a).
Proof.
  intros H. unfold bind_columns in H.
  repeat bound_step H.
  injection H as <-.
  cbn [Table.service_type Table.airline Table.status]. repeat split.
Qed.

Lemma insert_record_widths (now : Z) (p : Payload.t) (e : Engine) :
  Forall (fun r => widths_ok (Table.cols r)) (rows e) ->
  Forall (fun r => widths_ok (Table.cols r))
    (rows (snd (insert_record numeric_of_float now p e))).
Proof.
  intros H.
  destruct (insert_record_cases numeric_of_float now p e)
    as [[d ->]|[a [t [Eb [_ ->]]]]]; cbn [snd rows executing];
    [now rewrite rows_drawn, rows_sent|].
  apply Forall_app. split; [exact H|]. constructor; [|constructor].
  cbn [Table.cols]. exact (bind_columns_widths p a Eb).
Qed.

Lemma update_record_widths (i : Z) (p : Payload.t) (e : Engine) :
  Forall (fun r => widths_ok (Table.cols r)) (rows e) ->
  Forall (fun r => widths_ok (Table.cols r))
    (rows (snd (update_record numeric_of_float i p e))).
Proof.
  intros H.
  destruct (update_record_cases numeric_of_float i p e)
    as [[d [_ ->]]|[[a [d [_ [_ ->]]]]|[a [rs [Eb [Eu ->]]]]]];
    cbn [snd rows executing with_rows]; rewrite ?rows_sent; try exact H.
  apply bind_columns_widths in Eb. apply update_where_id_rows in Eu.
  induction Eu as [|r r' l l' [_ [_ Hc]] _ IH]; [constructor|].
  inversion H as [|? ? Hr Hl]; subst.
  constructor; [|now apply IH].
  destruct (Table.id r =? i); [now rewrite Hc | now subst].
Qed.

Lemma reachable_widths (e : Engine) :
  reachable numeric_of_float e ->
  Forall (fun r => widths_ok (Table.cols r)) (rows e).
Proof.
  induction 1.
  - constructor.
  - assumption.
  - assumption.
  - now apply insert_record_widths.
  - now apply update_record_widths.
  - cbn [snd delete_records rows with_rows executing].
    apply Forall_forall. intros r Hin. apply filter_In in Hin as [Hin _].
    rewrite Forall_forall in IHreachable. now apply IHreachable.
Qed.

(** In every state the program reaches, each stored record respects the
    widths of its columns: service type, cost centre and status have at most
    32 characters, the other bounded strings at most 64, and the month
    number fits a [SMALLINT].  A value that would not fit never gets in:
    the statement that brings it raises and changes no row. *)
Theorem reachable_rows_fit_columns (e : Engine) :
  reachable numeric_of_float e ->
  forall r, In r (rows e) -> widths_ok (Table.cols r).
Proof.
  intros H. apply Forall_forall. now apply reachable_widths.
Qed.

End WidthFacts.

Lemma reachable_rows_fit_columns_witness :
  Forall (fun r => widths_ok (Table.cols r)) (rows Sample.one_record).
Proof.
  apply Forall_forall.
  apply (reachable_rows_fit_columns Driver.by_value Sample.one_record).
  exact one_record_reachable.
Defined.

(** ** More on update *)

Section MoreUpdateFacts.

Variable numeric_of_float : PyFloat.float -> option Table.numeric.

Lemma update_where_id_unknown (i : Z) (a : Table.assigned)
    (l : list Table.row) :
  (forall r, In r l -> Table.id r <> i) -> update_where_id i a l = inr l.
Proof.
  induction l as [|r l IH]; intros H; simpl; [reflexivity|].
  destruct (Table.id r =? i) eqn:E.
  - apply Z.eqb_eq in E. exfalso. exact (H r (or_introl eq_refl) E).
  - simpl. rewrite IH; [reflexivity|]. intros r' Hr'. apply H. now right.
Qed.

(** [update_record] touches nothing but the record asked for: the rows
    keep their number and order, every row keeps its identifier and its
    creation time, and a row with another identifier is left exactly as it
    was.  When the call returns, each row with the identifier holds the
    payload's values, coerced to the columns, and their sum as total. *)
Theorem update_record_touches_one_record (record_id : Z) (p : Payload.t)
    (e : Engine) :
  let r := update_record numeric_of_float record_id p e in
  Forall2
    (fun old new =>
       Table.id new = Table.id old /\
       Table.created_at new = Table.created_at old /\
       (Table.id old <> record_id -> new = old) /\
       (Table.id old = record_id -> fst (fst r) = Returned tt ->
        bind_columns numeric_of_float p = inr (Table.cols new) /\
        total_is_sum new))
    (rows e) (rows (snd r)).
Proof.
  destruct (update_record_cases numeric_of_float record_id p e)
    as [[d [_ E]]|[[a [d [_ [_ E]]]]|[a [rs [Eb [Eu E]]]]]];
    cbn zeta; rewrite E; cbn [fst snd rows executing with_rows];
    rewrite ?rows_sent.
  - generalize (rows e). induction l; constructor; [|assumption].
    repeat split; discriminate.
  - generalize (rows e). induction l; constructor; [|assumption].
    repeat split; discriminate.
  - clear E. revert rs Eu.
    induction (rows e) as [|r l IH]; intros rs Eu; simpl in Eu.
    + injection Eu as <-. constructor.
    + destruct (Table.id r =? record_id) eqn:Ei.
      * destruct (Table.generated_total_cost a) as [d|t] eqn:Et;
          simpl in Eu; [discriminate|].
        destruct (update_where_id record_id a l) as [d|l2];
          simpl in Eu; [discriminate|].
        injection Eu as <-. constructor; [|now apply IH].
        apply Z.eqb_eq in Ei. cbn [Table.id Table.created_at Table.cols].
        split; [reflexivity|]. split; [reflexivity|].
        split; [intros N; contradiction|].
        intros _ _. split; [exact Eb|].
        unfold total_is_sum; cbn [Table.total_cost Table.cols].
        now apply generated_total_cost_sum.
      * simpl in Eu.
        destruct (update_where_id record_id a l) as [d|l2];
          simpl in Eu; [discriminate|].
        injection Eu as <-. constructor; [|now apply IH].
        apply Z.eqb_neq in Ei.
        split; [reflexivity|]. split; [reflexivity|].
        split; [reflexivity|]. intros N; contradiction.
Qed.

(** Updating an identifier that no row has is a silent no-op: when the
    payload's values fit the columns the call returns as after a real
    update, and the rows are as before. *)
Theorem update_record_unknown_id (record_id : Z) (p : Payload.t)
    (a : Table.assigned) (e : Engine) :
  (forall r, In r (rows e) -> Table.id r <> record_id) ->
  bind_columns numeric_of_float p = inr a ->
  let r := update_record numeric_of_float record_id p e in
  fst (fst r) = Returned tt /\
  rows (snd r) = rows e /\
  calls (snd r) = UpdateWhereId (Payload.set_id record_id p) :: calls e.
Proof.
  intros Hu Hb.
  pose proof (update_where_id_unknown record_id a (rows e) Hu) as U.
  destruct (update_record_cases numeric_of_float record_id p e)
    as [[d [Eb E]]|[[a' [d [Eb [Eu E]]]]|[a' [rs [Eb [Eu E]]]]]];
    cbn zeta; rewrite E; cbn [fst snd rows calls executing with_rows];
    try congruence.
  assert (a' = a) by congruence. subst a'.
  repeat split. congruence.
Qed.

End MoreUpdateFacts.

Lemma update_record_unknown_id_witness :
  let p := payload_of_form Sample.abc123 in
  exists a,
    bind_columns Driver.by_value p = inr a /\
    let r := update_record Driver.by_value 42 p Sample.one_record in
    fst (fst r) = Returned tt /\
    rows (snd r) = rows Sample.one_record /\
    calls (snd r) = UpdateWhereId (Payload.set_id 42 p)
                    :: calls Sample.one_record.
Proof.
  destruct (bind_columns_abc123 Driver.by_value by_value_keeps_exact_decimals)
    as [a [Eb _]].
  exists a. split; [exact Eb|].
  apply (update_record_unknown_id Driver.by_value 42
           (payload_of_form Sample.abc123) a Sample.one_record).
  - intros r Hin.
    pose proof (reachable_identifiers_ok Driver.by_value Sample.one_record
                  one_record_reachable) as [_ [_ Hr]].
    rewrite Forall_forall in Hr. specialize (Hr r Hin).
    change (last_id Sample.one_record) with 1 in Hr. lia.
  - exact Eb.
Defined.

(** ** The order of the list is determined *)

Section ListOrderFacts.

Variable numeric_of_float : PyFloat.float -> option Table.numeric.

Lemma same_id_same_row (l : list Table.row) (a b : Table.row) :
  NoDup (map Table.id l) -> In a l -> In b l -> Table.id a = Table.id b ->
  a = b.
Proof.
  induction l as [|x l IH]; simpl; intros Hn Ha Hb E; [contradiction|].
  inversion Hn as [|? ? Hx Hl]; subst.
  destruct Ha as [->|Ha], Hb as [->|Hb]; try reflexivity.
  - exfalso. apply Hx. rewrite E. now apply in_map.
  - exfalso. apply Hx. rewrite <- E. now apply in_map.
  - now apply IH.
Qed.

Lemma newest_first_antisym (l : list Table.row) (a b : Table.row) :
  NoDup (map Table.id l) -> In a l -> In b l ->
  newest_first a b -> newest_first b a -> a = b.
Proof.
  intros Hn Ha Hb [[L1 N1]|[E1 I1]] [[L2 N2]|[E2 I2]].
  - exfalso. apply N1. now apply le_antisym.
  - exfalso. now apply N1.
  - exfalso. now apply N2.
  - apply (same_id_same_row l); try assumption. lia.
Qed.

(** Two arrangements of the same rows that are both in order are the same
    list, when no two rows share an identifier. *)
Lemma sorted_arrangement_unique (l1 l2 : list Table.row) :
  NoDup (map Table.id l1) ->
  Permutation l1 l2 ->
  StronglySorted newest_first l1 -> StronglySorted newest_first l2 ->
  l1 = l2.
Proof.
  revert l2. induction l1 as [|a t1 IH]; intros l2 Hn Hp S1 S2.
  - apply Permutation_nil in Hp. now subst.
  - destruct l2 as [|b t2].
    + apply Permutation_sym, Permutation_nil in Hp. discriminate.
    + assert (E : a = b).
      { inversion S1 as [|? ? _ F1]; subst.
        inversion S2 as [|? ? _ F2]; subst.
        rewrite Forall_forall in F1, F2.
        assert (Ha : In a (b :: t2))
          by (apply (Permutation_in _ Hp); now left).
        assert (Hb : In b (a :: t1))
          by (apply (Permutation_in _ (Permutation_sym Hp)); now left).
        destruct Ha as [Ha|Ha]; [now symmetry|].
        destruct Hb as [Hb|Hb]; [assumption|].
        apply (newest_first_antisym (a :: t1)); try assumption.
        - now left.
        - now right.
        - now apply F1.
        - now apply F2. }
      subst b. f_equal.
      inversion Hn; subst. inversion S1; subst. inversion S2; subst.
      apply IH; try assumption.
      now apply Permutation_cons_inv in Hp.
Qed.

Lemma order_by_unique (rs l : list Table.row) :
  NoDup (map Table.id rs) ->
  Permutation rs l ->
  StronglySorted newest_first l ->
  Table.order_by_issue_date_desc_id_desc rs = l.
Proof.
  intros Hn Hp Hs. apply sorted_arrangement_unique.
  - apply Permutation_NoDup with (l := map Table.id rs); [|exact Hn].
    apply Permutation_map, order_by_perm.
  - rewrite <- Hp. symmetry. apply order_by_perm.
  - apply order_by_sorted.
  - exact Hs.
Qed.

(** In every state the program reaches, the order of the list is fully
    determined: [fetch_dataframe] returns the one arrangement of the stored
    rows that is ordered by issue date descending and identifier descending,
    whatever the order in which the table holds them. *)
Theorem fetch_dataframe_order_determined (e : Engine) (l : list Table.row) :
  reachable numeric_of_float e ->
  Permutation (rows e) l ->
  StronglySorted newest_first l ->
  fst (fetch_dataframe e) = Returned l.
Proof.
  intros Hr Hp Hs. cbn [fetch_dataframe fst]. f_equal.
  destruct (reachable_identifiers_ok numeric_of_float e Hr) as [_ [Hn _]].
  now apply order_by_unique.
Qed.

Lemma place_in_sorted (p : Table.row -> bool) (r : Table.row)
    (l : list Table.row) :
  StronglySorted newest_first l ->
  filter p (Table.place r l)
  = if p r then Table.place r (filter p l) else filter p l.
Proof.
  induction 1 as [|x l Hs IH Hx]; simpl.
  - destruct (p r); reflexivity.
  - destruct (Table.precedes r x) eqn:E.
    + simpl. destruct (p r); [|reflexivity].
      destruct (filter p (x :: l)) as [|y l'] eqn:F; simpl in F |- *;
        rewrite F; [reflexivity|].
      assert (Hy : In y (x :: l)).
      { apply (proj1 (filter_In p y (x :: l))). simpl. rewrite F. now left. }
      assert (Py : Table.precedes r y = true).
      { apply precedes_newest_first. apply precedes_newest_first in E.
        destruct Hy as [<-|Hy]; [exact E|].
        rewrite Forall_forall in Hx.
        exact (newest_first_trans _ _ _ E (Hx y Hy)). }
      simpl. now rewrite Py.
    + simpl. rewrite IH.
      destruct (p x), (p r); simpl; rewrite ?E; reflexivity.
Qed.

(** Ordering a selection of the rows gives the selection of the ordered
    rows. *)
Lemma order_by_filter (p : Table.row -> bool) (l : list Table.row) :
  Table.order_by_issue_date_desc_id_desc (filter p l)
  = filter p (Table.order_by_issue_date_desc_id_desc l).
Proof.
  induction l as [|r l IH]; simpl; [reflexivity|].
  rewrite place_in_sorted by apply order_by_sorted.
  destruct (p r); simpl; now rewrite IH.
Qed.

(** Delete and list commute: the list read after [delete_records] is the
    list read before, in the same order, without the records whose
    identifier was requested. *)
Theorem fetch_after_delete (ids : list Z) (e : Engine) :
  exists before after,
    fst (fetch_dataframe e) = Returned before /\
    fst (fetch_dataframe (snd (delete_records ids e))) = Returned after /\
    after = filter (fun r => negb (existsb (Z.eqb (Table.id r)) ids)) before /\
    (forall r, In r after <-> (In r before /\ ~ In (Table.id r) ids)).
Proof.
  do 2 eexists. split; [reflexivity|]. split; [reflexivity|].
  cbn [snd delete_records rows with_rows executing].
  split; [apply order_by_filter|].
  intros r. rewrite order_by_filter, filter_In, negb_true_iff.
  rewrite <- existsb_Zeqb_In.
  destruct (existsb (Z.eqb (Table.id r)) ids); intuition congruence.
Qed.

(** Insert and list: in a state the program reaches, the list read after a
    successful [insert_record] is the list read before with the new record
    put at its place, every other record where it was relative to the
    others. *)
Theorem fetch_after_insert (now : Z) (p : Payload.t) (e : Engine) :
  reachable numeric_of_float e ->
  fst (insert_record numeric_of_float now p e) = Returned tt ->
  exists before new,
    fst (fetch_dataframe e) = Returned before /\
    rows (snd (insert_record numeric_of_float now p e)) = rows e ++ [new] /\
    fst (fetch_dataframe (snd (insert_record numeric_of_float now p e)))
    = Returned (Table.place new before) /\
    List.length (Table.place new before) = S (List.length (rows e)).
Proof.
  intros Hr Hok.
  pose proof (reach_insert_record numeric_of_float now p e Hr) as Hr'.
  destruct (insert_record_cases numeric_of_float now p e)
    as [[d E]|[a [t [_ [_ E]]]]]; rewrite E in *; cbn [fst snd] in *;
    [discriminate|].
  eexists. exists (Table.mk_row (last_id e + 1) a t now).
  split; [reflexivity|]. split; [reflexivity|]. split.
  - cbn [fetch_dataframe fst]. f_equal.
    destruct (reachable_identifiers_ok numeric_of_float _ Hr')
      as [_ [Hn _]].
    apply order_by_unique; [exact Hn| |].
    + cbn [rows]. rewrite <- place_perm.
      rewrite <- Permutation_cons_append. constructor. apply order_by_perm.
    + apply place_sorted, order_by_sorted.
  - rewrite <- (Permutation_length (place_perm _ _)). simpl. f_equal.
    symmetry. apply Permutation_length, order_by_perm.
Qed.

End ListOrderFacts.

Lemma two_records_reachable : reachable Driver.by_value two_records.
Proof.
  apply show_create_tab_reachable, one_record_reachable.
Defined.

Lemma fetch_dataframe_order_determined_witness :
  fst (fetch_dataframe two_records) = Returned (rev (rows two_records)).
Proof.
  apply (fetch_dataframe_order_determined Driver.by_value two_records
           (rev (rows two_records))).
  - exact two_records_reachable.
  - apply Permutation_rev.
  - assert (E : rev (rows two_records)
                = Table.order_by_issue_date_desc_id_desc (rows two_records))
      by (vm_compute; reflexivity).
    rewrite E. apply order_by_sorted.
Defined.

Lemma fetch_after_insert_witness :
  let p := payload_of_form later_form in
  exists before new,
    fst (fetch_dataframe Sample.one_record) = Returned before /\
    rows (snd (insert_record Driver.by_value 2000 p Sample.one_record))
    = rows Sample.one_record ++ [new] /\
    fst (fetch_dataframe
           (snd (insert_record Driver.by_value 2000 p Sample.one_record)))
    = Returned (Table.place new before) /\
    List.length (Table.place new before)
    = S (List.length (rows Sample.one_record)).
Proof.
  apply (fetch_after_insert Driver.by_value 2000 (payload_of_form later_form)
           Sample.one_record).
  - exact one_record_reachable.
  - vm_compute. reflexivity.
Defined.

(** ** More on delete *)

Lemma existsb_app_or (x : Z) (l1 l2 : list Z) :
  existsb (Z.eqb x) (l1 ++ l2)
  = existsb (Z.eqb x) l1 || existsb (Z.eqb x) l2.
Proof. apply existsb_app. Qed.

(** Deletions compose: deleting one list of identifiers and then another
    leaves the rows that deleting both lists at once leaves; so deleting the
    same identifiers again changes nothing, and so does deleting none. *)
Theorem delete_records_compose (ids1 ids2 : list Z) (e : Engine) :
  rows (snd (delete_records ids2 (snd (delete_records ids1 e))))
  = rows (snd (delete_records (ids1 ++ ids2) e)) /\
  rows (snd (delete_records ids1 (snd (delete_records ids1 e))))
  = rows (snd (delete_records ids1 e)) /\
  rows (snd (delete_records [] e)) = rows e.
Proof.
  cbn [snd delete_records rows with_rows executing]. repeat split.
  - rewrite filter_filter. apply filter_ext. intros r.
    rewrite existsb_app_or, negb_orb. reflexivity.
  - rewrite filter_filter. apply filter_ext. intros r.
    now destruct (existsb (Z.eqb (Table.id r)) ids1).
  - simpl. apply filter_all.
Qed.

(** ** The delete tab *)

Section DeleteTabFacts.

Variable numeric_of_float : PyFloat.float -> option Table.numeric.

(** Without a selection, or without the button pressed, the delete tab only
    reads the list: no [DELETE] is executed and no row is removed. *)
Theorem show_delete_tab_idle (selection : list Z) (pressed : bool)
    (e : Engine) :
  selection = [] \/ pressed = false ->
  snd (show_delete_tab selection pressed e) = executing SelectAll e /\
  rows (snd (show_delete_tab selection pressed e)) = rows e.
Proof.
  intros H. unfold show_delete_tab, fetch_dataframe.
  destruct (Table.order_by_issue_date_desc_id_desc (rows e));
    [split; reflexivity|].
  destruct selection as [|i sel]; [split; reflexivity|].
  destruct H as [H| ->]; [discriminate | split; reflexivity].
Qed.

Lemma show_delete_tab_idle_witness :
  snd (show_delete_tab [1] false two_records) = executing SelectAll two_records
  /\ rows (snd (show_delete_tab [1] false two_records)) = rows two_records.
Proof.
  apply (show_delete_tab_idle [1] false two_records).
  right. reflexivity.
Defined.

Lemma requested_count (sel : list Z) (l : list Table.row) :
  NoDup (map Table.id l) -> NoDup sel ->
  (forall i, In i sel -> In i (map Table.id l)) ->
  List.length (filter (fun r => existsb (Z.eqb (Table.id r)) sel) l)
  = List.length sel.
Proof.
  intros Hl Hs Hin.
  rewrite <- (length_map Table.id). apply Permutation_length.
  apply NoDup_Permutation; [now apply distinct_ids_filter | exact Hs|].
  intros i. rewrite in_map_iff. split.
  - intros [r [<- Hr]]. apply filter_In in Hr as [_ Hr].
    now apply existsb_Zeqb_In.
  - intros Hi. destruct (proj1 (in_map_iff _ _ _) (Hin i Hi)) as [r [<- Hr]].
    exists r. split; [reflexivity|]. apply filter_In. split; [exact Hr|].
    now apply existsb_Zeqb_In.
Qed.

(** In a state the program reaches, pressing the button with a selection of
    listed records, as the multi-select offers them, deletes exactly those:
    the number the page reports is the number of rows removed, the rows
    left are those not selected, and the page asks for a rerun. *)
Theorem show_delete_tab_reports_rows_removed (selection : list Z)
    (e : Engine) :
  reachable numeric_of_float e ->
  selection <> [] ->
  NoDup selection ->
  (forall i, In i selection -> In i (map Table.id (rows e))) ->
  let r := show_delete_tab selection true e in
  fst r = Returned [success_deleted (List.length selection); rerun] /\
  (List.length (rows (snd r)) + List.length selection
   = List.length (rows e))%nat /\
  (forall row, In row (rows (snd r)) <->
               (In row (rows e) /\ ~ In (Table.id row) selection)) /\
  calls (snd r) = DeleteWhereIdAny selection :: SelectAll :: calls e.
Proof.
  intros Hr Hne Hnd Hin.
  destruct (reachable_identifiers_ok numeric_of_float e Hr) as [_ [Hn _]].
  assert (Rne : Table.order_by_issue_date_desc_id_desc (rows e) <> []).
  { intros H. apply (proj1 (order_by_nil _)) in H.
    destruct selection as [|i sel]; [contradiction|].
    specialize (Hin i (or_introl eq_refl)). rewrite H in Hin. contradiction. }
  unfold show_delete_tab, fetch_dataframe.
  destruct (Table.order_by_issue_date_desc_id_desc (rows e)) as [|r0 data];
    [contradiction|].
  destruct selection as [|i sel]; [contradiction|].
  cbn [fst snd delete_records rows calls with_rows executing].
  split; [reflexivity|]. split; [|split; [|reflexivity]].
  - rewrite <- (requested_count (i :: sel) (rows e) Hn Hnd Hin).
    rewrite Nat.add_comm. apply filter_length.
  - intros row. rewrite filter_In, negb_true_iff, <- existsb_Zeqb_In.
    destruct (existsb (Z.eqb (Table.id row)) (i :: sel));
      intuition congruence.
Qed.

End DeleteTabFacts.

Lemma show_delete_tab_reports_rows_removed_witness :
  let r := show_delete_tab [2] true two_records in
  fst r = Returned [success_deleted 1; rerun] /\
  (List.length (rows (snd r)) + 1 = List.length (rows two_records))%nat /\
  (forall row, In row (rows (snd r)) <->
               (In row (rows two_records) /\ ~ In (Table.id row) [2])) /\
  calls (snd r) = DeleteWhereIdAny [2] :: SelectAll :: calls two_records.
Proof.
  apply (show_delete_tab_reports_rows_removed Driver.by_value [2]
           two_records).
  - exact two_records_reachable.
  - discriminate.
  - repeat constructor. simpl. tauto.
  - intros i [<-|[]]. vm_compute. tauto.
Defined.

(** ** The create tab *)

Section CreateTabFacts.

Variable numeric_of_float : PyFloat.float -> option Table.numeric.

Lemma lstrip_nil_iff (s : Str.str) :
  Str.lstrip s = [] <-> forallb Str.isspace s = true.
Proof.
  induction s as [|c s IH]; simpl; [tauto|].
  destruct (Str.isspace c); simpl; [exact IH|]. split; discriminate.
Qed.

Lemma forallb_rev {A : Type} (p : A -> bool) (l : list A) :
  forallb p (rev l) = forallb p l.
Proof.
  destruct (forallb p l) eqn:E.
  - rewrite forallb_forall in *. intros x Hx. apply E. now apply in_rev.
  - destruct (forallb p (rev l)) eqn:E'; [|reflexivity].
    rewrite <- E. symmetry. rewrite forallb_forall in *.
    intros x Hx. apply E'. now apply in_rev in Hx.
Qed.

(** A string strips to nothing exactly when it is made of white space. *)
Lemma strip_nil_iff (s : Str.str) :
  Str.strip s = [] <-> forallb Str.isspace s = true.
Proof.
  unfold Str.strip, Str.rstrip. split.
  - intros H.
    assert (L : Str.lstrip (rev (Str.lstrip s)) = []).
    { destruct (Str.lstrip (rev (Str.lstrip s))) as [|c0 l0];
        [reflexivity|].
      simpl in H. now destruct (rev l0). }
    apply lstrip_nil_iff in L. rewrite forallb_rev in L.
    destruct (Str.lstrip s) as [|c t] eqn:U.
    + now apply lstrip_nil_iff.
    + pose proof (lstrip_head s c t U) as Hc.
      simpl in L. now rewrite Hc in L.
  - intros H. apply lstrip_nil_iff in H. now rewrite H.
Qed.

(** The validation rule is exact: a submitted create form is turned down
    with the message about the control code when, and only when, the
    control code is empty or made of white space only. *)
Theorem create_rejects_exactly_blank (now : Z) (f : form) (e : Engine) :
  submitted f = true ->
  (fst (show_create_tab numeric_of_float now f e)
   = Returned [error_control_required]
   <-> forallb Str.isspace (control f) = true).
Proof.
  intros Hs. rewrite <- strip_nil_iff. unfold show_create_tab. rewrite Hs.
  destruct (Str.strip (control f)) as [|c t] eqn:E; cbn [Str.truthy negb].
  - split; reflexivity.
  - destruct (insert_record_cases numeric_of_float now (payload_of_form f) e)
      as [[d ->]|[a [t' [_ [_ ->]]]]]; [destruct d|];
      cbn [fst raised]; split; discriminate.
Qed.

(** A submitted create form with a control code ends in one of three ways.
    The record is saved: the page shows the success, the total and asks for
    a rerun, and the table has one row more, with the trimmed control code.
    Or the server rejects the statement: the page shows the error instead of
    raising it, asks for no rerun, and the table keeps its rows.  Or the
    driver raises [ValueError], as it does when a string of the payload has
    a NUL character: the handler does not catch it, and nothing was sent. *)
Theorem show_create_tab_saves_or_reports (now : Z) (f : form) (e : Engine) :
  submitted f = true ->
  Str.strip (control f) <> [] ->
  let r := show_create_tab numeric_of_float now f e in
  let payload := payload_of_form f in
  (exists new,
     fst r = Returned [success_saved;
                       info_total (PyNum.add (Payload.service_cost payload)
                                     (Payload.fee payload));
                       rerun] /\
     calls (snd r) = InsertInto payload :: calls e /\
     rows (snd r) = rows e ++ [new] /\
     Table.id new = last_id e + 1 /\
     Table.varchar 64 (Str.strip (control f))
     = inr (Table.control (Table.cols new))) \/
  (exists d,
     fst r = Returned [error_saving d] /\
     calls (snd r) = InsertInto payload :: calls e /\
     rows (snd r) = rows e /\
     last_id e <= last_id (snd r) <= last_id e + 1) \/
  (fst r = Raised ValueError /\
   snd r = e /\
   calls (snd r) = calls e).
Proof.
  intros Hs Hc. unfold show_create_tab. rewrite Hs.
  destruct (Str.strip (control f)) as [|c t] eqn:E; [contradiction|].
  cbn [Str.truthy negb].
  destruct (insert_record numeric_of_float now (payload_of_form f) e)
    as [[u|x] e'] eqn:Ei.
  - destruct (insert_record_cases numeric_of_float now (payload_of_form f) e)
      as [[d E']|[a [t' [Eb [_ E']]]]]; rewrite Ei in E'; [discriminate|].
    injection E' as -> ->. cbn [fst snd calls rows last_id].
    left. eexists. split; [reflexivity|]. split; [reflexivity|].
    split; [reflexivity|]. split; [reflexivity|].
    cbn [Table.cols]. rewrite <- E.
    exact (bind_columns_control numeric_of_float _ _ Eb).
  - destruct (insert_record_fails numeric_of_float now _ e x e' Ei)
      as [[-> [-> S]]|[d [-> [-> N]]]]; cbn [fst snd calls rows last_id].
    + right. right. repeat split.
    + right. left. exists d. repeat split; lia.
Qed.

(** A NUL character in the control code is no white space: the form is
    accepted and the page ends with the [ValueError] of the driver. *)
Lemma show_create_tab_nul (now : Z) (f : form) (e : Engine) :
  submitted f = true ->
  In 0%N (Str.strip (control f)) ->
  show_create_tab numeric_of_float now f e = (Raised ValueError, e).
Proof.
  intros Hs H0. unfold show_create_tab. rewrite Hs.
  destruct (Str.strip (control f)) as [|c t] eqn:E; [contradiction|].
  cbn [Str.truthy negb].
  destruct (insert_record numeric_of_float now (payload_of_form f) e)
    as [[u|x] e'] eqn:Ei.
  - exfalso.
    destruct (insert_record_cases numeric_of_float now (payload_of_form f) e)
      as [[d E']|[a [t' [Eb [_ E']]]]]; rewrite Ei in E'; [discriminate|].
    pose proof (bind_columns_quoted numeric_of_float (payload_of_form f))
      as Q.
    rewrite Eb in Q.
    destruct (quoted_cases (payload_of_form f)) as [[Q' _]|[_ N]];
      [congruence|].
    apply (N (c :: t)); [|exact H0].
    unfold strings_of, payload_of_form, build_payload.
    cbn [Payload.control]. rewrite E. right. now left.
  - destruct (insert_record_fails numeric_of_float now _ e x e' Ei)
      as [[-> [-> _]]|[d [-> [-> N]]]]; [reflexivity|].
    exfalso. apply (N (c :: t)); [|exact H0].
    unfold strings_of, payload_of_form, build_payload.
    cbn [Payload.control]. rewrite E. right. now left.
Qed.

End CreateTabFacts.

Lemma create_rejects_exactly_blank_witness :
  fst (show_create_tab Driver.by_value 1000 Sample.abc123 fresh)
  = Returned [error_control_required]
  <-> forallb Str.isspace (control Sample.abc123) = true.
Proof.
  apply (create_rejects_exactly_blank Driver.by_value 1000 Sample.abc123
           fresh).
  reflexivity.
Defined.

Lemma show_create_tab_saves_or_reports_witness :
  let r := show_create_tab Driver.by_value 2000 later_form Sample.one_record in
  let payload := payload_of_form later_form in
  (exists new,
     fst r = Returned [success_saved;
                       info_total (PyNum.add (Payload.service_cost payload)
                                     (Payload.fee payload));
                       rerun] /\
     calls (snd r) = InsertInto payload :: calls Sample.one_record /\
     rows (snd r) = rows Sample.one_record ++ [new] /\
     Table.id new = last_id Sample.one_record + 1 /\
     Table.varchar 64 (Str.strip (control later_form))
     = inr (Table.control (Table.cols new))) \/
  (exists d,
     fst r = Returned [error_saving d] /\
     calls (snd r) = InsertInto payload :: calls Sample.one_record /\
     rows (snd r) = rows Sample.one_record /\
     last_id Sample.one_record <= last_id (snd r)
     <= last_id Sample.one_record + 1) \/
  (fst r = Raised ValueError /\
   snd r = Sample.one_record /\
   calls (snd r) = calls Sample.one_record).
Proof.
  apply (show_create_tab_saves_or_reports Driver.by_value 2000 later_form
           Sample.one_record).
  - reflexivity.
  - vm_compute. discriminate.
Defined.

(** ** What normalisation leaves alone *)

Lemma strip_decompose (s : Str.str) : only_outer_space s (Str.strip s).
Proof.
  destruct (lstrip_split s) as [w1 [E1 H1]].
  destruct (lstrip_split (rev (Str.lstrip s))) as [w [E2 H2]].
  exists w1, (rev w). split; [|split; [exact H1 | now rewrite forallb_rev]].
  unfold Str.strip, Str.rstrip.
  rewrite <- rev_app_distr, <- E2, rev_involutive. exact E1.
Qed.

Lemma text_or_None (t : Str.str) : Prefill.text (Str.or_None t) = t.
Proof. now destruct t. Qed.

(** [build_payload] changes a text entry at its two ends only: the control
    code, the issuer, origin, destination, user name, reason and NF number
    each come out as the input without some white space before and after
    it (a [None] standing for the empty string); no character inside is
    touched and none is added. *)
Theorem build_payload_trims_ends_only
    (service_type control : Str.str) (issue_date : PyDate.date)
    (issuer airline : Str.str) (departure_date : option PyDate.date)
    (month_number : Z)
    (origin destination user_name reason cost_center : Str.str)
    (service_cost fee : option PyFloat.float)
    (status supplier : Str.str) (nf_issue_date : option PyDate.date)
    (nf_number : Str.str) :
  let p :=
    build_payload service_type control issue_date issuer airline
      departure_date month_number origin destination user_name reason
      cost_center service_cost fee status supplier nf_issue_date nf_number in
  only_outer_space control (Payload.control p) /\
  only_outer_space issuer (Payload.issuer p) /\
  only_outer_space origin (Prefill.text (Payload.origin p)) /\
  only_outer_space destination (Prefill.text (Payload.destination p)) /\
  only_outer_space user_name (Prefill.text (Payload.user_name p)) /\
  only_outer_space reason (Prefill.text (Payload.reason p)) /\
  only_outer_space nf_number (Prefill.text (Payload.nf_number p)).
Proof.
  cbn [build_payload Payload.control Payload.issuer Payload.origin
       Payload.destination Payload.user_name Payload.reason
       Payload.nf_number].
  rewrite !text_or_None. repeat split; apply strip_decompose.
Qed.

(** ** The values the update form starts from *)

Lemma index_nth (x : Str.str) (l : list Str.str) (i : nat) :
  Month.index Str.eqb x l = Some i -> nth_error l i = Some x.
Proof.
  revert i. induction l as [|y l IH]; intros i; simpl; [discriminate|].
  destruct (Str.eqb x y) eqn:E.
  - intros H; injection H as <-. apply eqb_eq in E. now subst.
  - destruct (Month.index Str.eqb x l) as [j|]; [|discriminate].
    intros H; injection H as <-. simpl. now apply IH.
Qed.

Lemma index_In (x : Str.str) (l : list Str.str) :
  In x l <-> exists i, Month.index Str.eqb x l = Some i.
Proof.
  split.
  - induction l as [|y l IH]; simpl; [contradiction|].
    intros H. destruct (Str.eqb x y) eqn:E; [now exists 0%nat|].
    destruct H as [->|H].
    + assert (T : Str.eqb x x = true) by now apply eqb_eq. congruence.
    + destruct (IH H) as [i ->]. now exists (S i).
  - intros [i H]. apply index_nth in H. exact (nth_error_In _ _ H).
Qed.

Lemma at_index_of_In (x : Str.str) (options : list Str.str) :
  In x options -> Prefill.at_index_of x options = Returned x.
Proof.
  intros H. unfold Prefill.at_index_of.
  apply index_In in H as [i H]. rewrite H.
  now rewrite (index_nth _ _ _ H).
Qed.

Lemma at_index_of_not_In (x : Str.str) (options : list Str.str) :
  ~ In x options -> Prefill.at_index_of x options = Raised ValueError.
Proof.
  intros H. unfold Prefill.at_index_of.
  destruct (Month.index Str.eqb x options) as [i|] eqn:E; [|reflexivity].
  exfalso. apply H. apply index_In. now exists i.
Qed.

(** ** The update tab *)

Section UpdateTabFacts.

Variable numeric_of_float : PyFloat.float -> option Table.numeric.

Lemma row_with_id_cases (i : Z) (data : list Table.row) :
  (exists r, row_with_id i data = Returned r /\ In r data /\ Table.id r = i)
  \/
  (row_with_id i data = Raised IndexError /\
   forall r, In r data -> Table.id r <> i).
Proof.
  unfold row_with_id.
  destruct (filter (fun r => Table.id r =? i) data) as [|r0 l] eqn:F.
  - right. split; [reflexivity|]. intros r Hr E.
    assert (Hin : In r (filter (fun r => Table.id r =? i) data)).
    { apply filter_In. split; [exact Hr | now apply Z.eqb_eq]. }
    now rewrite F in Hin.
  - left. exists r0. split; [reflexivity|].
    assert (Hin : In r0 (filter (fun r => Table.id r =? i) data))
      by (rewrite F; now left).
    apply filter_In in Hin as [Hin E]. apply Z.eqb_eq in E. now split.
Qed.

(** The update tab never updates.  It executes the one [SELECT] and
    nothing else, whatever the form holds and whether or not it is
    submitted.  On an empty table it shows that there is nothing to edit.
    On any other table it raises before the form is complete:
    [AttributeError] from [row["issue_date"].date()] for a chosen record
    whose service type is in [SERVICE_TYPES], [ValueError] from
    [SERVICE_TYPES.index] for one whose service type is not, and
    [IndexError] for an identifier that no record has. *)
Theorem show_update_tab_never_updates (selected_id : Z) (f : form)
    (e : Engine) :
  let r := show_update_tab numeric_of_float selected_id f e in
  snd r = executing SelectAll e /\
  (rows e = [] /\ fst r = Returned [info_nothing_to_edit] \/
   rows e <> [] /\
   (fst r = Raised IndexError /\
    (forall stored, In stored (rows e) -> Table.id stored <> selected_id) \/
    exists stored,
      In stored (rows e) /\ Table.id stored = selected_id /\
      (fst r = Raised ValueError /\
       ~ In (Table.service_type (Table.cols stored))
            Vocabulary.SERVICE_TYPES \/
       fst r = Raised AttributeError /\
       In (Table.service_type (Table.cols stored))
          Vocabulary.SERVICE_TYPES))).
Proof.
  cbn zeta. split; [apply show_update_tab_snd|].
  unfold show_update_tab, fetch_dataframe.
  destruct (Table.order_by_issue_date_desc_id_desc (rows e))
    as [|r0 data] eqn:D.
  - left. apply (proj1 (order_by_nil _)) in D. now split.
  - right. split.
    { intros H. apply (proj2 (order_by_nil _)) in H. congruence. }
    destruct (row_with_id_cases selected_id (r0 :: data))
      as [[r [-> [Hin Hid]]]|[-> Hno]].
    + right. exists r. rewrite <- D in Hin.
      apply (proj1 (order_by_In _ _)) in Hin.
      split; [exact Hin|]. split; [exact Hid|].
      unfold Prefill.service_type.
      destruct (in_dec (list_eq_dec N.eq_dec)
                  (Table.service_type (Table.cols r))
                  Vocabulary.SERVICE_TYPES) as [Hs|Hs].
      * right. rewrite (at_index_of_In _ _ Hs). now split.
      * left. rewrite (at_index_of_not_In _ _ Hs). now split.
    + left. split; [reflexivity|]. intros stored Hs. apply Hno.
      rewrite <- D. now apply order_by_In.
Qed.

End UpdateTabFacts.

(** ** The script *)

Section ScriptFacts.

Variable numeric_of_float : PyFloat.float -> option Table.numeric.

Lemma then_tab_adds (Q : list statement -> Prop)
    (page : Engine -> outcome (list ui) * Engine)
    (e0 : Engine) (so_far : run * Engine) :
  Q [] -> (forall l l', Q l -> Q l' -> Q (l ++ l')) ->
  adds Q page ->
  (exists l, added e0 (snd so_far) l /\ Q l) ->
  exists l, added e0 (snd (then_tab page so_far)) l /\ Q l.
Proof.
  intros Qnil Qapp Hp [l1 [H1 Q1]]. destruct so_far as [[|m|x] e1];
    cbn [then_tab snd] in *; try (exists l1; now split).
  destruct (reruns m); [exists l1; now split|].
  destruct (Hp e1) as [l [Hl Ql]].
  exists (l ++ l1). split; [|now apply Qapp].
  unfold added in *.
  destruct (page e1) as [[more|x] e']; cbn [snd] in *;
    rewrite Hl, H1; now rewrite app_assoc.
Qed.

Lemma show_create_tab_adds (Q : list statement -> Prop) (now : Z) (f : form) :
  Q [] -> (forall p, Str.strip (control f) <> [] -> Q [InsertInto p]) ->
  adds Q (show_create_tab numeric_of_float now f).
Proof.
  intros Qnil Qins e. unfold show_create_tab.
  destruct (submitted f); [|exists []; now split].
  destruct (Str.strip (control f)) as [|c t] eqn:E; cbn [Str.truthy negb];
    [exists []; now split|].
  destruct (insert_record numeric_of_float now (payload_of_form f) e)
    as [[u0|x] e'] eqn:Ei.
  - exists [InsertInto (payload_of_form f)].
    split; [|apply Qins; discriminate].
    destruct (insert_record_cases numeric_of_float now (payload_of_form f) e)
      as [[d E']|[a [t' [_ [_ E']]]]]; rewrite Ei in E'; [discriminate|].
    now injection E' as _ ->.
  - destruct (insert_record_fails numeric_of_float now _ e x e' Ei)
      as [[-> [-> _]]|[d [-> [-> _]]]].
    + exists []. now split.
    + exists [InsertInto (payload_of_form f)].
      split; [reflexivity | apply Qins; discriminate].
Qed.

Lemma show_table_tab_adds (Q : list statement -> Prop)
    (ss sm : list Str.str) (rg : option (list PyDate.date)) :
  Q [SelectAll] -> adds Q (show_table_tab ss sm rg).
Proof.
  intros Qs e. exists [SelectAll]. split; [|exact Qs].
  unfold show_table_tab, fetch_dataframe.
  destruct (Table.order_by_issue_date_desc_id_desc (rows e));
    [reflexivity|].
  destruct (View.apply_filters _ _ _ _) as [[|r1 l1]|x]; reflexivity.
Qed.

Lemma show_update_tab_adds (Q : list statement -> Prop) (i : Z) (f : form) :
  Q [SelectAll] -> adds Q (show_update_tab numeric_of_float i f).
Proof.
  intros Qs e. exists [SelectAll]. split; [|exact Qs].
  unfold added. now rewrite show_update_tab_snd.
Qed.

Lemma show_delete_tab_adds (Q : list statement -> Prop) (sel : list Z)
    (pressed : bool) :
  Q [SelectAll] -> (forall ids, Q [DeleteWhereIdAny ids; SelectAll]) ->
  adds Q (show_delete_tab sel pressed).
Proof.
  intros Qs Qd e. unfold show_delete_tab, fetch_dataframe.
  destruct (Table.order_by_issue_date_desc_id_desc (rows e)) as [|r0 data];
    [exists [SelectAll]; now split|].
  destruct sel as [|i sel]; [exists [SelectAll]; now split|].
  destruct pressed; [|exists [SelectAll]; now split].
  exists [DeleteWhereIdAny (i :: sel); SelectAll]. split; [reflexivity|].
  apply Qd.
Qed.

(** What [main] adds to the log, for a property that the statements of each
    tab have and that concatenation keeps. *)
Lemma main_adds (Q : list statement -> Prop) (s : session) (e : Engine) :
  Q [] -> (forall l l', Q l -> Q l' -> Q (l ++ l')) ->
  Q [SelectAll] ->
  (forall ids, Q [DeleteWhereIdAny ids; SelectAll]) ->
  (forall p, Str.strip (control (create_form s)) <> [] -> Q [InsertInto p]) ->
  match get_engine (database_url s) with
  | None => main numeric_of_float s e = (Stopped, e)
  | Some _ =>
      exists l,
        calls (snd (main numeric_of_float s e))
        = l ++ CreateTableIfNotExists :: calls e /\ Q l
  end.
Proof.
  intros Qnil Qapp Qs Qd Qi. unfold main.
  destruct (get_engine (database_url s)); [|reflexivity].
  cbn [ensure_table].
  set (e0 := executing CreateTableIfNotExists e).
  assert (H : exists l,
             added e0
               (snd
                  (then_tab (show_delete_tab (selection s) (pressed s))
                     (then_tab
                        (show_update_tab numeric_of_float (selected_id s)
                           (update_form s))
                        (then_tab
                           (show_table_tab (selected_status s)
                              (selected_months s) (issue_range s))
                           (then_tab
                              (show_create_tab numeric_of_float (clock s)
                                 (create_form s))
                              (Shown [], e0)))))) l /\ Q l).
  { apply then_tab_adds; try assumption;
      [now apply show_delete_tab_adds|].
    apply then_tab_adds; try assumption;
      [now apply show_update_tab_adds|].
    apply then_tab_adds; try assumption;
      [now apply show_table_tab_adds|].
    apply then_tab_adds; try assumption;
      [now apply show_create_tab_adds|].
    exists []. now split. }
  destruct H as [l [H Ql]]. exists l. split; [exact H | exact Ql].
Qed.

(** Without [DATABASE_URL], unset or empty, the script stops before it
    reaches the database: no statement is executed and no tab is
    rendered. *)
Theorem main_stops_without_database_url (s : session) (e : Engine) :
  database_url s = None \/ database_url s = Some [] ->
  main numeric_of_float s e = (Stopped, e).
Proof.
  intros [H|H]; unfold main; rewrite H; reflexivity.
Qed.

(** With a [DATABASE_URL], every run of the script begins at the database
    with [CREATE TABLE IF NOT EXISTS], before any statement of a tab, and is
    not stopped; a state the program can reach stays one. *)
Theorem main_ensures_table_first (s : session) (e : Engine) (c : N)
    (u : Str.str) :
  database_url s = Some (c :: u) ->
  (exists l,
     calls (snd (main numeric_of_float s e))
     = l ++ CreateTableIfNotExists :: calls e) /\
  fst (main numeric_of_float s e) <> Stopped /\
  (reachable numeric_of_float e ->
   reachable numeric_of_float (snd (main numeric_of_float s e))).
Proof.
  intros Hu.
  pose proof (main_adds (fun _ => True) s e I (fun _ _ _ _ => I) I
                (fun _ => I) (fun _ _ => I)) as H.
  rewrite Hu in H. cbn [get_engine] in H. destruct H as [l [H _]].
  split; [now exists l|]. split.
  - unfold main. rewrite Hu. cbn [get_engine ensure_table].
    set (e0 := executing CreateTableIfNotExists e).
    assert (T : forall page so_far,
               fst so_far <> Stopped -> fst (then_tab page so_far) <> Stopped).
    { intros page [[|m|x] e1]; cbn [then_tab fst]; intros N;
        try assumption.
      destruct (reruns m); [exact N|].
      destruct (page e1) as [[more|x] e']; discriminate. }
    repeat apply T. discriminate.
  - intros Hr. unfold main. rewrite Hu. cbn [get_engine ensure_table].
    assert (T : forall page so_far,
               (forall e1, reachable numeric_of_float e1 ->
                           reachable numeric_of_float (snd (page e1))) ->
               reachable numeric_of_float (snd so_far) ->
               reachable numeric_of_float (snd (then_tab page so_far))).
    { intros page [[|m|x] e1] Hp R; cbn [then_tab snd] in *;
        try assumption.
      destruct (reruns m); [exact R|].
      specialize (Hp e1 R).
      destruct (page e1) as [[more|x] e']; exact Hp. }
    apply T; [intros; now apply show_delete_tab_reachable|].
    apply T; [intros; now apply show_update_tab_reachable|].
    apply T; [intros; now apply show_table_tab_reachable|].
    apply T; [intros; now apply show_create_tab_reachable|].
    exact (reach_ensure_table numeric_of_float e Hr).
Qed.

(** A run never sends an [INSERT] for a blank control code: with the
    create form holding a control code that is empty after trimming, no
    statement that the run executes, in any tab, is an [INSERT]. *)
Theorem main_never_inserts_blank_control (s : session) (e : Engine) (c : N)
    (u : Str.str) :
  database_url s = Some (c :: u) ->
  Str.strip (control (create_form s)) = [] ->
  exists l,
    calls (snd (main numeric_of_float s e))
    = l ++ CreateTableIfNotExists :: calls e /\
    forall p, ~ In (InsertInto p) l.
Proof.
  intros Hu Hc.
  pose proof (main_adds (fun l => forall p, ~ In (InsertInto p) l) s e) as H.
  rewrite Hu in H. cbn [get_engine] in H. apply H.
  - intros p [].
  - intros l l' Hl Hl' p Hin. apply in_app_or in Hin as [Hin|Hin];
      [exact (Hl p Hin) | exact (Hl' p Hin)].
  - intros p [Hin|[]]. discriminate.
  - intros ids p [Hin|[Hin|[]]]; discriminate.
  - intros p N. contradiction.
Qed.

(** A record saved in the create tab ends the run at once: the page shows
    the success, the total and the rerun, the run has executed
    [CREATE TABLE IF NOT EXISTS] and the [INSERT] and nothing else, and the
    other three tabs are not rendered in this run. *)
Theorem main_reruns_after_save (s : session) (e : Engine) (c : N)
    (u : Str.str) :
  database_url s = Some (c :: u) ->
  submitted (create_form s) = true ->
  Str.strip (control (create_form s)) <> [] ->
  let payload := payload_of_form (create_form s) in
  let saved :=
    insert_record numeric_of_float (clock s) payload
      (executing CreateTableIfNotExists e) in
  fst saved = Returned tt ->
  main numeric_of_float s e
  = (Shown [success_saved;
            info_total (PyNum.add (Payload.service_cost payload)
                          (Payload.fee payload));
            rerun],
     snd saved) /\
  calls (snd (main numeric_of_float s e))
  = [InsertInto payload; CreateTableIfNotExists] ++ calls e.
Proof.
  intros Hu Hs Hc payload saved Hok. subst saved payload.
  unfold main. rewrite Hu. cbn [get_engine ensure_table].
  set (e0 := executing CreateTableIfNotExists e) in *.
  assert (C : show_create_tab numeric_of_float (clock s) (create_form s) e0
              = (Returned
                   [success_saved;
                    info_total
                      (PyNum.add
                         (Payload.service_cost
                            (payload_of_form (create_form s)))
                         (Payload.fee (payload_of_form (create_form s))));
                    rerun],
                 snd (insert_record numeric_of_float (clock s)
                        (payload_of_form (create_form s)) e0))).
  { unfold show_create_tab. rewrite Hs.
    destruct (Str.strip (control (create_form s))); [contradiction|].
    cbn [Str.truthy negb].
    destruct (insert_record numeric_of_float (clock s)
                (payload_of_form (create_form s)) e0) as [[u1|x] e1];
      [reflexivity | discriminate]. }
  assert (T : then_tab
                (show_create_tab numeric_of_float (clock s) (create_form s))
                (Shown [], e0)
              = (Shown
                   [success_saved;
                    info_total
                      (PyNum.add
                         (Payload.service_cost
                            (payload_of_form (create_form s)))
                         (Payload.fee (payload_of_form (create_form s))));
                    rerun],
                 snd (insert_record numeric_of_float (clock s)
                        (payload_of_form (create_form s)) e0))).
  { unfold then_tab. cbn [reruns existsb]. now rewrite C. }
  rewrite T. cbn [then_tab reruns existsb orb]. split; [reflexivity|].
  cbn [snd].
  destruct (insert_record_cases numeric_of_float (clock s)
              (payload_of_form (create_form s)) e0)
    as [[d E]|[a [t [_ [_ E]]]]]; rewrite E in *; [discriminate|].
  reflexivity.
Qed.

(** The update tab returns on an empty table only, and on an empty table
    the delete tab only reads. *)
Lemma show_update_tab_returned (i : Z) (f : form) (e : Engine)
    (more : list ui) :
  fst (show_update_tab numeric_of_float i f e) = Returned more ->
  rows e = [].
Proof.
  unfold show_update_tab, fetch_dataframe.
  destruct (Table.order_by_issue_date_desc_id_desc (rows e))
    as [|r0 data] eqn:D.
  - intros _. now apply (proj1 (order_by_nil _)) in D.
  - destruct (row_with_id i (r0 :: data)) as [r|x]; [|discriminate].
    destruct (Prefill.service_type r) as [t|x]; discriminate.
Qed.

Lemma show_delete_tab_empty (sel : list Z) (pressed : bool) (e : Engine) :
  rows e = [] ->
  show_delete_tab sel pressed e
  = (Returned [info_nothing_to_delete], executing SelectAll e).
Proof.
  intros H. unfold show_delete_tab, fetch_dataframe. now rewrite H.
Qed.

Lemma last_tabs_only_read (i : Z) (f : form) (sel : list Z) (pressed : bool)
    (so_far : run * Engine) :
  exists l,
    added (snd so_far)
      (snd (then_tab (show_delete_tab sel pressed)
              (then_tab (show_update_tab numeric_of_float i f) so_far))) l /\
    Forall (eq SelectAll) l.
Proof.
  destruct so_far as [[|m|x] e2]; cbn [then_tab snd];
    try (exists []; split; [reflexivity | constructor]).
  destruct (reruns m) eqn:R; cbn [then_tab snd]; rewrite ?R; cbn [snd].
  - exists []. split; [reflexivity | constructor].
  - pose proof (show_update_tab_snd numeric_of_float i f e2) as S.
    pose proof (show_update_tab_returned i f e2) as T.
    destruct (show_update_tab numeric_of_float i f e2) as [[more|x] e3];
      cbn [fst snd] in S, T; subst e3; cbn [then_tab snd].
    + destruct (reruns (m ++ more)); cbn [snd].
      * exists [SelectAll]. split; [reflexivity | now constructor].
      * rewrite show_delete_tab_empty by exact (T more eq_refl).
        exists [SelectAll; SelectAll].
        split; [reflexivity | now repeat constructor].
    + exists [SelectAll]. split; [reflexivity | now constructor].
Qed.

(** A run of the script never updates and never deletes: whatever the
    session holds, the statements it executes are [CREATE TABLE IF NOT
    EXISTS], [SELECT] and at most the [INSERT] of the create tab.  The update
    tab raises on every table that is not empty, which ends the run before
    the delete tab; and on an empty table there is nothing to delete. *)
Theorem main_never_updates_or_deletes (s : session) (e : Engine) :
  exists l,
    calls (snd (main numeric_of_float s e)) = l ++ calls e /\
    forall st, In st l ->
      (forall p, st <> UpdateWhereId p) /\
      (forall ids, st <> DeleteWhereIdAny ids).
Proof.
  set (Q := fun l : list statement =>
              forall st, In st l ->
                (forall p, st <> UpdateWhereId p) /\
                (forall ids, st <> DeleteWhereIdAny ids)).
  assert (Qnil : Q []) by (intros st []).
  assert (Qapp : forall l l', Q l -> Q l' -> Q (l ++ l')).
  { intros l l' Hl Hl' st Hin. apply in_app_or in Hin as [Hin|Hin];
      [exact (Hl st Hin) | exact (Hl' st Hin)]. }
  assert (Qone : forall st,
             (forall p, st <> UpdateWhereId p) ->
             (forall ids, st <> DeleteWhereIdAny ids) -> Q [st]).
  { intros st H1 H2 st' [<-|[]]. now split. }
  unfold main. destruct (get_engine (database_url s));
    [|exists []; split; [reflexivity | exact Qnil]].
  cbn [ensure_table].
  set (e0 := executing CreateTableIfNotExists e).
  set (first_tabs :=
         then_tab
           (show_table_tab (selected_status s) (selected_months s)
              (issue_range s))
           (then_tab
              (show_create_tab numeric_of_float (clock s) (create_form s))
              (Shown [], e0))).
  assert (F : exists l, added e0 (snd first_tabs) l /\ Q l).
  { apply then_tab_adds; try assumption.
    - apply show_table_tab_adds. apply Qone; discriminate.
    - apply then_tab_adds; try assumption.
      + apply show_create_tab_adds; [exact Qnil|].
        intros p _. apply Qone; discriminate.
      + exists []. now split. }
  destruct F as [l1 [A1 Q1]].
  destruct (last_tabs_only_read (selected_id s) (update_form s)
              (selection s) (pressed s) first_tabs) as [l2 [A2 Q2]].
  exists (l2 ++ l1 ++ [CreateTableIfNotExists]). split.
  - unfold added in *. rewrite A2, A1. subst e0. cbn [calls executing].
    now rewrite <- !app_assoc.
  - apply Qapp; [|apply Qapp; [exact Q1 | apply Qone; discriminate]].
    intros st Hin. rewrite Forall_forall in Q2.
    rewrite <- (Q2 st Hin). split; discriminate.
Qed.

End ScriptFacts.

Lemma main_stops_without_database_url_witness :
  main Driver.by_value (saving_session (Some []) later_form) Sample.one_record
  = (Stopped, Sample.one_record).
Proof.
  apply (main_stops_without_database_url Driver.by_value
           (saving_session (Some []) later_form) Sample.one_record).
  right. reflexivity.
Defined.

Lemma main_ensures_table_first_witness :
  let s := saving_session sample_url later_form in
  (exists l,
     calls (snd (main Driver.by_value s Sample.one_record))
     = l ++ CreateTableIfNotExists :: calls Sample.one_record) /\
  fst (main Driver.by_value s Sample.one_record) <> Stopped /\
  (reachable Driver.by_value Sample.one_record ->
   reachable Driver.by_value (snd (main Driver.by_value s Sample.one_record))).
Proof.
  apply (main_ensures_table_first Driver.by_value
           (saving_session sample_url later_form) Sample.one_record
           112%N (Str.lit "ostgresql://localhost/travel")).
  reflexivity.
Defined.

Lemma main_never_inserts_blank_control_witness :
  let s := saving_session sample_url
             (Sample.with_control (Str.lit " ") later_form) in
  exists l,
    calls (snd (main Driver.by_value s Sample.one_record))
    = l ++ CreateTableIfNotExists :: calls Sample.one_record /\
    forall p, ~ In (InsertInto p) l.
Proof.
  apply (main_never_inserts_blank_control Driver.by_value
           (saving_session sample_url
              (Sample.with_control (Str.lit " ") later_form))
           Sample.one_record 112%N (Str.lit "ostgresql://localhost/travel")).
  - reflexivity.
  - reflexivity.
Defined.

Lemma main_reruns_after_save_witness :
  let s := saving_session sample_url later_form in
  let payload := payload_of_form later_form in
  main Driver.by_value s Sample.one_record
  = (Shown [success_saved;
            info_total (PyNum.add (Payload.service_cost payload)
                          (Payload.fee payload));
            rerun],
     snd (insert_record Driver.by_value 2000 payload
            (executing CreateTableIfNotExists Sample.one_record))) /\
  calls (snd (main Driver.by_value s Sample.one_record))
  = [InsertInto payload; CreateTableIfNotExists] ++ calls Sample.one_record.
Proof.
  apply (main_reruns_after_save Driver.by_value
           (saving_session sample_url later_form) Sample.one_record
           112%N (Str.lit "ostgresql://localhost/travel")).
  - reflexivity.
  - reflexivity.
  - vm_compute. discriminate.
  - vm_compute. reflexivity.
Defined.

(** ** Rounding keeps the sign *)

Section SignFacts.
Import PyFloat.

Lemma iter_pos_keeps {A : Type} (P : A -> Prop) (f : A -> A) :
  (forall x, P x -> P (f x)) ->
  forall p x, P x -> P (iter_pos f p x).
Proof.
  intros Hf. induction p as [p IH|p IH|]; intros x Hx; simpl.
  - apply IH, IH, Hf, Hx.
  - apply IH, IH, Hx.
  - apply Hf, Hx.
Qed.

Lemma shr_1_nonneg (mrs : shr_record) :
  0 <= shr_m mrs -> 0 <= shr_m (shr_1 mrs).
Proof.
  destruct mrs as [m r s]. simpl.
  destruct m as [|[p|p|]|[p|p|]]; simpl; lia.
Qed.

Lemma shr_nonneg (mrs : shr_record) (e n : Z) :
  0 <= shr_m mrs -> 0 <= shr_m (fst (shr mrs e n)).
Proof.
  intros H. unfold shr. destruct n as [|p|p]; simpl; try exact H.
  apply (iter_pos_keeps (fun x => 0 <= shr_m x)); [apply shr_1_nonneg|exact H].
Qed.

Lemma shr_fexp_nonneg (m e : Z) (l : location) :
  0 <= m -> 0 <= shr_m (fst (shr_fexp prec emax m e l)).
Proof.
  intros H. unfold shr_fexp. apply shr_nonneg.
  destruct l as [|[ | | ]]; exact H.
Qed.

Lemma round_nearest_even_nonneg (m : Z) (l : location) :
  0 <= m -> 0 <= round_nearest_even m l.
Proof.
  intros H. unfold round_nearest_even.
  destruct l as [|[ | | ]]; try lia. destruct (Z.even m); lia.
Qed.

Lemma binary_round_aux_sign (s : bool) (m e : Z) (l : location) :
  0 <= m -> has_sign s (binary_round_aux prec emax s m e l).
Proof.
  intros H. unfold binary_round_aux.
  pose proof (shr_fexp_nonneg m e l H) as H1.
  destruct (shr_fexp prec emax m e l) as [mrs' e'].
  cbn [fst] in H1.
  pose proof (shr_fexp_nonneg
                (round_nearest_even (shr_m mrs') (loc_of_shr_record mrs'))
                e' loc_Exact (round_nearest_even_nonneg _ _ H1)) as H2.
  destruct (shr_fexp prec emax _ e' loc_Exact) as [mrs'' e''].
  cbn [fst] in H2.
  destruct (shr_m mrs'') as [|p|p].
  - exact eq_refl.
  - destruct (e'' <=? emax - prec); exact eq_refl.
  - lia.
Qed.

Lemma of_ratio_sign (s : bool) (n d : positive) :
  has_sign s (of_ratio s n d).
Proof.
  unfold of_ratio, SFdiv_core_binary.
  set (m' := match _ - _ - _ with
             | Z0 => Zpos n
             | Zpos _ => Z.shiftl (Zpos n) _
             | Zneg _ => 0
             end).
  assert (Hm : 0 <= m').
  { subst m'. destruct (_ - _ - _); try lia.
    apply Z.shiftl_nonneg. lia. }
  destruct (Z.div_eucl m' (Zpos d)) as [q r] eqn:E.
  apply binary_round_aux_sign.
  assert (Q : q = m' / Zpos d) by (unfold Z.div; now rewrite E).
  rewrite Q. apply Z.div_pos; lia.
Qed.

(** [round(x, 2)] keeps the sign of a number and makes no NaN of it. *)
Lemma round2_sign (s : bool) (x : float) :
  has_sign s x -> has_sign s (round2 x).
Proof.
  destruct x as [s'|s'| |s' m e]; simpl; try tauto.
  intros ->. destruct (hundredths m e); [exact eq_refl| |exact eq_refl].
  apply of_ratio_sign.
Qed.

(** The payload keeps the sign of a monetary input: a cost that is not
    negative, as the number inputs of the forms give it, comes out as [0]
    or as a float that is not negative and not a NaN; and a negative one
    comes out negative or as a negative zero, never as a positive amount. *)
Theorem payload_costs_keep_sign (f : form) (s t : bool) :
  has_sign s (service_cost f) ->
  has_sign t (fee f) ->
  cost_has_sign s (Payload.service_cost (payload_of_form f)) /\
  cost_has_sign t (Payload.fee (payload_of_form f)).
Proof.
  intros Hs Ht. unfold payload_of_form, build_payload.
  cbn [Payload.service_cost Payload.fee]. unfold PyNum.or_0. split.
  - destruct (truthy (service_cost f)); simpl; [|reflexivity].
    now apply round2_sign.
  - destruct (truthy (fee f)); simpl; [|reflexivity].
    now apply round2_sign.
Qed.

End SignFacts.

Lemma payload_costs_keep_sign_witness :
  cost_has_sign false (Payload.service_cost (payload_of_form later_form)) /\
  cost_has_sign false (Payload.fee (payload_of_form later_form)).
Proof.
  apply (payload_costs_keep_sign later_form false false).
  - vm_compute. reflexivity.
  - vm_compute. reflexivity.
Defined.
